(** * Ethereal command-line harness (src/cmdline.c)

    A shallow embedding of [handleCommandLine], [runBenchmark],
    [runEvalBook], [filterBook] and [buildNNBook], and the properties of
    the harness that the specification states about them.

    Conventions.
    - C integers are [Z]; every conversion to a narrower type is written
      out ([to_uint8], [to_int16], ...).
    - A C string is a [string]; text files hold no NUL character.
    - Behaviour that C leaves undefined (an out-of-bounds array access, a
      NULL dereference, [getlsb] of an empty bitboard, ...) is a [Fault].
    - The search engine (boards, search, evaluation, transposition table,
      clock) is not part of cmdline.c: it is the interface [EngineHandle]. *)

From Stdlib Require Import ZArith List String Ascii Bool Lia Arith.
From Stdlib Require Import DecimalString.
From Corelib Require Import SpecFloat.
From Equations Require Import Equations.
Import ListNotations.
Open Scope bool_scope.
Open Scope string_scope.
Open Scope Z_scope.

Set Implicit Arguments.

(* ------------------------------------------------------------------ *)
(** ** Outcomes of C code that may run into undefined behaviour        *)
(* ------------------------------------------------------------------ *)

Inductive fault : Type :=
  | OutOfBounds (array : string) (index : Z)
  | NullPointer (what : string)
  | Undefined (what : string)
  | OutOfFuel.

Inductive outcome (A : Type) : Type :=
  | Done (a : A)
  | Fault (f : fault).

Arguments Done {A} a.
Arguments Fault {A} f.

Definition obind {A B} (m : outcome A) (k : A -> outcome B) : outcome B :=
  match m with
  | Done a => k a
  | Fault f => Fault f
  end.

Declare Scope outcome_scope.
Delimit Scope outcome_scope with outcome.
Notation "'do' x <- m ; k" := (obind m (fun x => k))
  (at level 10, x pattern, m at level 100, k at level 200) : outcome_scope.

Definition from_option {A} (f : fault) (o : option A) : outcome A :=
  match o with
  | Some a => Done a
  | None => Fault f
  end.

(* ------------------------------------------------------------------ *)
(** ** Fixed-width integers                                           *)
(* ------------------------------------------------------------------ *)

Definition is_uint64 (z : Z) : Prop := 0 <= z < 2 ^ 64.

Definition to_uint8 (z : Z) : Z := z mod 256.
Definition to_uint64 (z : Z) : Z := z mod 2 ^ 64.
Definition to_int8 (z : Z) : Z := (z + 128) mod 256 - 128.
Definition to_int16 (z : Z) : Z := (z + 32768) mod 65536 - 32768.
Definition to_int32 (z : Z) : Z := (z + 2 ^ 31) mod 2 ^ 32 - 2 ^ 31.

Definition INT_MIN : Z := - 2 ^ 31.
Definition INT_MAX : Z := 2 ^ 31 - 1.

(** Little-endian bytes of an [n]-byte object, as [fwrite] stores them on
    the x86 targets of the engine. *)
Fixpoint le_bytes (n : nat) (z : Z) : list Z :=
  match n with
  | O => []
  | S n' => z mod 256 :: le_bytes n' (z / 256)
  end.

Fixpoint le_value (bs : list Z) : Z :=
  match bs with
  | [] => 0
  | b :: bs' => b + 256 * le_value bs'
  end.

(* ------------------------------------------------------------------ *)
(** ** Fixed-size C arrays                                             *)
(* ------------------------------------------------------------------ *)

Fixpoint list_update {A} (l : list A) (i : nat) (v : A) : list A :=
  match l, i with
  | [], _ => []
  | _ :: t, O => v :: t
  | h :: t, S i' => h :: list_update t i' v
  end.

(** [a[i] = v]: a store outside the array is undefined behaviour. *)
Definition array_set {A} (name : string) (a : list A) (i : nat) (v : A)
  : outcome (list A) :=
  if (i <? List.length a)%nat then Done (list_update a i v)
  else Fault (OutOfBounds name (Z.of_nat i)).

(** [a[i]]: a load outside the array is undefined behaviour. *)
Definition array_get {A} (name : string) (a : list A) (i : nat) : outcome A :=
  from_option (OutOfBounds name (Z.of_nat i)) (nth_error a i).

(* ------------------------------------------------------------------ *)
(** ** Bitboards                                                       *)
(* ------------------------------------------------------------------ *)

(** The 64 square indices, in ascending order. *)
Definition bit_indices : list Z := map Z.of_nat (seq 0 64).

(** The set bits of a bitboard, least significant first. *)
Definition squares_of (bb : Z) : list Z := filter (Z.testbit bb) bit_indices.

(** Modelled from the spec: [popcount] of bitboards.h, which is not under
    src/: the population count, the number of set bits of a 64-bit
    bitboard. *)
Definition popcount (bb : Z) : Z := Z.of_nat (List.length (squares_of bb)).

(** Modelled from the spec: [getlsb] of bitboards.h, which is not under
    src/: the least-significant-bit lookup, the index of the lowest set
    bit.  The empty bitboard has none. *)
Definition getlsb (bb : Z) : outcome Z :=
  from_option (Undefined "getlsb of an empty bitboard") (hd_error (squares_of bb)).

(** Modelled from the spec: [poplsb] of bitboards.h, which is not under
    src/: least-significant-bit removal; it returns the index of the
    lowest set bit and clears that bit in place. *)
Definition poplsb (bb : Z) : outcome (Z * Z) :=
  (do sq <- getlsb bb; Done (sq, Z.clearbit bb sq))%outcome.

(* ------------------------------------------------------------------ *)
(** ** The C string functions the harness calls                        *)
(* ------------------------------------------------------------------ *)

(** [strstr(hay, needle)]: the suffix of [hay] that starts at the first
    occurrence of [needle]; [None] is the NULL pointer. *)
Fixpoint strstr (hay needle : string) : option string :=
  if prefix needle hay then Some hay
  else match hay with
       | EmptyString => None
       | String _ rest => strstr rest needle
       end.

(** [s + n] for a pointer [s] into a string of at least [n] characters. *)
Fixpoint advance (n : nat) (s : string) : string :=
  match n, s with
  | S n', String _ rest => advance n' rest
  | _, _ => s
  end.

Definition isspace (c : ascii) : bool :=
  let n := nat_of_ascii c in ((n =? 32) || ((9 <=? n) && (n <=? 13)))%nat.

Definition digit_of (c : ascii) : option Z :=
  let n := Z.of_nat (nat_of_ascii c) in
  if (48 <=? n) && (n <=? 57) then Some (n - 48) else None.

Fixpoint skip_spaces (s : string) : string :=
  match s with
  | String c rest => if isspace c then skip_spaces rest else s
  | EmptyString => s
  end.

Fixpoint read_digits (acc : Z) (s : string) : Z :=
  match s with
  | String c rest =>
      match digit_of c with
      | Some d => read_digits (10 * acc + d) rest
      | None => acc
      end
  | EmptyString => acc
  end.

(** The integer a decimal prefix denotes: blanks, an optional sign, digits. *)
Definition parse_int (s : string) : Z :=
  match skip_spaces s with
  | String "-" rest => - read_digits 0 rest
  | String "+" rest => read_digits 0 rest
  | t => read_digits 0 t
  end.

(** [atoi]: undefined when the value does not fit an [int]. *)
Definition atoi (s : string) : outcome Z :=
  let v := parse_int s in
  if (INT_MIN <=? v) && (v <=? INT_MAX) then Done v
  else Fault (Undefined "atoi out of range").

(** [strEquals] of uci.h (a macro over [strcmp]): string equality. *)
Definition strEquals (a b : string) : bool := String.eqb a b.

(** The test [strstr(line, marker) != NULL]. *)
Definition found (line marker : string) : bool :=
  match strstr line marker with
  | Some _ => true
  | None => false
  end.

(* ------------------------------------------------------------------ *)
(** ** Boards and pieces, as cmdline.c reads them                      *)
(* ------------------------------------------------------------------ *)

Inductive Colour : Type := WHITE | BLACK.
Inductive PieceType : Type := PAWN | KNIGHT | BISHOP | ROOK | QUEEN | KING.

(** The fields of [Board] (board.h) that cmdline.c reads.  [squares] holds
    one piece byte per square; [pieces] and [colours] are bitboards. *)
Record Board : Type := {
  squares : Z -> Z;
  pieces : PieceType -> Z;
  colours : Colour -> Z;
  turn : Z;
  kingAttackers : Z
}.

(** The macros [pieceColour] and [pieceType] of types.h, which is not
    under src/: they are parameters of the model. *)
Class PieceMacros : Type := {
  pieceColour : Z -> Z;
  pieceType : Z -> Z
}.

(** The binary record [buildNNBook] writes for one line, field by field in
    the order of its [fwrite] calls. *)
Record TrainingRecord : Type := {
  rec_occupancy : Z;        (* uint64_t pieces *)
  rec_eval : Z;             (* int16_t eval *)
  rec_result : Z;           (* uint8_t result *)
  rec_turn : Z;             (* int8_t turn, as the byte written *)
  rec_wksq : Z;             (* uint8_t wksq *)
  rec_bksq : Z;             (* uint8_t bksq *)
  rec_count : Z;            (* uint8_t count *)
  rec_packed : list Z       (* (count + 1) / 2 bytes of packed[] *)
}.

(** The bytes of a record in the output file. *)
Definition record_bytes (r : TrainingRecord) : list Z :=
  le_bytes 8 (rec_occupancy r) ++ le_bytes 2 (rec_eval r)
  ++ [rec_result r; rec_turn r; rec_wksq r; rec_bksq r; rec_count r]
  ++ rec_packed r.


Section TrainingEncoder.
Context {PM : PieceMacros}.

(** [#define encode_piece(p) (8 * pieceColour(p) + pieceType(p))] *)
Definition encode_piece (p : Z) : Z := 8 * pieceColour p + pieceType p.

(** [#define pack_pieces(p1, p2) (((p1) << 4) | (p2))] *)
Definition pack_pieces (p1 p2 : Z) : Z := Z.lor (Z.shiftl p1 4) p2.

(** [uint8_t result; if (strstr(line, "[0.0]")) result = 0u; ...]:
    [junk] is the indeterminate value of the uninitialised variable. *)
Definition result_of (junk : Z) (line : string) : Z :=
  let result := junk in
  let result := if found line "[0.0]" then 0 else result in
  let result := if found line "[0.5]" then 1 else result in
  let result := if found line "[1.0]" then 2 else result in
  result.

(** [char *tail = strstr(line, "] "); int16_t eval = atoi(tail + strlen("] "));] *)
Definition eval_of (line : string) : outcome Z :=
  (do tail <- from_option (NullPointer "tail") (strstr line "] ");
   do v <- atoi (advance (String.length "] ") tail);
   Done (to_int16 v))%outcome.

(** [for (int i = 0; pieces; i++) { int sq = poplsb(&pieces);
       types[i] = encode_piece(board->squares[sq]); }]
    A 64-bit value has at most 64 set bits: [fuel] bounds the loop. *)
Fixpoint fill_types (fuel : nat) (b : Board) (i : nat) (pcs : Z)
         (types : list Z) : outcome (list Z) :=
  if pcs =? 0 then Done types
  else match fuel with
       | O => Fault OutOfFuel
       | S fuel' =>
           (do (sq, pcs') <- poplsb pcs;
            do types' <- array_set "types" types i
                           (to_uint8 (encode_piece (squares b sq)));
            fill_types fuel' b (S i) pcs' types')%outcome
       end.

(** [for (int i = 0; i < 16; i++)
       packed[i] = pack_pieces(types[i*2], types[i*2+1]);]
    [n] counts the iterations left. *)
Fixpoint pack_loop (n : nat) (i : nat) (types packed : list Z)
  : outcome (list Z) :=
  match n with
  | O => Done packed
  | S n' =>
      (do p1 <- array_get "types" types (i * 2);
       do p2 <- array_get "types" types (i * 2 + 1);
       do packed' <- array_set "packed" packed i (to_uint8 (pack_pieces p1 p2));
       pack_loop n' (S i) types packed')%outcome
  end.

(** [fwrite(a, sizeof(uint8_t), n, fout)]: the first [n] bytes of [a]. *)
Definition fwrite_bytes (name : string) (a : list Z) (n : nat)
  : outcome (list Z) :=
  if (n <=? List.length a)%nat then Done (firstn n a)
  else Fault (OutOfBounds name (Z.of_nat n)).

(** The body of the loop of [buildNNBook] after [boardFromFEN]: the
    record written for [line] when [b] is the board parsed from it. *)
Definition record_of_line (b : Board) (junk : Z) (line : string)
  : outcome TrainingRecord :=
  (do eval <- eval_of line;
   let turn8 := to_int8 (turn b) in
   let white := colours b WHITE in
   let black := colours b BLACK in
   let pcs := Z.lor white black in
   let count := to_uint8 (popcount pcs) in
   do wk <- getlsb (Z.land white (pieces b KING));
   do bk <- getlsb (Z.land black (pieces b KING));
   let wksq := to_uint8 wk in
   let bksq := to_uint8 bk in
   let types := repeat 0 32 in
   let packed := repeat 0 16 in
   let result := result_of junk line in
   (* the seven fwrite calls of the header happen here, with [pcs] *)
   do types <- fill_types 64 b 0 pcs types;
   do packed <- pack_loop 16 0 types packed;
   do body <- fwrite_bytes "packed" packed (Z.to_nat ((count + 1) / 2));
   Done {| rec_occupancy := pcs;
           rec_eval := eval;
           rec_result := result;
           rec_turn := to_uint8 turn8;
           rec_wksq := wksq;
           rec_bksq := bksq;
           rec_count := count;
           rec_packed := body |})%outcome.

(** The byte stored in [types] for the piece on a square. *)
Definition type_byte (b : Board) (sq : Z) : Z :=
  to_uint8 (encode_piece (squares b sq)).

(** The byte stored in [packed] at index [j]. *)
Definition packed_byte (types : list Z) (j : nat) : Z :=
  to_uint8 (pack_pieces (nth (j * 2) types 0) (nth (j * 2 + 1) types 0)).

(** The code of the piece on a square: 8 * colour + piece type. *)
Definition piece_code (b : Board) (sq : Z) : Z :=
  8 * pieceColour (squares b sq) + pieceType (squares b sq).

(** On every occupied square stands a piece of colour 0 or 1 and of
    type 0 to 5: what [boardFromFEN] leaves in a board. *)
Definition board_pieces_valid (b : Board) : Prop :=
  forall sq,
    In sq (squares_of (Z.lor (colours b WHITE) (colours b BLACK))) ->
    (0 <= pieceColour (squares b sq) <= 1) /\ (0 <= pieceType (squares b sq) <= 5).


End TrainingEncoder.



(** *** A concrete piece encoding and board, to run the model on *)

(** Pieces numbered [4 * type + colour], as the engine does. *)
Definition piece_index (t : PieceType) : Z :=
  match t with
  | PAWN => 0 | KNIGHT => 1 | BISHOP => 2 | ROOK => 3 | QUEEN => 4 | KING => 5
  end.

Definition colour_index (c : Colour) : Z :=
  match c with WHITE => 0 | BLACK => 1 end.

Definition make_piece (t : PieceType) (c : Colour) : Z :=
  4 * piece_index t + colour_index c.

#[local] Instance sample_macros : PieceMacros :=
  {| pieceColour := fun p => p mod 4; pieceType := fun p => p / 4 |}.

Definition colour_eqb (a b : Colour) : bool :=
  match a, b with
  | WHITE, WHITE | BLACK, BLACK => true
  | _, _ => false
  end.

Definition piece_type_eqb (a b : PieceType) : bool :=
  piece_index a =? piece_index b.

(** The board holding the listed pieces, [(square, colour, type)]. *)
Definition board_of_placement (l : list (Z * Colour * PieceType)) (stm : Z)
  : Board :=
  {| squares := fun sq =>
       match find (fun '(s, _, _) => s =? sq) l with
       | Some (_, c, t) => make_piece t c
       | None => 26
       end;
     pieces := fun t =>
       fold_right Z.lor 0
         (map (fun '(s, _, t') => if piece_type_eqb t t' then 2 ^ s else 0) l);
     colours := fun c =>
       fold_right Z.lor 0
         (map (fun '(s, c', _) => if colour_eqb c c' then 2 ^ s else 0) l);
     turn := stm;
     kingAttackers := 0 |}.

(** White king e1, black king e8, white pawn e2. *)
Definition three_piece_board : Board :=
  board_of_placement [(4, WHITE, KING); (60, BLACK, KING); (12, WHITE, PAWN)] 0.

Definition three_piece_line : string :=
  "4k3/8/8/8/8/8/4P3/4K3 w - - 0 1 [1.0] 135".

(* ------------------------------------------------------------------ *)
(** ** Text files and [fgets]                                          *)
(* ------------------------------------------------------------------ *)

Definition newline : ascii := ascii_of_nat 10.
Definition nl : string := String newline EmptyString.

(** At most [n] characters of [s], stopping after a newline; the rest. *)
Fixpoint read_line (n : nat) (s : string) : string * string :=
  match n, s with
  | S n', String c rest =>
      if Ascii.eqb c newline then (String c EmptyString, rest)
      else let (l, r) := read_line n' rest in (String c l, r)
  | _, _ => (EmptyString, s)
  end.

(** [fgets(line, size, f)] on the unread part [s] of a file: [None] is
    NULL (end of file), else the line read and what is left. *)
Definition fgets (size : nat) (s : string) : option (string * string) :=
  match s with
  | EmptyString => None
  | _ => Some (read_line (size - 1) s)
  end.

Definition inspect {A} (a : A) : {b | a = b} := exist _ a eq_refl.

Lemma read_line_length n s l r :
  read_line n s = (l, r) ->
  (String.length l + String.length r = String.length s)%nat.
Proof.
  revert s l r; induction n; intros s l r; simpl.
  - intros [= <- <-]; reflexivity.
  - destruct s as [|c rest].
    + intros [= <- <-]; reflexivity.
    + destruct (Ascii.eqb c newline).
      * intros [= <- <-]; reflexivity.
      * destruct (read_line n rest) as [l' r'] eqn:E. intros [= <- <-].
        simpl. f_equal. eauto.
Qed.

Lemma read_line_step n c rest :
  read_line (S n) (String c rest) =
  if Ascii.eqb c newline then (String c EmptyString, rest)
  else let (l, r) := read_line n rest in (String c l, r).
Proof. reflexivity. Qed.

Lemma read_line_progress n c rest l r :
  read_line (S n) (String c rest) = (l, r) ->
  (String.length r < String.length (String c rest))%nat.
Proof.
  intros H. pose proof (read_line_length _ _ H) as HL.
  rewrite read_line_step in H. destruct (Ascii.eqb c newline).
  - injection H as <- <-. simpl. lia.
  - destruct (read_line n rest) as [l' r'] eqn:E. injection H as <- <-.
    simpl in HL. simpl. lia.
Qed.

Lemma fgets_shrinks s l r :
  fgets 256 s = Some (l, r) -> (String.length r < String.length s)%nat.
Proof.
  destruct s as [|c rest]; [discriminate|].
  unfold fgets. change (256 - 1)%nat with (S 254). intros H.
  apply (@read_line_progress 254 c rest l r). congruence.
Qed.

(** The lines that [while (fgets(line, 256, f) != NULL)] sees, in order. *)
Equations? fgets_lines (s : string) : list string by wf (String.length s) lt :=
  fgets_lines s with inspect (fgets 256 s) := {
    | exist _ None _ => [];
    | exist _ (Some (l, rest)) H => l :: fgets_lines rest }.
Proof. eapply fgets_shrinks; eauto. Qed.

(* ------------------------------------------------------------------ *)
(** ** Floating point, as the benchmark report computes with it        *)
(* ------------------------------------------------------------------ *)

(** [float] is IEEE binary32 and [double] binary64, each operation done
    in the type of its operands. *)
Definition float_of_Z (z : Z) : spec_float := binary_normalize 24 128 z 0 false.
Definition double_of_Z (z : Z) : spec_float := binary_normalize 53 1024 z 0 false.

Definition fmul (x y : spec_float) : spec_float := SFmul 24 128 x y.
Definition dadd (x y : spec_float) : spec_float := SFadd 53 1024 x y.
Definition dsub (x y : spec_float) : spec_float := SFsub 53 1024 x y.
Definition ddiv (x y : spec_float) : spec_float := SFdiv 53 1024 x y.

(** [(int)d]: truncation toward zero; undefined when the truncated value
    does not fit an [int] (so for infinities and NaN). *)
Definition int_of_double (d : spec_float) : outcome Z :=
  match d with
  | S754_zero _ => Done 0
  | S754_finite s m e =>
      let mag := if 0 <=? e then Z.pos m * 2 ^ e else Z.pos m / 2 ^ (- e) in
      let v := if s then - mag else mag in
      if (INT_MIN <=? v) && (v <=? INT_MAX) then Done v
      else Fault (Undefined "double to int out of range")
  | _ => Fault (Undefined "double to int of a non-number")
  end.

(** [1000.0f * nodes / (time + 1)], with [nodes] a [uint64_t] and [time] a
    [double]: the product is a [float], the sum and quotient [double]s. *)
Definition nps_value (nodes : Z) (time : spec_float) : spec_float :=
  ddiv (fmul (float_of_Z 1000) (float_of_Z nodes)) (dadd time (double_of_Z 1)).

(* ------------------------------------------------------------------ *)
(** ** [printf]                                                        *)
(* ------------------------------------------------------------------ *)

Inductive parg : Type :=
  | PInt (z : Z)
  | PStr (s : string).

Definition decimal (z : Z) : string := NilZero.string_of_int (Z.to_int z).

Fixpoint spaces (n : nat) : string :=
  match n with
  | O => EmptyString
  | S n' => String " " (spaces n')
  end.

(** Right-justified in a field of [width] characters. *)
Definition pad_left (width : nat) (s : string) : string :=
  spaces (width - String.length s) ++ s.

Definition render_arg (a : parg) : string :=
  match a with
  | PInt z => decimal z
  | PStr s => s
  end.

(** The text of the conversion that starts after a [%]: a width, then
    [d] or [s], consuming one argument. *)
Fixpoint render_spec (width : nat) (fmt : string) (args : list parg)
  : string * string * list parg :=
  match fmt with
  | EmptyString => (EmptyString, EmptyString, args)
  | String c rest =>
      match digit_of c with
      | Some d => render_spec (10 * width + Z.to_nat d) rest args
      | None =>
          match args with
          | a :: args' => (pad_left width (render_arg a), rest, args')
          | [] => (EmptyString, rest, [])
          end
      end
  end.

(** The text [printf(fmt, args...)] writes, for the conversions the
    harness uses ([%s], [%d], [%Nd], [%Ns]). *)
Fixpoint render (fuel : nat) (fmt : string) (args : list parg) : string :=
  match fuel with
  | O => EmptyString
  | S fuel' =>
      match fmt with
      | EmptyString => EmptyString
      | String "%" rest =>
          let '(txt, rest', args') := render_spec 0 rest args in
          txt ++ render fuel' rest' args'
      | String c rest => String c (render fuel' rest args)
      end
  end.

Definition sprintf (fmt : string) (args : list parg) : string :=
  render (String.length fmt) fmt args.

(* ------------------------------------------------------------------ *)
(** ** The engine behind the harness                                   *)
(* ------------------------------------------------------------------ *)

(** The fields of [Limits] (search.h) that cmdline.c sets; the others
    stay zero. *)
Record Limits : Type := {
  multiPV : Z;
  limitedByDepth : Z;
  depthLimit : Z;
  start : spec_float
}.

(** The engine as the harness uses it.  [Engine] is the state behind the
    calls: the transposition table, the thread pool, the board being
    parsed into, the clock.  None of these functions is in cmdline.c.
    [info_value g k] is [threads->info->values[k]]; the array [values]
    has [MAX_PLY] elements (search.h and types.h are not under src/). *)
Class EngineHandle : Type := {
  Engine : Type;
  board_of : Engine -> Board;
  boardFromFEN : string -> Engine -> Engine;
  initTT : Z -> Engine -> Engine;
  clearTT : Engine -> Engine;
  createThreadPool : Z -> Engine -> Engine;
  resetThreadPool : Engine -> Engine;
  getRealTime : Engine -> spec_float * Engine;
  getBestMove : Limits -> Engine -> (Z * Z) * Engine;
  info_value : Engine -> Z -> Z;
  MAX_PLY : Z;
  nodesSearchedThreadPool : Engine -> Z;
  evaluateBoard : Engine -> Z * Engine;
  qsearch : Z -> Z -> Engine -> Z * Engine;
  moveToString : Z -> string;
  runTuner : Engine -> Engine;
  MATE : Z
}.

(** What the harness does to the world outside it, in order. *)
Inductive event : Type :=
  | EvInitTT (megabytes : Z)
  | EvClearTT
  | EvCreateThreadPool (nthreads : Z)
  | EvResetThreadPool
  | EvGetRealTime
  | EvBoardFromFEN (fen : string)
  | EvGetBestMove (limits : Limits)
  | EvEvaluateBoard
  | EvQsearch (alpha beta : Z)
  | EvPrintf (fmt : string) (args : list parg)
  | EvWriteRecord (r : TrainingRecord)
  | EvFree
  | EvRunTuner.

(** How [handleCommandLine] ends. *)
Inductive control : Type :=
  | Returned
  | Exited (status : Z).

Definition EXIT_SUCCESS : Z := 0.

(** The text on standard output. *)
Fixpoint stdout_of (log : list event) : string :=
  match log with
  | [] => EmptyString
  | EvPrintf fmt args :: rest => sprintf fmt args ++ stdout_of rest
  | _ :: rest => stdout_of rest
  end.

(** The records written to output.nnbook, and the bytes of the file. *)
Fixpoint records_of (log : list event) : list TrainingRecord :=
  match log with
  | [] => []
  | EvWriteRecord r :: rest => r :: records_of rest
  | _ :: rest => records_of rest
  end.

Definition nnbook_bytes (log : list event) : list Z :=
  flat_map record_bytes (records_of log).

(** The files: the content of the ones that can be opened for reading,
    by name, and the names under which a file can be created. *)
Record FileSystem : Type := {
  readable :> string -> option string;
  writable : string -> bool
}.

Section Harness.
Context {EH : EngineHandle} {PM : PieceMacros}.

(** A piece of a pipeline: from the files and the engine state, a fault
    or a value, the engine state after, and the events in order. *)
Definition M (A : Type) : Type :=
  FileSystem -> Engine -> outcome (A * Engine * list event).

Definition ret {A} (a : A) : M A := fun _ g => Done (a, g, []).

Definition bind {A B} (m : M A) (k : A -> M B) : M B :=
  fun fs g =>
    match m fs g with
    | Done (a, g1, evs1) =>
        match k a fs g1 with
        | Done (b, g2, evs2) => Done (b, g2, evs1 ++ evs2)%list
        | Fault f => Fault f
        end
    | Fault f => Fault f
    end.

Definition lift {A} (o : outcome A) : M A :=
  fun _ g => match o with
             | Done a => Done (a, g, [])
             | Fault f => Fault f
             end.

(** A call into the engine that returns a value. *)
Definition call {A} (e : event) (f : Engine -> A * Engine) : M A :=
  fun _ g => let (a, g') := f g in Done (a, g', [e]).

(** A call into the engine for its effect. *)
Definition call_ (e : event) (f : Engine -> Engine) : M unit :=
  call e (fun g => (tt, f g)).

(** A read of engine state. *)
Definition peek {A} (f : Engine -> A) : M A := fun _ g => Done (f g, g, []).

Definition emit (e : event) : M unit := call_ e (fun g => g).

Definition printf (fmt : string) (args : list parg) : M unit :=
  emit (EvPrintf fmt args).

(** [fopen(name, "r")]: the content of the file, or NULL. *)
Definition fopen_read (name : option string) : M (option string) :=
  fun fs g => match name with
              | Some n => Done (fs n, g, [])
              | None => Fault (NullPointer "fopen(NULL)")
              end.

(** [fopen(name, "wb")]: a stream, or NULL when the file cannot be
    created. *)
Definition fopen_write (name : string) : M (option unit) :=
  fun fs g => Done (if writable fs name then Some tt else None, g, []).

End Harness.

Declare Scope harness_scope.
Delimit Scope harness_scope with harness.
Notation "'do' x <- m ; k" := (bind m (fun x => k))
  (at level 10, x pattern, m at level 100, k at level 200) : harness_scope.

Section Pipelines.
Context {EH : EngineHandle} {PM : PieceMacros}.
Open Scope harness_scope.

(** [while (fgets(line, 256, f) != NULL) body]; [k] numbers the lines. *)
Fixpoint for_lines (lines : list string) (k : nat)
         (body : nat -> string -> M unit) : M unit :=
  match lines with
  | [] => ret tt
  | line :: rest => do _ <- body k line; for_lines rest (S k) body
  end.

Definition while_fgets (f : option string) (body : nat -> string -> M unit)
  : M unit :=
  match f with
  | None => lift (Fault (NullPointer "fgets on a NULL stream"))
  | Some content => for_lines (fgets_lines content) 0%nat body
  end.

(** [argc > k ? atoi(argv[k]) : dflt] *)
Definition int_arg (argv : list string) (k : nat) (dflt : Z) : M Z :=
  match nth_error argv k with
  | Some a => lift (atoi a)
  | None => ret dflt
  end.

(** *** [filterBook] *)

Definition filter_line (line : string) : M unit :=
  do _ <- call_ (EvBoardFromFEN line) (boardFromFEN line);
  do board <- peek board_of;
  (* Remove all in-check positions *)
  if negb (kingAttackers board =? 0) then ret tt else
  (* Remove all Tablebase positions *)
  if popcount (Z.lor (colours board WHITE) (colours board BLACK)) <=? 6
  then ret tt else
  (* Remove positions where qs and eval differ *)
  do ev <- call EvEvaluateBoard evaluateBoard;
  do qs <- call (EvQsearch (- MATE) MATE) (qsearch (- MATE) MATE);
  if negb (ev =? qs) then ret tt else
  printf "%s" [PStr line].

Definition filterBook (fname : option string) : M unit :=
  do fin <- fopen_read fname;
  do _ <- call_ (EvCreateThreadPool 1) (createThreadPool 1);
  do _ <- while_fgets fin (fun _ line => filter_line line);
  emit EvFree.

(** *** [buildNNBook]

    [junk k] is the indeterminate content of [result] at line [k]. *)

(** What the body of the loop evaluates before its first [fwrite]: the
    evaluation and the two king squares. *)
Definition before_fwrite (b : Board) (line : string) : outcome unit :=
  (do _ <- eval_of line;
   do _ <- getlsb (Z.land (colours b WHITE) (pieces b KING));
   do _ <- getlsb (Z.land (colours b BLACK) (pieces b KING));
   Done tt)%outcome.

(** [fout] is what [fopen("output.nnbook", "wb")] returned; nothing
    looks at it before the first [fwrite] of the first line. *)
Definition nnbook_line (junk : nat -> Z) (fout : option unit) (k : nat)
           (line : string) : M unit :=
  do _ <- call_ (EvBoardFromFEN line) (boardFromFEN line);
  do board <- peek board_of;
  do _ <- lift (before_fwrite board line);
  (* fwrite(&pieces, sizeof(uint64_t), 1, fout); *)
  do _ <- lift (from_option (NullPointer "fwrite on a NULL stream") fout);
  do r <- lift (record_of_line board (junk k) line);
  emit (EvWriteRecord r).

Definition buildNNBook (junk : nat -> Z) (fname : option string) : M unit :=
  do fin <- fopen_read fname;
  do fout <- fopen_write "output.nnbook";
  do _ <- call_ (EvCreateThreadPool 1) (createThreadPool 1);
  do _ <- while_fgets fin (nnbook_line junk fout);
  (* fclose(fin); fclose(fout); *)
  do _ <- lift (from_option (NullPointer "fclose(NULL)") fout);
  emit EvFree.

(** *** [runEvalBook] *)

Definition evalbook_line (limits : Limits) (line : string) : M unit :=
  do now <- call EvGetRealTime getRealTime;
  let limits := {| multiPV := multiPV limits;
                   limitedByDepth := limitedByDepth limits;
                   depthLimit := depthLimit limits;
                   start := now |} in
  do _ <- call_ (EvBoardFromFEN line) (boardFromFEN line);
  do _ <- call (EvGetBestMove limits) (getBestMove limits);
  do _ <- call_ EvResetThreadPool resetThreadPool;
  do _ <- call_ EvClearTT clearTT;
  printf "FEN: %s" [PStr line].

Definition runEvalBook (argv : list string) : M unit :=
  do start0 <- call EvGetRealTime getRealTime;
  do book <- fopen_read (nth_error argv 2);
  do depth <- int_arg argv 3 12;
  do nthreads <- int_arg argv 4 1;
  do megabytes <- int_arg argv 5 2;
  do _ <- call_ (EvCreateThreadPool nthreads) (createThreadPool nthreads);
  let limits := {| multiPV := 1; limitedByDepth := 1; depthLimit := depth;
                   start := S754_zero false |} in
  do _ <- call_ (EvInitTT megabytes) (initTT megabytes);
  do _ <- while_fgets book (fun _ line => evalbook_line limits line);
  do now <- call EvGetRealTime getRealTime;
  do ms <- lift (int_of_double (dsub now start0));
  printf ("Time %dms" ++ nl) [PInt ms].

(** *** [runBenchmark] *)

(** The five arrays of 256 elements.  They are not initialised: a cell
    is [None] until it is stored to. *)
Record BenchStats : Type := {
  scores : list (option Z);
  times : list (option spec_float);
  nodes : list (option Z);
  bestMoves : list (option Z);
  ponderMoves : list (option Z)
}.

Definition fresh_stats : BenchStats :=
  {| scores := repeat None 256;
     times := repeat None 256;
     nodes := repeat None 256;
     bestMoves := repeat None 256;
     ponderMoves := repeat None 256 |}.

(** Each array has its 256 elements. *)
Definition stats_sized (st : BenchStats) : Prop :=
  List.length (scores st) = 256%nat /\ List.length (times st) = 256%nat
  /\ List.length (nodes st) = 256%nat
  /\ List.length (bestMoves st) = 256%nat
  /\ List.length (ponderMoves st) = 256%nat.

(** The cell [k] of an array has been stored to. *)
Definition cell_set {A} (a : list (option A)) (k : nat) : Prop :=
  exists v, nth_error a k = Some (Some v).

(** The first [n] cells of each array have been stored to. *)
Definition stats_filled (st : BenchStats) (n : nat) : Prop :=
  forall k, (k < n)%nat ->
    cell_set (scores st) k /\ cell_set (times st) k /\ cell_set (nodes st) k
    /\ cell_set (bestMoves st) k /\ cell_set (ponderMoves st) k.

(** Every node count stored is a [uint64_t]. *)
Definition nodes_ranged (st : BenchStats) : Prop :=
  Forall (fun cell => match cell with
                      | Some v => 0 <= v < 2 ^ 64
                      | None => True
                      end) (nodes st).

(** [nodes[k]] for [k] from [i] on, [n] of them. *)
Definition node_counts (st : BenchStats) (i n : nat) : list Z :=
  map (fun k => match nth k (nodes st) None with
                | Some v => v
                | None => 0
                end) (seq i n).

Definition store {A} (name : string) (a : list (option A)) (i : nat) (v : A)
  : M (list (option A)) :=
  lift (array_set name a i (Some v)).

Definition load {A} (name : string) (a : list (option A)) (i : nat) : M A :=
  lift (do cell <- array_get name a i;
        from_option (Undefined "read of an uninitialised element") cell)%outcome.

Definition set_start (limits : Limits) (now : spec_float) : Limits :=
  {| multiPV := multiPV limits;
     limitedByDepth := limitedByDepth limits;
     depthLimit := depthLimit limits;
     start := now |}.

(** [threads->info->values[depth]], a read of an array of [MAX_PLY]
    elements at the index the command line gave. *)
Definition info_value_at (depth : Z) : M Z :=
  if (0 <=? depth) && (depth <? MAX_PLY)
  then peek (fun g => info_value g depth)
  else lift (Fault (OutOfBounds "values" depth)).

(** [rest] is [Benchmarks] from index [i] on; the loops walk it until
    [strcmp(Benchmarks[i], "")] is 0. *)
Definition past_the_array {A} (i : nat) : M A :=
  lift (Fault (OutOfBounds "Benchmarks" (Z.of_nat i))).

(** The search loop. *)
Fixpoint bench_search (rest : list string) (i : nat) (depth : Z)
         (limits : Limits) (st : BenchStats) : M BenchStats :=
  match rest with
  | [] => past_the_array i
  | fen :: rest' =>
      if strEquals fen "" then ret st else
      (* Perform the search on the position *)
      do now <- call EvGetRealTime getRealTime;
      let limits := set_start limits now in
      do _ <- call_ (EvBoardFromFEN fen) (boardFromFEN fen);
      do moves <- call (EvGetBestMove limits) (getBestMove limits);
      do bm <- store "bestMoves" (bestMoves st) i (fst moves);
      do pm <- store "ponderMoves" (ponderMoves st) i (snd moves);
      (* Stat collection for later printing *)
      do score <- info_value_at depth;
      do sc <- store "scores" (scores st) i score;
      do now' <- call EvGetRealTime getRealTime;
      do tm <- store "times" (times st) i (dsub now' (start limits));
      do n <- peek nodesSearchedThreadPool;
      do nd <- store "nodes" (nodes st) i (to_uint64 n);
      do _ <- call_ EvClearTT clearTT; (* Reset TT between searches *)
      bench_search rest' (S i) depth limits
        {| scores := sc; times := tm; nodes := nd;
           bestMoves := bm; ponderMoves := pm |}
  end.

Definition bench_line_format : string :=
  "Bench [# %2d] %5d cp  Best:%6s  Ponder:%6s %12d nodes %8d nps" ++ nl.

(** The per-position report loop. *)
Fixpoint bench_report (rest : list string) (i : nat) (st : BenchStats)
  : M unit :=
  match rest with
  | [] => past_the_array i
  | fen :: rest' =>
      if strEquals fen "" then ret tt else
      do best <- load "bestMoves" (bestMoves st) i;
      do ponder <- load "ponderMoves" (ponderMoves st) i;
      do score <- load "scores" (scores st) i;
      do n <- load "nodes" (nodes st) i;
      do t <- load "times" (times st) i;
      do nps <- lift (int_of_double (nps_value n t));
      do _ <- printf bench_line_format
                [PInt (Z.of_nat i + 1); PInt score;
                 PStr (moveToString best); PStr (moveToString ponder);
                 PInt (to_int32 n); PInt nps];
      bench_report rest' (S i) st
  end.

(** [for (...) totalNodes += nodes[i];] *)
Fixpoint bench_total (rest : list string) (i : nat) (st : BenchStats)
         (totalNodes : Z) : M Z :=
  match rest with
  | [] => past_the_array i
  | fen :: rest' =>
      if strEquals fen "" then ret totalNodes else
      do n <- load "nodes" (nodes st) i;
      bench_total rest' (S i) st (to_uint64 (totalNodes + n))
  end.

Definition rule : string :=
  "=================================================================================".

Definition overall_format : string := "OVERALL: %53d nodes %8d nps" ++ nl.

(** [bench_csv] is the content of bench.csv, which is not under src/:
    [Benchmarks] is that list followed by the empty string. *)
Definition runBenchmark (bench_csv : list string) (argv : list string)
  : M unit :=
  let Benchmarks := (bench_csv ++ [""])%list in
  do depth <- int_arg argv 2 13;
  do nthreads <- int_arg argv 3 1;
  do megabytes <- int_arg argv 4 16;
  do _ <- call_ (EvInitTT megabytes) (initTT megabytes);
  do time0 <- call EvGetRealTime getRealTime;
  do _ <- call_ (EvCreateThreadPool nthreads) (createThreadPool nthreads);
  (* Initialize a "go depth <x>" search *)
  let limits := {| multiPV := 1; limitedByDepth := 1; depthLimit := depth;
                   start := S754_zero false |} in
  do st <- bench_search Benchmarks 0 depth limits fresh_stats;
  do _ <- printf (nl ++ rule ++ nl) [];
  do _ <- bench_report Benchmarks 0 st;
  do _ <- printf (rule ++ nl) [];
  (* Report the overall statistics *)
  do now <- call EvGetRealTime getRealTime;
  let time := dsub now time0 in
  do totalNodes <- bench_total Benchmarks 0 st 0;
  do nps <- lift (int_of_double (nps_value totalNodes time));
  do _ <- printf overall_format [PInt (to_int32 totalNodes); PInt nps];
  emit EvFree.

(** *** [handleCommandLine]

    [tune] says whether the build defines [TUNE].  [argc] is the length
    of [argv], and [argv[argc]] is NULL. *)

Definition arg_is (argv : list string) (k : nat) (name : string) : bool :=
  match nth_error argv k with
  | Some a => strEquals a name
  | None => false
  end.

Definition handleCommandLine (tune : bool) (bench_csv : list string)
           (junk : nat -> Z) (argv : list string) : M control :=
  let argc := List.length argv in
  if (1 <? argc)%nat && arg_is argv 1 "bench" then
    do _ <- runBenchmark bench_csv argv; ret (Exited EXIT_SUCCESS)
  else if (1 <? argc)%nat && arg_is argv 1 "filter" then
    do _ <- filterBook (nth_error argv 2); ret (Exited EXIT_SUCCESS)
  else if (1 <? argc)%nat && arg_is argv 1 "nnbook" then
    do _ <- buildNNBook junk (nth_error argv 2); ret (Exited EXIT_SUCCESS)
  else if (2 <? argc)%nat && arg_is argv 1 "evalbook" then
    do _ <- runEvalBook argv; ret (Exited EXIT_SUCCESS)
  else if tune then
    do _ <- call_ EvRunTuner runTuner; ret (Exited EXIT_SUCCESS)
  else ret Returned.

End Pipelines.

(** *** Vocabulary for the statements about the benchmark *)

(** The entries of [Benchmarks] before the first empty string. *)
Fixpoint positions (benchmarks : list string) : list string :=
  match benchmarks with
  | [] => []
  | fen :: rest => if strEquals fen "" then [] else fen :: positions rest
  end.

(** The events that concern the transposition table, the searches and
    the per-search state of the thread pool. *)
Inductive phase : Type := PhInitTT | PhSearch | PhClearTT | PhResetPool.

Definition phase_of (e : event) : option phase :=
  match e with
  | EvInitTT _ => Some PhInitTT
  | EvGetBestMove _ => Some PhSearch
  | EvClearTT => Some PhClearTT
  | EvResetThreadPool => Some PhResetPool
  | _ => None
  end.

Fixpoint phases (evs : list event) : list phase :=
  match evs with
  | [] => []
  | e :: rest =>
      match phase_of e with
      | Some p => p :: phases rest
      | None => phases rest
      end
  end.

(** [n] times the list [l]. *)
Fixpoint times_list {A} (n : nat) (l : list A) : list A :=
  match n with
  | O => []
  | S n' => (l ++ times_list n' l)%list
  end.

(** The sum of a list of node counts. *)
Definition sum_list (l : list Z) : Z := fold_right Z.add 0 l.

(** The node-count argument of a per-position report line. *)
Definition bench_line_nodes (e : event) : option Z :=
  match e with
  | EvPrintf _ [_; _; _; _; PInt n; _] => Some n
  | _ => None
  end.

Definition is_init_phase (p : phase) : bool :=
  match p with
  | PhInitTT => true
  | _ => false
  end.

(** The per-position report lines among the events. *)
Definition is_printf (e : event) : bool :=
  match e with
  | EvPrintf _ _ => true
  | _ => false
  end.

(** The event is a [printf] with format [fmt]. *)
Definition is_line_of (fmt : string) (e : event) : bool :=
  match e with
  | EvPrintf f _ => String.eqb f fmt
  | _ => false
  end.

(** A floating-point value that is a number other than zero. *)
Definition nonzero_number (d : spec_float) : bool :=
  match d with
  | S754_zero _ | S754_nan => false
  | _ => true
  end.

(** Every command-line argument denotes an [int]. *)
Definition args_in_range (argv : list string) : Prop :=
  forall k a, nth_error argv k = Some a ->
              INT_MIN <= parse_int a <= INT_MAX.

(** The value of [argc > k ? atoi(argv[k]) : dflt]. *)
Definition int_arg_value (argv : list string) (k : nat) (dflt : Z) : Z :=
  match nth_error argv k with
  | Some a => parse_int a
  | None => dflt
  end.

(** A fault that is an access outside an array. *)
Definition is_bounds_fault (f : fault) : bool :=
  match f with
  | OutOfBounds _ _ => true
  | _ => false
  end.

(** [argv[1]] is absent, or is none of the four command names. *)
Definition unrecognized (argv : list string) : Prop :=
  forall cmd, nth_error argv 1 = Some cmd ->
              cmd <> "bench" /\ cmd <> "filter" /\ cmd <> "nnbook"
              /\ cmd <> "evalbook".

(** *** The filter, as the specification words it *)

Inductive verdict : Type :=
  | RejectedInCheck
  | RejectedFewPieces
  | RejectedNotQuiet
  | Kept.

Section FilterSpec.
Context {EH : EngineHandle}.

(** The side to move is in check. *)
Definition in_check (b : Board) : bool := negb (kingAttackers b =? 0).

(** The number of pieces of both colours. *)
Definition piece_total (b : Board) : Z :=
  popcount (Z.lor (colours b WHITE) (colours b BLACK)).

(** The static evaluation and the zero-depth quiescence value of the
    position the engine holds. *)
Definition static_eval (g : Engine) : Z := fst (evaluateBoard g).

Definition quiescence_value (g : Engine) : Z :=
  fst (qsearch (- MATE) MATE (snd (evaluateBoard g))).

(** The three predicates in the specification's order, each one looked
    at only when the ones before it passed; with the engine state the
    line leaves behind. *)
Definition judge (line : string) (g : Engine) : verdict * Engine :=
  let parsed := boardFromFEN line g in
  if in_check (board_of parsed) then (RejectedInCheck, parsed)
  else if piece_total (board_of parsed) <=? 6 then (RejectedFewPieces, parsed)
  else
    let searched := snd (qsearch (- MATE) MATE (snd (evaluateBoard parsed))) in
    if static_eval parsed =? quiescence_value parsed then (Kept, searched)
    else (RejectedNotQuiet, searched).

(** What the harness does for a line, by its verdict. *)
Definition judge_trace (line : string) (v : verdict) : list event :=
  match v with
  | RejectedInCheck | RejectedFewPieces => [EvBoardFromFEN line]
  | RejectedNotQuiet =>
      [EvBoardFromFEN line; EvEvaluateBoard; EvQsearch (- MATE) MATE]
  | Kept =>
      [EvBoardFromFEN line; EvEvaluateBoard; EvQsearch (- MATE) MATE;
       EvPrintf "%s" [PStr line]]
  end.

(** The lines kept, and the events, for a book read from state [g]. *)
Fixpoint kept_lines (lines : list string) (g : Engine) : list string :=
  match lines with
  | [] => []
  | line :: rest =>
      let (v, g') := judge line g in
      match v with
      | Kept => line :: kept_lines rest g'
      | _ => kept_lines rest g'
      end
  end.

Fixpoint filter_trace (lines : list string) (g : Engine) : list event :=
  match lines with
  | [] => []
  | line :: rest =>
      let (v, g') := judge line g in
      (judge_trace line v ++ filter_trace rest g')%list
  end.

Fixpoint state_after_lines (lines : list string) (g : Engine) : Engine :=
  match lines with
  | [] => g
  | line :: rest => state_after_lines rest (snd (judge line g))
  end.

End FilterSpec.

(** *** Vocabulary for the statements about [buildNNBook] *)

Section Vocabulary.
Context {EH : EngineHandle} {PM : PieceMacros}.

(** [b] is the board the engine holds after [boardFromFEN] of [line]. *)
Definition parsed_from (line : string) (b : Board) : Prop :=
  exists g, b = board_of (boardFromFEN line g).

(** [r] is the record [buildNNBook] writes for [line]. *)
Definition written_for (line : string) (r : TrainingRecord) : Prop :=
  exists b junk, parsed_from line b /\ record_of_line b junk line = Done r.


End Vocabulary.

(** [s] occurs in [line]. *)
Definition occurs_in (s line : string) : Prop :=
  exists pre post, line = pre ++ s ++ post.

(** The three result markers of an annotated line. *)
Inductive marker : Type := Loss | Draw | Win.

Definition marker_text (m : marker) : string :=
  match m with
  | Loss => "[0.0]"
  | Draw => "[0.5]"
  | Win => "[1.0]"
  end.

Definition marker_code (m : marker) : Z :=
  match m with
  | Loss => 0
  | Draw => 1
  | Win => 2
  end.

(** The line carries marker [m]. *)
Definition carries (line : string) (m : marker) : Prop :=
  occurs_in (marker_text m) line.

(** The line carries marker [m] and no other: an annotated line as the
    data model describes it. *)
Definition carries_only (line : string) (m : marker) : Prop :=
  carries line m /\ forall m', carries line m' -> m' = m.

(** The marker the chain of tests in [buildNNBook] recognizes last. *)
Definition last_recognized (line : string) : option marker :=
  if found line "[1.0]" then Some Win
  else if found line "[0.5]" then Some Draw
  else if found line "[0.0]" then Some Loss
  else None.

(** The specification's reading of the evaluation: the integer parsed
    from the text immediately following the last-recognized marker. *)
Definition spec_eval_after_marker (line : string) : option Z :=
  match last_recognized line with
  | Some m =>
      match strstr line (marker_text m) with
      | Some tail => Some (parse_int (advance (String.length (marker_text m)) tail))
      | None => None
      end
  | None => None
  end.

(** *** A small engine, to run the pipelines on *)

Definition piece_of_letter (c : ascii) : option (Colour * PieceType) :=
  match c with
  | "P"%char => Some (WHITE, PAWN)   | "p"%char => Some (BLACK, PAWN)
  | "N"%char => Some (WHITE, KNIGHT) | "n"%char => Some (BLACK, KNIGHT)
  | "B"%char => Some (WHITE, BISHOP) | "b"%char => Some (BLACK, BISHOP)
  | "R"%char => Some (WHITE, ROOK)   | "r"%char => Some (BLACK, ROOK)
  | "Q"%char => Some (WHITE, QUEEN)  | "q"%char => Some (BLACK, QUEEN)
  | "K"%char => Some (WHITE, KING)   | "k"%char => Some (BLACK, KING)
  | _ => None
  end.

(** The piece placement field of a FEN, from square [sq] on. *)
Fixpoint placement_of (fen : string) (sq : Z) : list (Z * Colour * PieceType) :=
  match fen with
  | EmptyString => []
  | String " " _ => []
  | String "/" rest => placement_of rest (sq - 16)
  | String c rest =>
      match digit_of c, piece_of_letter c with
      | Some d, _ => placement_of rest (sq + d)
      | None, Some (col, t) => (sq, col, t) :: placement_of rest (sq + 1)
      | None, None => placement_of rest sq
      end
  end.

Definition sample_board_of (line : string) : Board :=
  let b := board_of_placement (placement_of line 56)
             (if found line " b " then 1 else 0) in
  {| squares := squares b; pieces := pieces b; colours := colours b;
     turn := turn b;
     kingAttackers := if found line "+" then 1 else 0 |}.

Definition piece_value (t : PieceType) : Z :=
  match t with
  | PAWN => 100 | KNIGHT => 300 | BISHOP => 300 | ROOK => 500
  | QUEEN => 900 | KING => 0
  end.

Record SampleEngine : Type := {
  sample_clock : Z;
  sample_line : string;
  sample_nodes : Z;
  sample_table : Z
}.

Definition sample_material (line : string) : Z :=
  fold_right Z.add 0
    (map (fun '(_, c, t) =>
            match c with WHITE => piece_value t | BLACK => - piece_value t end)
         (placement_of line 56)).

#[local] Instance sample_engine : EngineHandle :=
  {| Engine := SampleEngine;
     board_of := fun g => sample_board_of (sample_line g);
     boardFromFEN := fun fen g =>
       {| sample_clock := sample_clock g; sample_line := fen;
          sample_nodes := sample_nodes g; sample_table := sample_table g |};
     initTT := fun mb g =>
       {| sample_clock := sample_clock g; sample_line := sample_line g;
          sample_nodes := sample_nodes g; sample_table := 0 |};
     clearTT := fun g =>
       {| sample_clock := sample_clock g; sample_line := sample_line g;
          sample_nodes := sample_nodes g; sample_table := 0 |};
     createThreadPool := fun _ g => g;
     resetThreadPool := fun g => g;
     getRealTime := fun g => (double_of_Z (sample_clock g), g);
     getBestMove := fun limits g =>
       ((796, 3364),
        {| sample_clock := sample_clock g + 9; sample_line := sample_line g;
           sample_nodes := 5000 * depthLimit limits;
           sample_table := sample_table g + 1 |});
     info_value := fun g _ => sample_material (sample_line g);
     MAX_PLY := 128;
     nodesSearchedThreadPool := sample_nodes;
     evaluateBoard := fun g => (sample_material (sample_line g), g);
     qsearch := fun _ _ g =>
       (sample_material (sample_line g)
        + (if found (sample_line g) "x" then 100 else 0), g);
     moveToString := fun m => "m" ++ decimal m;
     runTuner := fun g => g;
     MATE := 32000 |}.

Definition sample_start : SampleEngine :=
  {| sample_clock := 1000; sample_line := ""; sample_nodes := 0;
     sample_table := 0 |}.

Definition start_fen : string :=
  "rnbqkbnr/pppppppp/8/8/8/8/PPPPPPPP/RNBQKBNR w KQkq - 0 1".

Definition sample_book : string :=
  start_fen ++ " [0.5] 12" ++ nl
  ++ "4k3/8/8/8/8/8/4P3/4K3 w - - 0 1 [1.0] 135" ++ nl
  ++ "rnbqkbnr/pppppppp/8/8/8/8/PPPPPPPP/RNBQK+NR b KQkq - 0 1 [0.0] -40" ++ nl
  ++ "rnbqkbnr/pppp1ppp/8/4p3/3P4/8/PPP1PPPP/RNBQKBNR w KQkq - x [0.5] 30" ++ nl
  ++ "r1bqkbnr/pppppppp/2n5/8/8/5N2/PPPPPPPP/RNBQKB1R b KQkq - 2 2 [1.0] -7" ++ nl.

(** A line with two markers, and a line whose evaluation does not fit 16
    bits. *)
Definition two_marker_line : string :=
  "4k3/8/8/8/8/8/4P3/4K3 w - - 0 1 [0.0] 10 [1.0] 20" ++ nl.

Definition wide_eval_line : string :=
  "4k3/8/8/8/8/8/4P3/4K3 w - - 0 1 [1.0] 40000" ++ nl.

Definition marked_book : string := two_marker_line ++ wide_eval_line.

Definition sample_files : FileSystem :=
  {| readable := fun name =>
       if String.eqb name "book.txt" then Some sample_book
       else if String.eqb name "marked.txt" then Some marked_book
       else None;
     writable := fun name => String.eqb name "output.nnbook" |}.

(** The same files to read, where no file can be created. *)
Definition read_only_files : FileSystem :=
  {| readable := readable sample_files; writable := fun _ => false |}.

(** The run of [buildNNBook] on the sample book, with 7 in every
    uninitialised [result]. *)
Definition sample_nnbook_run : outcome (unit * Engine * list event) :=
  buildNNBook (fun _ => 7) (Some "book.txt") sample_files sample_start.

Definition sample_nnbook_final : SampleEngine :=
  Eval vm_compute in
    match sample_nnbook_run with
    | Done (_, g, _) => g
    | Fault _ => sample_start
    end.

Definition sample_nnbook_events : list event :=
  Eval vm_compute in
    match sample_nnbook_run with
    | Done (_, _, evs) => evs
    | Fault _ => []
    end.

(** The run of [buildNNBook] on the book of marked lines. *)
Definition marked_nnbook_run : outcome (unit * Engine * list event) :=
  buildNNBook (fun _ => 7) (Some "marked.txt") sample_files sample_start.

Definition marked_nnbook_final : SampleEngine :=
  Eval vm_compute in
    match marked_nnbook_run with
    | Done (_, g, _) => g
    | Fault _ => sample_start
    end.

Definition marked_nnbook_events : list event :=
  Eval vm_compute in
    match marked_nnbook_run with
    | Done (_, _, evs) => evs
    | Fault _ => []
    end.

(** The run of [filterBook] on the sample book. *)
Definition sample_filter_run : outcome (unit * Engine * list event) :=
  filterBook (Some "book.txt") sample_files sample_start.

Definition sample_filter_final : SampleEngine :=
  Eval vm_compute in
    match sample_filter_run with
    | Done (_, g, _) => g
    | Fault _ => sample_start
    end.

Definition sample_filter_events : list event :=
  Eval vm_compute in
    match sample_filter_run with
    | Done (_, _, evs) => evs
    | Fault _ => []
    end.

(** A suite of two positions, and runs of the benchmark and of the book
    evaluation. *)
Definition sample_suite : list string :=
  [start_fen; "4k3/8/8/8/8/8/4P3/4K3 w - - 0 1"].

Definition sample_bench_run : outcome (unit * Engine * list event) :=
  runBenchmark sample_suite ["Ethereal"; "bench"; "4"] sample_files sample_start.

Definition sample_bench_final : SampleEngine :=
  Eval vm_compute in
    match sample_bench_run with
    | Done (_, g, _) => g
    | Fault _ => sample_start
    end.

Definition sample_bench_events : list event :=
  Eval vm_compute in
    match sample_bench_run with
    | Done (_, _, evs) => evs
    | Fault _ => []
    end.

Definition sample_evalbook_run : outcome (unit * Engine * list event) :=
  runEvalBook ["Ethereal"; "evalbook"; "book.txt"; "3"] sample_files sample_start.

Definition sample_evalbook_final : SampleEngine :=
  Eval vm_compute in
    match sample_evalbook_run with
    | Done (_, g, _) => g
    | Fault _ => sample_start
    end.

Definition sample_evalbook_events : list event :=
  Eval vm_compute in
    match sample_evalbook_run with
    | Done (_, _, evs) => evs
    | Fault _ => []
    end.

(** The events of a run on the sample engine and files. *)
Definition events_of {A} (m : M A) : option (list event) :=
  match m sample_files sample_start with
  | Done (_, _, evs) => Some evs
  | Fault _ => None
  end.

(** *** Vocabulary for the statements about the traces of the pipelines *)

(** The strings handed to [boardFromFEN], in order. *)
Fixpoint fens_of (evs : list event) : list string :=
  match evs with
  | [] => []
  | EvBoardFromFEN fen :: rest => fen :: fens_of rest
  | _ :: rest => fens_of rest
  end.

(** The limits of the searches, in order. *)
Fixpoint searches_of (evs : list event) : list Limits :=
  match evs with
  | [] => []
  | EvGetBestMove limits :: rest => limits :: searches_of rest
  | _ :: rest => searches_of rest
  end.

(** A "go depth <x>" search: one line of play, limited by depth [depth]
    and by nothing else that cmdline.c sets. *)
Definition go_depth (depth : Z) (limits : Limits) : Prop :=
  multiPV limits = 1 /\ limitedByDepth limits = 1 /\ depthLimit limits = depth.

(** The text of a per-position line of the benchmark report, and of its
    last line: the conversions of the two formats, field by field. *)
Definition bench_line_text (index score : Z) (best ponder : string)
           (nodes nps : Z) : string :=
  "Bench [# " ++ pad_left 2 (decimal index) ++ "] "
  ++ pad_left 5 (decimal score) ++ " cp  Best:" ++ pad_left 6 best
  ++ "  Ponder:" ++ pad_left 6 ponder ++ " " ++ pad_left 12 (decimal nodes)
  ++ " nodes " ++ pad_left 8 (decimal nps) ++ " nps" ++ nl.

Definition overall_text (nodes nps : Z) : string :=
  "OVERALL: " ++ pad_left 53 (decimal nodes) ++ " nodes "
  ++ pad_left 8 (decimal nps) ++ " nps" ++ nl.

(** A per-position report line, numbered [index]. *)
Definition is_bench_line (index : Z) (e : event) : Prop :=
  exists score best ponder nodes nps,
    e = EvPrintf bench_line_format
          [PInt index; PInt score; PStr best; PStr ponder; PInt nodes; PInt nps]
    /\ stdout_of [e] = bench_line_text index score best ponder nodes nps.


(** *** Vocabulary for the statements about the records of [buildNNBook] *)

(** The line has a "] ", and the text after the first one denotes an
    [int]. *)
Definition annotated (line : string) : Prop :=
  exists pre rest,
    line = pre ++ "] " ++ rest
    /\ (forall pre' suf', line = pre' ++ suf' ->
          (String.length pre' < String.length pre)%nat ->
          prefix "] " suf' = false)
    /\ INT_MIN <= parse_int rest <= INT_MAX.

(** The two colour bitboards are 64-bit values. *)
Definition board_sized (b : Board) : Prop :=
  is_uint64 (colours b WHITE) /\ is_uint64 (colours b BLACK).

(** Both sides have a king, and there are at most 32 pieces. *)
Definition encodable (b : Board) : Prop :=
  Z.land (colours b WHITE) (pieces b KING) <> 0
  /\ Z.land (colours b BLACK) (pieces b KING) <> 0
  /\ popcount (Z.lor (colours b WHITE) (colours b BLACK)) <= 32.

(** [sq] is the lowest square set in [bb]. *)
Definition lowest_square (bb sq : Z) : Prop :=
  0 <= sq < 64 /\ Z.testbit bb sq = true
  /\ forall s, 0 <= s < sq -> Z.testbit bb s = false.

(** *** Lines to run the encoder on *)

(** The record of the three-piece line, with 7 in the uninitialised
    [result]. *)
Definition three_piece_record : TrainingRecord :=
  Eval vm_compute in
    match record_of_line three_piece_board 7 three_piece_line with
    | Done r => r
    | Fault _ =>
        {| rec_occupancy := 0; rec_eval := 0; rec_result := 0; rec_turn := 0;
           rec_wksq := 0; rec_bksq := 0; rec_count := 0; rec_packed := [] |}
    end.

(** A line without a marker, a line without a "] ", and a position of
    33 pieces. *)
Definition unmarked_line : string := "4k3/8/8/8/8/8/4P3/4K3 w - - 0 1 [] 5".

Definition bare_line : string := "4k3/8/8/8/8/8/4P3/4K3 w - - 0 1".

Definition crowded_line : string :=
  "pppppppp/pppppppp/pppppppp/pppppppp/k7/8/8/7K w - - 0 1 [0.5] 0".

(** *** The benchmark without its arrays *)

(** What the search loop collects for one position. *)
Record BenchRow : Type := {
  row_score : Z;
  row_time : spec_float;
  row_nodes : Z;
  row_best : Z;
  row_ponder : Z
}.

Section BenchRows.
Context {EH : EngineHandle}.

(** The calls of the search loop for the positions [fens], from the
    engine state [g] on: the values collected, position by position, and
    the state left. *)
Fixpoint bench_rows (fens : list string) (depth : Z) (limits : Limits)
         (g : Engine) : list BenchRow * Engine :=
  match fens with
  | [] => ([], g)
  | fen :: rest =>
      let (now, g1) := getRealTime g in
      let limits := set_start limits now in
      let (moves, g2) := getBestMove limits (boardFromFEN fen g1) in
      let score := info_value g2 depth in
      let (now', g3) := getRealTime g2 in
      let n := to_uint64 (nodesSearchedThreadPool g3) in
      let (rows, g') := bench_rows rest depth limits (clearTT g3) in
      ({| row_score := score; row_time := dsub now' now; row_nodes := n;
          row_best := fst moves; row_ponder := snd moves |} :: rows, g')
  end.

(** The report line of position [k] (counted from 0) for [row]. *)
Definition bench_line_of (k : nat) (row : BenchRow) (nps : Z) : event :=
  EvPrintf bench_line_format
    [PInt (Z.of_nat k + 1); PInt (row_score row);
     PStr (moveToString (row_best row)); PStr (moveToString (row_ponder row));
     PInt (to_int32 (row_nodes row)); PInt nps].

End BenchRows.

(** The arrays hold [rows] from index [i] on. *)
Definition holds_rows (st : BenchStats) (i : nat) (rows : list BenchRow) : Prop :=
  forall j row, nth_error rows j = Some row ->
    nth_error (scores st) (i + j) = Some (Some (row_score row))
    /\ nth_error (times st) (i + j) = Some (Some (row_time row))
    /\ nth_error (nodes st) (i + j) = Some (Some (row_nodes row))
    /\ nth_error (bestMoves st) (i + j) = Some (Some (row_best row))
    /\ nth_error (ponderMoves st) (i + j) = Some (Some (row_ponder row)).

(** The arrays agree below index [i]. *)
Definition same_below (st st' : BenchStats) (i : nat) : Prop :=
  forall k, (k < i)%nat ->
    nth_error (scores st') k = nth_error (scores st) k
    /\ nth_error (times st') k = nth_error (times st) k
    /\ nth_error (nodes st') k = nth_error (nodes st) k
    /\ nth_error (bestMoves st') k = nth_error (bestMoves st) k
    /\ nth_error (ponderMoves st') k = nth_error (ponderMoves st) k.

(** *** Vocabulary for the statements about [handleCommandLine] *)

(** [pipeline(...); exit(EXIT_SUCCESS);] *)
Definition then_exit {E : Type} (run : outcome (unit * E * list event))
  : outcome (control * E * list event) :=
  match run with
  | Done (_, g, evs) => Done (Exited EXIT_SUCCESS, g, evs)
  | Fault f => Fault f
  end.

(** *** Vocabulary for the statements about the thread pool *)

(** The making and the freeing of the thread pool. *)
Definition is_pool_event (e : event) : bool :=
  match e with
  | EvCreateThreadPool _ | EvFree => true
  | _ => false
  end.

Definition pool_events (evs : list event) : list event :=
  filter is_pool_event evs.

(** *** The rows of the sample benchmark *)

Definition sample_bench_limits : Limits :=
  {| multiPV := 1; limitedByDepth := 1; depthLimit := 4;
     start := S754_zero false |}.

Definition sample_bench_rows : list BenchRow :=
  Eval vm_compute in
    fst (bench_rows sample_suite 4 sample_bench_limits sample_start).


(** *** The calls of the book evaluation *)

Section EvalBookCalls.
Context {EH : EngineHandle}.

(** The calls of the loop of [runEvalBook] for the lines [lines], from the
    engine state [g] on: what happens, line by line, and the state
    left. *)
Fixpoint evalbook_calls (lines : list string) (limits : Limits) (g : Engine)
  : list event * Engine :=
  match lines with
  | [] => ([], g)
  | line :: rest =>
      let (now, g1) := getRealTime g in
      let limits' := set_start limits now in
      let g2 := snd (getBestMove limits' (boardFromFEN line g1)) in
      let (evs, g') :=
        evalbook_calls rest limits (clearTT (resetThreadPool g2)) in
      ([EvGetRealTime; EvBoardFromFEN line; EvGetBestMove limits';
        EvResetThreadPool; EvClearTT; EvPrintf "FEN: %s" [PStr line]]
       ++ evs, g')%list
  end.

End EvalBookCalls.

(** *** A suite for the rounding of the rate *)

(** A suite of three positions: at depth 77 the sample engine counts
    385000 nodes for each, and [1000.0f * 1155000] is no [float]. *)
Definition rounding_suite : list string :=
  (sample_suite ++ ["8/8/8/8/8/8/8/K6k w - - 0 1"])%list.


(* ================================================================== *)
(** * Properties                                                       *)
(* ================================================================== *)

(** ** Outcomes *)

Lemma obind_done {A B} (m : outcome A) (k : A -> outcome B) b :
  obind m k = Done b -> exists a, m = Done a /\ k a = Done b.
Proof. destruct m as [a|f]; simpl; [eauto | discriminate]. Qed.

Lemma Done_inj {A} (a b : A) : Done a = Done b -> a = b.
Proof. now intros [= ->]. Qed.

Lemma from_option_done {A} f (o : option A) a :
  from_option f o = Done a -> o = Some a.
Proof. destruct o; simpl; congruence. Qed.

(** [obind_inv H as x Hx]: split [H : (do x <- m; k) = Done b]. *)
Tactic Notation "obind_inv" hyp(H) "as" simple_intropattern(a) ident(Ha) :=
  apply obind_done in H; destruct H as (a & Ha & H).

(** ** Arrays *)

Lemma list_update_length {A} (l : list A) i v :
  List.length (list_update l i v) = List.length l.
Proof.
  revert i; induction l as [|h t IH]; intros [|i]; simpl; auto.
Qed.

Lemma list_update_split {A} (l : list A) i v :
  (i < List.length l)%nat ->
  list_update l i v = (firstn i l ++ v :: skipn (S i) l)%list.
Proof.
  revert i; induction l as [|h t IH]; intros [|i] Hi; simpl in *; try lia.
  - reflexivity.
  - rewrite IH by lia. reflexivity.
Qed.

Lemma array_set_done {A} name (a : list A) i v a' :
  array_set name a i v = Done a' ->
  (i < List.length a)%nat /\ a' = list_update a i v.
Proof.
  unfold array_set. destruct (Nat.ltb_spec i (List.length a)); [|discriminate].
  intros [= <-]. auto.
Qed.

Lemma array_get_done {A} name (a : list A) i v d :
  array_get name a i = Done v -> (i < List.length a)%nat /\ nth i a d = v.
Proof.
  unfold array_get. intros H. apply from_option_done in H. split.
  - apply nth_error_Some. congruence.
  - now apply nth_error_nth.
Qed.

(** ** Bitboards *)

Lemma bit_indices_NoDup : NoDup bit_indices.
Proof.
  unfold bit_indices. apply NoDup_map_NoDup_ForallPairs.
  - intros x y _ _ H. now apply Nat2Z.inj.
  - apply seq_NoDup.
Qed.

Lemma bit_indices_range sq : In sq bit_indices <-> 0 <= sq < 64.
Proof.
  unfold bit_indices. rewrite in_map_iff. split.
  - intros (n & <- & Hn). apply in_seq in Hn. lia.
  - intros H. exists (Z.to_nat sq). split; [lia|]. apply in_seq. lia.
Qed.

Lemma squares_of_spec bb sq :
  In sq (squares_of bb) <-> 0 <= sq < 64 /\ Z.testbit bb sq = true.
Proof.
  unfold squares_of. rewrite filter_In, bit_indices_range. tauto.
Qed.

Lemma squares_of_zero : squares_of 0 = [].
Proof. reflexivity. Qed.

Lemma popcount_bound bb : 0 <= popcount bb <= 64.
Proof.
  unfold popcount, squares_of.
  pose proof (filter_length_le (Z.testbit bb) bit_indices) as H.
  change (List.length bit_indices) with 64%nat in H. lia.
Qed.

(** Removing the head of a filtered duplicate-free list by strengthening
    the filter. *)
Lemma filter_drop_head (p : Z -> bool) (l : list Z) s rest :
  NoDup l ->
  filter p l = s :: rest ->
  filter (fun i => p i && negb (s =? i)) l = rest.
Proof.
  induction l as [|a l IH]; simpl; intros ND H; [discriminate|].
  inversion ND as [|? ? Hnotin ND']; subst.
  destruct (p a) eqn:Pa.
  - injection H as -> <-. rewrite Z.eqb_refl. simpl.
    apply filter_ext_in. intros i Hi.
    destruct (Z.eqb_spec s i) as [->|]; [contradiction|].
    now rewrite andb_true_r.
  - simpl. auto.
Qed.

Lemma filter_clearbit (l : list Z) bb s rest :
  NoDup l ->
  filter (Z.testbit bb) l = s :: rest ->
  filter (Z.testbit (Z.clearbit bb s)) l = rest.
Proof.
  intros ND H. rewrite <- (filter_drop_head (Z.testbit bb) ND H).
  apply filter_ext. intros i. apply Z.clearbit_eqb.
Qed.

Lemma squares_of_clearbit bb s rest :
  squares_of bb = s :: rest -> squares_of (Z.clearbit bb s) = rest.
Proof.
  unfold squares_of. apply filter_clearbit, bit_indices_NoDup.
Qed.

Lemma poplsb_done bb sq bb' :
  poplsb bb = Done (sq, bb') ->
  squares_of bb = sq :: squares_of bb' /\ bb' = Z.clearbit bb sq.
Proof.
  unfold poplsb, getlsb. intros H. obind_inv H as s Hs.
  apply from_option_done in Hs.
  destruct (squares_of bb) as [|s' rest] eqn:E; simpl in Hs; [discriminate|].
  injection Hs as ->. injection H as <- <-.
  now rewrite (squares_of_clearbit _ E).
Qed.

Lemma firstn_list_update {A} (l : list A) i v :
  (i < List.length l)%nat ->
  firstn (S i) (list_update l i v) = (firstn i l ++ [v])%list.
Proof.
  revert i; induction l as [|h t IH]; intros [|i] Hi; simpl in *; try lia.
  - reflexivity.
  - f_equal. apply IH. lia.
Qed.

Lemma skipn_list_update {A} (l : list A) i k v :
  (i < k)%nat -> skipn k (list_update l i v) = skipn k l.
Proof.
  revert i k; induction l as [|h t IH]; intros [|i] [|k] Hi; simpl in *;
    try lia; try reflexivity.
  apply IH. lia.
Qed.

Lemma skipn_repeat {A} (a : A) k n : skipn k (repeat a n) = repeat a (n - k).
Proof.
  revert k; induction n as [|n IH]; intros [|k]; simpl; auto.
Qed.

(** ** The training encoder, line by line *)

Section EncoderFacts.
Context {PM : PieceMacros}.

(** The loop over the occupancy stores the bytes of the occupied
    squares, in ascending square order, from index [i] on. *)
Lemma fill_types_done fuel b i pcs types t' :
  fill_types fuel b i pcs types = Done t' ->
  (squares_of pcs = [] \/
   (i + List.length (squares_of pcs) <= List.length types)%nat) /\
  t' = (firstn i types ++ map (type_byte b) (squares_of pcs)
        ++ skipn (i + List.length (squares_of pcs)) types)%list.
Proof.
  revert i pcs types t'; induction fuel as [|fuel IH]; intros i pcs types t';
    cbn [fill_types]; destruct (Z.eqb_spec pcs 0) as [->|Hnz].
  - intros [= <-]. rewrite squares_of_zero. cbn [map app List.length].
    rewrite Nat.add_0_r, firstn_skipn. auto.
  - discriminate.
  - intros [= <-]. rewrite squares_of_zero. cbn [map app List.length].
    rewrite Nat.add_0_r, firstn_skipn. auto.
  - intros H. obind_inv H as [sq pcs'] Hpop. obind_inv H as types' Hset.
    apply poplsb_done in Hpop. destruct Hpop as [Hsq ->].
    apply array_set_done in Hset. destruct Hset as [Hi ->].
    apply IH in H. destruct H as [Hlen ->].
    rewrite Hsq. revert Hlen.
    generalize (squares_of (Z.clearbit pcs sq)). intros rest Hlen.
    cbn [List.length]. rewrite list_update_length in Hlen.
    split.
    + right. destruct Hlen as [-> | Hlen]; cbn [List.length]; lia.
    + rewrite firstn_list_update by assumption.
      rewrite skipn_list_update by lia.
      rewrite <- app_assoc.
      replace (S i + List.length rest)%nat
        with (i + S (List.length rest))%nat by lia.
      reflexivity.
Qed.

Lemma pack_loop_done n i types packed p' :
  pack_loop n i types packed = Done p' ->
  (n = 0%nat \/ (i + n <= List.length packed)%nat) /\
  p' = (firstn i packed ++ map (packed_byte types) (seq i n)
        ++ skipn (i + n) packed)%list.
Proof.
  revert i packed p'; induction n as [|n IH]; intros i packed p'; simpl.
  - intros [= <-]. rewrite Nat.add_0_r, firstn_skipn. auto.
  - intros H. obind_inv H as p1 H1. obind_inv H as p2 H2.
    obind_inv H as packed' Hset.
    apply (array_get_done _ _ _ 0) in H1. destruct H1 as [_ <-].
    apply (array_get_done _ _ _ 0) in H2. destruct H2 as [_ <-].
    apply array_set_done in Hset. destruct Hset as [Hi ->].
    apply IH in H. destruct H as [Hlen ->].
    rewrite list_update_length in Hlen. split.
    + right. destruct Hlen as [-> | Hlen]; lia.
    + rewrite firstn_list_update by assumption.
      rewrite skipn_list_update by lia.
      rewrite <- app_assoc.
      replace (S i + n)%nat with (i + S n)%nat by lia.
      reflexivity.
Qed.

Lemma fwrite_bytes_done name a n body :
  fwrite_bytes name a n = Done body ->
  (n <= List.length a)%nat /\ body = firstn n a.
Proof.
  unfold fwrite_bytes. destruct (Nat.leb_spec n (List.length a)); [|discriminate].
  intros [= <-]. auto.
Qed.

Lemma to_uint8_popcount bb : to_uint8 (popcount bb) = popcount bb.
Proof.
  unfold to_uint8. pose proof (popcount_bound bb).
  apply Z.mod_small. lia.
Qed.

(** What a record holds, read off the code of [record_of_line]. *)
Lemma record_of_line_done b junk line r :
  record_of_line b junk line = Done r ->
  let pcs := Z.lor (colours b WHITE) (colours b BLACK) in
  let n := List.length (squares_of pcs) in
  let types := (map (type_byte b) (squares_of pcs) ++ repeat 0 (32 - n))%list in
  rec_occupancy r = pcs /\
  rec_count r = popcount pcs /\
  eval_of line = Done (rec_eval r) /\
  rec_result r = result_of junk line /\
  (n <= 32)%nat /\
  rec_packed r = firstn ((n + 1) / 2) (map (packed_byte types) (seq 0 16)).
Proof.
  unfold record_of_line. intros H.
  obind_inv H as ev Hev. obind_inv H as wk Hwk. obind_inv H as bk Hbk.
  obind_inv H as types Hfill. obind_inv H as packed Hpack.
  obind_inv H as body Hbody.
  rewrite to_uint8_popcount in *.
  apply fill_types_done in Hfill. apply pack_loop_done in Hpack.
  apply fwrite_bytes_done in Hbody.
  destruct Hfill as [Hn ->], Hpack as [_ ->], Hbody as [Hlen ->].
  apply Done_inj in H. subst r.
  cbn [rec_occupancy rec_count rec_eval rec_result rec_packed].
  unfold popcount. revert Hn Hlen.
  generalize (squares_of (Z.lor (colours b WHITE) (colours b BLACK))).
  intros sqs Hn _.
  assert (Hn' : (List.length sqs <= 32)%nat).
  { destruct Hn as [-> | Hn]; cbn [List.length] in *; [lia|].
    rewrite repeat_length in Hn. lia. }
  assert (Hcount : Z.to_nat ((Z.of_nat (List.length sqs) + 1) / 2)
                   = ((List.length sqs + 1) / 2)%nat).
  { rewrite <- (Nat2Z.id ((List.length sqs + 1) / 2)).
    f_equal. rewrite Nat2Z.inj_div, Nat2Z.inj_add. reflexivity. }
  rewrite Hcount, !skipn_repeat.
  repeat split; auto.
Qed.

End EncoderFacts.

(** ** Packing two codes per byte *)






Section PackingFacts.
Context {PM : PieceMacros}.

Lemma packed_byte_shift c1 c2 types j :
  packed_byte (c1 :: c2 :: types) (S j) = packed_byte types j.
Proof. reflexivity. Qed.



Lemma piece_code_range b sq :
  board_pieces_valid b ->
  In sq (squares_of (Z.lor (colours b WHITE) (colours b BLACK))) ->
  0 <= piece_code b sq < 16.
Proof.
  intros Hv Hin. destruct (Hv sq Hin). unfold piece_code. lia.
Qed.

Lemma type_byte_valid b sq :
  board_pieces_valid b ->
  In sq (squares_of (Z.lor (colours b WHITE) (colours b BLACK))) ->
  type_byte b sq = piece_code b sq.
Proof.
  intros Hv Hin. destruct (Hv sq Hin).
  unfold type_byte, to_uint8, piece_code, encode_piece.
  apply Z.mod_small. lia.
Qed.


End PackingFacts.

(** ** The harness monad *)

Section MonadFacts.
Context {EH : EngineHandle} {PM : PieceMacros}.

Lemma bind_done {A B} (m : M A) (k : A -> M B) fs g b g' evs :
  bind m k fs g = Done (b, g', evs) ->
  exists a g1 e1 e2,
    m fs g = Done (a, g1, e1) /\ k a fs g1 = Done (b, g', e2)
    /\ evs = (e1 ++ e2)%list.
Proof.
  unfold bind. destruct (m fs g) as [[[a g1] e1]|f]; [|discriminate].
  destruct (k a fs g1) as [[[b' g2] e2]|f] eqn:Hk; [|discriminate].
  intros H. apply Done_inj in H. injection H as <- <- <-.
  exists a, g1, e1, e2. repeat split; auto.
Qed.

Lemma ret_done {A} (a : A) fs g a' g' evs :
  ret a fs g = Done (a', g', evs) -> a' = a /\ g' = g /\ evs = [].
Proof. unfold ret. intros H. apply Done_inj in H. injection H as <- <- <-. auto. Qed.

Lemma lift_done {A} (o : outcome A) fs g a g' evs :
  lift o fs g = Done (a, g', evs) -> o = Done a /\ g' = g /\ evs = [].
Proof.
  unfold lift. destruct o; [|discriminate].
  intros H. apply Done_inj in H. injection H as <- <- <-. auto.
Qed.

Lemma call_done {A} e (f : Engine -> A * Engine) fs g a g' evs :
  call e f fs g = Done (a, g', evs) -> f g = (a, g') /\ evs = [e].
Proof.
  unfold call. destruct (f g) as [a0 g0].
  intros H. apply Done_inj in H. injection H as <- <- <-. auto.
Qed.

Lemma call__done e (f : Engine -> Engine) fs g u g' evs :
  call_ e f fs g = Done (u, g', evs) -> g' = f g /\ evs = [e].
Proof.
  unfold call_. intros H. apply call_done in H. destruct H as [H ->].
  injection H as _ <-. auto.
Qed.

Lemma peek_done {A} (f : Engine -> A) fs g a g' evs :
  peek f fs g = Done (a, g', evs) -> a = f g /\ g' = g /\ evs = [].
Proof. unfold peek. intros H. apply Done_inj in H. injection H as <- <- <-. auto. Qed.

Lemma emit_done e fs g u g' evs :
  emit e fs g = Done (u, g', evs) -> g' = g /\ evs = [e].
Proof. unfold emit. apply call__done. Qed.

Lemma fopen_read_done name fs g f g' evs :
  fopen_read name fs g = Done (f, g', evs) ->
  exists n, name = Some n /\ f = fs n /\ g' = g /\ evs = [].
Proof.
  unfold fopen_read. destruct name as [n|]; [|discriminate].
  intros H. apply Done_inj in H. injection H as <- <- <-. eauto.
Qed.

Lemma while_fgets_done f body fs g u g' evs :
  while_fgets f body fs g = Done (u, g', evs) ->
  exists content,
    f = Some content
    /\ for_lines (fgets_lines content) 0 body fs g = Done (u, g', evs).
Proof.
  unfold while_fgets. destruct f as [content|]; [eauto|discriminate].
Qed.

End MonadFacts.

(** [bind_inv H as a g1 e1 Ha]: split [H : (do a <- m; k) fs g = Done _]. *)
Tactic Notation "bind_inv" hyp(H) "as"
       simple_intropattern(a) ident(g1) ident(e1) ident(Ha) :=
  let e2 := fresh "evs" in
  let Hev := fresh "Hevs" in
  apply bind_done in H; destruct H as (a & g1 & e1 & e2 & Ha & H & Hev);
  subst.

Lemma records_of_app l1 l2 :
  records_of (l1 ++ l2) = (records_of l1 ++ records_of l2)%list.
Proof.
  induction l1 as [|e l1 IH]; [reflexivity|].
  destruct e; simpl; rewrite ?IH; reflexivity.
Qed.

Lemma stdout_of_app l1 l2 :
  stdout_of (l1 ++ l2) = stdout_of l1 ++ stdout_of l2.
Proof.
  induction l1 as [|e l1 IH]; [reflexivity|].
  destruct e; simpl; rewrite ?IH; try reflexivity.
  generalize (sprintf fmt args) as s. intros s.
  induction s as [|c s IHs]; simpl; congruence.
Qed.

(** ** [buildNNBook]: one record per line, in order *)

Section NNBookRun.
Context {EH : EngineHandle} {PM : PieceMacros}.

Lemma nnbook_line_done junk fout k line fs g u g' evs :
  nnbook_line junk fout k line fs g = Done (u, g', evs) ->
  exists r,
    record_of_line (board_of (boardFromFEN line g)) (junk k) line = Done r
    /\ g' = boardFromFEN line g
    /\ evs = [EvBoardFromFEN line; EvWriteRecord r].
Proof.
  unfold nnbook_line. intros H.
  bind_inv H as [] g1 e1 Hparse. bind_inv H as b g2 e2 Hb.
  bind_inv H as [] g3 e3 Hbefore. bind_inv H as [] g4 e4 Hout.
  bind_inv H as r g5 e5 Hr.
  apply call__done in Hparse. destruct Hparse as [-> ->].
  apply peek_done in Hb. destruct Hb as (-> & -> & ->).
  apply lift_done in Hbefore. destruct Hbefore as (_ & -> & ->).
  apply lift_done in Hout. destruct Hout as (_ & -> & ->).
  apply lift_done in Hr. destruct Hr as (Hr & -> & ->).
  apply emit_done in H. destruct H as [-> ->].
  exists r. auto.
Qed.

(** A line is worked on to its end only with an output stream. *)
Lemma nnbook_line_stream junk fout k line fs g u g' evs :
  nnbook_line junk fout k line fs g = Done (u, g', evs) -> fout = Some tt.
Proof.
  unfold nnbook_line. intros H.
  bind_inv H as [] g1 e1 Hparse. bind_inv H as b g2 e2 Hb.
  bind_inv H as [] g3 e3 Hbefore. bind_inv H as [] g4 e4 Hout.
  apply lift_done in Hout. destruct Hout as (Hout & _).
  now apply from_option_done in Hout.
Qed.

Lemma for_lines_nnbook junk fout lines k fs g u g' evs :
  for_lines lines k (nnbook_line junk fout) fs g = Done (u, g', evs) ->
  Forall2 written_for lines (records_of evs).
Proof.
  revert k g evs; induction lines as [|line rest IH]; intros k g evs; simpl.
  - intros H. apply ret_done in H. destruct H as (_ & _ & ->). constructor.
  - intros H. bind_inv H as [] g1 e1 Hline.
    apply nnbook_line_done in Hline. destruct Hline as (r & Hr & -> & ->).
    rewrite records_of_app. simpl. constructor.
    + exists (board_of (boardFromFEN line g)), (junk k). split; [|exact Hr].
      exists g. reflexivity.
    + eapply IH. eassumption.
Qed.

Lemma fopen_write_done name fs g f g' evs :
  fopen_write name fs g = Done (f, g', evs) ->
  f = (if writable fs name then Some tt else None) /\ g' = g /\ evs = [].
Proof. unfold fopen_write. intros H. apply Done_inj in H. now injection H as <- <- <-. Qed.

(** A run of [buildNNBook] that ends: both files were opened, the pool
    made, the lines worked on, and the pool freed. *)
Lemma buildNNBook_done junk fname fs g u g' evs :
  buildNNBook junk fname fs g = Done (u, g', evs) ->
  exists name content loop,
    fname = Some name /\ fs name = Some content
    /\ writable fs "output.nnbook" = true
    /\ for_lines (fgets_lines content) 0 (nnbook_line junk (Some tt)) fs
                 (createThreadPool 1 g)
       = Done (tt, g', loop)
    /\ evs = (EvCreateThreadPool 1 :: loop ++ [EvFree])%list.
Proof.
  unfold buildNNBook. intros H.
  bind_inv H as fin g1 e1 Hopen. bind_inv H as fout g2 e2 Hout.
  bind_inv H as [] g3 e3 Hpool. bind_inv H as [] g4 e4 Hloop.
  bind_inv H as [] g5 e5 Hclose.
  apply fopen_read_done in Hopen. destruct Hopen as (name & -> & -> & -> & ->).
  apply fopen_write_done in Hout. destruct Hout as (-> & -> & ->).
  apply call__done in Hpool. destruct Hpool as [-> ->].
  apply lift_done in Hclose. destruct Hclose as (Hclose & -> & ->).
  apply emit_done in H. destruct H as [-> ->].
  apply while_fgets_done in Hloop. destruct Hloop as (content & Hc & Hloop).
  apply from_option_done in Hclose.
  destruct (writable fs "output.nnbook"); [|discriminate].
  exists name, content, e4. repeat split; auto.
Qed.

(** A run of [buildNNBook] that ends writes one record for each line of
    the book, in the order of the lines. *)
Lemma buildNNBook_records junk fname fs g u g' evs :
  buildNNBook junk fname fs g = Done (u, g', evs) ->
  exists name content,
    fname = Some name /\ fs name = Some content
    /\ Forall2 written_for (fgets_lines content) (records_of evs).
Proof.
  intros H. apply buildNNBook_done in H.
  destruct H as (name & content & loop & -> & Hc & _ & Hloop & ->).
  exists name, content. repeat split; auto.
  change (EvCreateThreadPool 1 :: loop ++ [EvFree])%list
    with ([EvCreateThreadPool 1] ++ loop ++ [EvFree])%list.
  rewrite !records_of_app. simpl. rewrite app_nil_r.
  eapply for_lines_nnbook. eassumption.
Qed.

End NNBookRun.

(** ** The header of a record *)

Lemma le_value_le_bytes n z : le_value (le_bytes n z) = z mod 256 ^ Z.of_nat n.
Proof.
  revert z; induction n as [|n IH]; intros z.
  - simpl. now rewrite Z.mod_1_r.
  - cbn [le_bytes le_value]. rewrite IH.
    rewrite Nat2Z.inj_succ, Z.pow_succ_r by lia.
    rewrite Z.rem_mul_r by lia. lia.
Qed.

Lemma popcount_to_uint64 z : popcount (z mod 2 ^ 64) = popcount z.
Proof.
  unfold popcount, squares_of. do 2 f_equal.
  apply filter_ext_in. intros i Hi. apply bit_indices_range in Hi.
  apply Z.mod_pow2_bits_low. lia.
Qed.

Lemma record_bytes_occupancy r :
  firstn 8 (record_bytes r) = le_bytes 8 (rec_occupancy r).
Proof. reflexivity. Qed.

Lemma record_bytes_count r : nth 14 (record_bytes r) 0 = rec_count r.
Proof. reflexivity. Qed.



Section EncoderClaims.
Context {EH : EngineHandle} {PM : PieceMacros}.


(** C1.  Every record [buildNNBook] writes holds, in its pieceCount
    byte, the number of set bits of its occupancy field; the occupancy
    is the union of the two colour bitboards of the parsed board, as it
    was before the loop removed any bit.  The same holds of the bytes in
    the file: byte 14 of a record is the population count of the value
    its first 8 bytes encode. *)
Theorem nnbook_piece_count_is_popcount junk fname fs g u g' evs :
  buildNNBook junk fname fs g = Done (u, g', evs) ->
  exists name content,
    fname = Some name /\ fs name = Some content
    /\ Forall2
         (fun line r =>
            (exists b, parsed_from line b
               /\ rec_occupancy r = Z.lor (colours b WHITE) (colours b BLACK))
            /\ rec_count r = popcount (rec_occupancy r)
            /\ nth 14 (record_bytes r) 0
               = popcount (le_value (firstn 8 (record_bytes r))))
         (fgets_lines content) (records_of evs).
Proof.
  intros H. apply buildNNBook_records in H.
  destruct H as (name & content & -> & Hfs & Hrecs).
  exists name, content. repeat split; auto.
  eapply Forall2_impl; [|exact Hrecs].
  intros line r (b & j & Hb & Hr). apply record_of_line_done in Hr.
  destruct Hr as (Hocc & Hcount & _).
  rewrite record_bytes_count, record_bytes_occupancy, le_value_le_bytes.
  change (256 ^ Z.of_nat 8) with (2 ^ 64). rewrite popcount_to_uint64.
  rewrite Hcount, Hocc. repeat split; eauto.
Qed.


End EncoderClaims.

(** *** The sample run of [buildNNBook] *)


Lemma Forall2_right {A B} (P : B -> Prop) (l : list A) (l' : list B) :
  Forall2 (fun _ b => P b) l l' -> Forall P l'.
Proof. induction 1; constructor; auto. Qed.

Lemma sample_nnbook_run_done :
  sample_nnbook_run = Done (tt, sample_nnbook_final, sample_nnbook_events).
Proof. vm_compute. reflexivity. Qed.



Lemma nnbook_piece_count_witness :
  sample_nnbook_run = Done (tt, sample_nnbook_final, sample_nnbook_events)
  /\ Forall (fun r => rec_count r = popcount (rec_occupancy r)
                      /\ nth 14 (record_bytes r) 0
                         = popcount (le_value (firstn 8 (record_bytes r))))
            (records_of sample_nnbook_events).
Proof.
  split; [exact sample_nnbook_run_done|].
  destruct (@nnbook_piece_count_is_popcount sample_engine sample_macros
              (fun _ => 7) (Some "book.txt") sample_files sample_start
              tt sample_nnbook_final sample_nnbook_events
              sample_nnbook_run_done)
    as (name & content & _ & _ & H).
  apply (@Forall2_right _ _ _ (fgets_lines content)).
  eapply Forall2_impl; [|exact H]. intros line r (_ & H1 & H2). auto.
Defined.


(** ** Strings: what [strstr] finds *)

Lemma append_nil_r s : s ++ "" = s.
Proof. induction s; simpl; congruence. Qed.

Lemma append_assoc s t u : (s ++ t) ++ u = s ++ (t ++ u).
Proof. induction s; simpl; congruence. Qed.

Lemma prefix_spec s t : prefix s t = true <-> exists post, t = s ++ post.
Proof.
  revert t; induction s as [|c s IH]; intros [|d t]; simpl.
  - split; [intros _; exists ""; reflexivity | reflexivity].
  - split; [intros _; eexists; reflexivity | reflexivity].
  - split; [discriminate | intros [post H]; discriminate].
  - destruct (ascii_dec c d) as [->|Hne].
    + rewrite IH. split; intros [post H]; exists post; congruence.
    + split; [discriminate | intros [post H]; congruence].
Qed.

Lemma strstr_eq hay needle :
  strstr hay needle =
  if prefix needle hay then Some hay
  else match hay with
       | EmptyString => None
       | String _ rest => strstr rest needle
       end.
Proof. destruct hay; reflexivity. Qed.

(** [strstr] returns the suffix at the first occurrence of the needle. *)
Lemma strstr_found hay needle suf :
  strstr hay needle = Some suf ->
  exists pre,
    hay = pre ++ suf /\ prefix needle suf = true
    /\ forall pre' suf', hay = pre' ++ suf' ->
         (String.length pre' < String.length pre)%nat ->
         prefix needle suf' = false.
Proof.
  revert suf; induction hay as [|c rest IH]; intros suf;
    rewrite strstr_eq; destruct (prefix needle _) eqn:P; try discriminate.
  - intros [= <-]. exists "". repeat split; auto. simpl. intros; lia.
  - intros [= <-]. exists "". repeat split; auto. simpl. intros; lia.
  - intros H. apply IH in H. destruct H as (pre & -> & Hp & Hfirst).
    exists (String c pre). repeat split; auto.
    intros pre' suf' Heq Hlen. destruct pre' as [|c' pre'].
    + simpl in Heq. now subst suf'.
    + simpl in Heq. injection Heq as _ Heq. simpl in Hlen.
      apply (Hfirst pre' suf'); [assumption | lia].
Qed.

Lemma strstr_absent hay needle :
  strstr hay needle = None ->
  forall pre suf, hay = pre ++ suf -> prefix needle suf = false.
Proof.
  induction hay as [|c rest IH]; rewrite strstr_eq;
    destruct (prefix needle _) eqn:P; try discriminate.
  - intros _ pre suf H. destruct pre; simpl in H; [now subst|discriminate].
  - intros H pre suf Heq. destruct pre as [|c' pre]; simpl in Heq.
    + now subst.
    + injection Heq as _ Heq. eapply IH; eauto.
Qed.

Lemma found_iff_occurs line s : found line s = true <-> occurs_in s line.
Proof.
  unfold found, occurs_in. destruct (strstr line s) as [suf|] eqn:E.
  - split; [intros _ | reflexivity].
    apply strstr_found in E. destruct E as (pre & -> & Hp & _).
    apply prefix_spec in Hp. destruct Hp as [post ->]. eauto.
  - split; [discriminate|]. intros (pre & post & ->).
    pose proof (@strstr_absent _ _ E pre (s ++ post) eq_refl) as Hno.
    assert (prefix s (s ++ post) = true) by (apply prefix_spec; eauto).
    congruence.
Qed.

Lemma found_false_iff line s : found line s = false <-> ~ occurs_in s line.
Proof.
  rewrite <- found_iff_occurs. destruct (found line s); split; congruence.
Qed.

Lemma advance_append pre s : advance (String.length pre) (pre ++ s) = s.
Proof. induction pre; simpl; auto. Qed.

(** ** The result byte *)

Section ResultFacts.
Context {PM : PieceMacros}.

Lemma result_of_win junk line :
  carries line Win -> result_of junk line = 2.
Proof.
  intros H. apply found_iff_occurs in H. unfold result_of.
  simpl in H. now rewrite H.
Qed.

Lemma result_of_draw junk line :
  carries line Draw -> ~ carries line Win -> result_of junk line = 1.
Proof.
  intros H HW. apply found_iff_occurs in H. apply found_false_iff in HW.
  unfold result_of. simpl in H, HW. now rewrite H, HW.
Qed.

Lemma result_of_loss junk line :
  carries line Loss -> ~ carries line Draw -> ~ carries line Win ->
  result_of junk line = 0.
Proof.
  intros H HD HW. apply found_iff_occurs in H.
  apply found_false_iff in HD. apply found_false_iff in HW.
  unfold result_of. simpl in H, HD, HW. now rewrite H, HD, HW.
Qed.

(** With no marker in the line the variable is never assigned. *)
Lemma result_of_unmarked junk line :
  (forall m, ~ carries line m) -> result_of junk line = junk.
Proof.
  intros H. pose proof (H Loss) as HL. pose proof (H Draw) as HD.
  pose proof (H Win) as HW.
  apply found_false_iff in HL, HD, HW.
  unfold result_of. simpl in HL, HD, HW. now rewrite HL, HD, HW.
Qed.

Lemma result_of_last_recognized junk line m :
  last_recognized line = Some m -> result_of junk line = marker_code m.
Proof.
  unfold last_recognized, result_of.
  destruct (found line "[1.0]"); [intros [= <-]; reflexivity|].
  destruct (found line "[0.5]"); [intros [= <-]; reflexivity|].
  destruct (found line "[0.0]"); [intros [= <-]; reflexivity|discriminate].
Qed.

Lemma result_of_marked junk line :
  (exists m, carries line m) ->
  result_of junk line = 0 \/ result_of junk line = 1 \/ result_of junk line = 2.
Proof.
  intros [m Hm]. apply found_iff_occurs in Hm. unfold result_of.
  destruct (found line "[1.0]") eqn:W; [auto|].
  destruct (found line "[0.5]") eqn:D; [auto|].
  destruct (found line "[0.0]") eqn:L; [auto|].
  destruct m; simpl in Hm; congruence.
Qed.

Lemma result_of_only junk line m :
  carries_only line m -> result_of junk line = marker_code m.
Proof.
  intros [Hm Honly].
  assert (Hno : forall m', m' <> m -> ~ carries line m').
  { intros m' Hne Hc. apply Hne. now apply Honly. }
  destruct m.
  - apply result_of_loss; [assumption | apply Hno | apply Hno]; discriminate.
  - apply result_of_draw; [assumption | apply Hno]; discriminate.
  - now apply result_of_win.
Qed.

End ResultFacts.

(** ** The evaluation field *)

Lemma eval_of_done {PM : PieceMacros} line v :
  eval_of line = Done v ->
  exists pre rest,
    line = pre ++ "] " ++ rest
    /\ (forall pre' suf', line = pre' ++ suf' ->
          (String.length pre' < String.length pre)%nat ->
          prefix "] " suf' = false)
    /\ INT_MIN <= parse_int rest <= INT_MAX
    /\ v = to_int16 (parse_int rest).
Proof.
  unfold eval_of. intros H. obind_inv H as tail Htail. obind_inv H as n Hn.
  apply Done_inj in H. subst v.
  apply from_option_done in Htail. apply strstr_found in Htail.
  destruct Htail as (pre & -> & Hp & Hfirst).
  apply prefix_spec in Hp. destruct Hp as [rest ->].
  change (advance (String.length "] ") ("] " ++ rest)) with rest in Hn.
  unfold atoi in Hn.
  destruct (andb (INT_MIN <=? parse_int rest) (parse_int rest <=? INT_MAX)) eqn:R;
    [|discriminate].
  apply Done_inj in Hn. subst n.
  apply andb_true_iff in R. rewrite !Z.leb_le in R.
  exists pre, rest. repeat split; auto; lia.
Qed.

Lemma to_int16_small v : -32768 <= v <= 32767 -> to_int16 v = v.
Proof. intros H. unfold to_int16. rewrite Z.mod_small; lia. Qed.

Section AnnotationClaims.
Context {EH : EngineHandle} {PM : PieceMacros}.

(** C4, as amended.  For every line [buildNNBook] processes, the eval
    field written is the integer [atoi] parses from the text that
    follows the first occurrence of "] " in the line, converted to 16
    bits (so that integer itself when it lies within -32768..32767). *)
Theorem nnbook_eval_follows_first_bracket junk fname fs g u g' evs :
  buildNNBook junk fname fs g = Done (u, g', evs) ->
  exists name content,
    fname = Some name /\ fs name = Some content
    /\ Forall2
         (fun line r =>
            exists pre rest,
              line = pre ++ "] " ++ rest
              /\ (forall pre' suf', line = pre' ++ suf' ->
                    (String.length pre' < String.length pre)%nat ->
                    prefix "] " suf' = false)
              /\ rec_eval r = to_int16 (parse_int rest)
              /\ (-32768 <= parse_int rest <= 32767 ->
                  rec_eval r = parse_int rest))
         (fgets_lines content) (records_of evs).
Proof.
  intros H. apply buildNNBook_records in H.
  destruct H as (name & content & -> & Hfs & Hrecs).
  exists name, content. repeat split; auto.
  eapply Forall2_impl; [|exact Hrecs].
  intros line r (b & j & Hb & Hr). apply record_of_line_done in Hr.
  destruct Hr as (_ & _ & Hev & _). apply eval_of_done in Hev.
  destruct Hev as (pre & rest & Hline & Hfirst & Hrange & Hval).
  exists pre, rest. repeat split; auto.
  intros Hsmall. rewrite Hval. now apply to_int16_small.
Qed.

(** C5.  For every line [buildNNBook] processes that carries one of the
    three markers and no other, the result byte written is 0 for
    "[0.0]", 1 for "[0.5]" and 2 for "[1.0]"; and for every line that
    carries a marker it is one of 0, 1 and 2. *)
Theorem nnbook_result_of_marker junk fname fs g u g' evs :
  buildNNBook junk fname fs g = Done (u, g', evs) ->
  exists name content,
    fname = Some name /\ fs name = Some content
    /\ Forall2
         (fun line r =>
            (carries_only line Loss -> rec_result r = 0)
            /\ (carries_only line Draw -> rec_result r = 1)
            /\ (carries_only line Win -> rec_result r = 2)
            /\ ((exists m, carries line m) ->
                rec_result r = 0 \/ rec_result r = 1 \/ rec_result r = 2))
         (fgets_lines content) (records_of evs).
Proof.
  intros H. apply buildNNBook_records in H.
  destruct H as (name & content & -> & Hfs & Hrecs).
  exists name, content. repeat split; auto.
  eapply Forall2_impl; [|exact Hrecs].
  intros line r (b & j & Hb & Hr). apply record_of_line_done in Hr.
  destruct Hr as (_ & _ & _ & -> & _).
  repeat split.
  - apply (result_of_only j (m := Loss)).
  - apply (result_of_only j (m := Draw)).
  - apply (result_of_only j (m := Win)).
  - apply result_of_marked.
Qed.

(** C9.  For every line [buildNNBook] processes, the result byte is
    decided by the order of the three tests and not by where the
    markers stand: it is 2 when "[1.0]" occurs anywhere in the line,
    else 1 when "[0.5]" occurs, else 0 when "[0.0]" occurs.  So a line
    holding both "[0.0]" and "[1.0]", in either order, gives 2. *)
Theorem nnbook_result_by_test_order junk fname fs g u g' evs :
  buildNNBook junk fname fs g = Done (u, g', evs) ->
  exists name content,
    fname = Some name /\ fs name = Some content
    /\ Forall2
         (fun line r =>
            (carries line Win -> rec_result r = 2)
            /\ (carries line Draw -> ~ carries line Win -> rec_result r = 1)
            /\ (carries line Loss -> ~ carries line Draw ->
                ~ carries line Win -> rec_result r = 0)
            /\ (forall m, last_recognized line = Some m ->
                          rec_result r = marker_code m)
            /\ (forall a b c,
                  line = a ++ "[0.0]" ++ b ++ "[1.0]" ++ c
                  \/ line = a ++ "[1.0]" ++ b ++ "[0.0]" ++ c ->
                  rec_result r = 2))
         (fgets_lines content) (records_of evs).
Proof.
  intros H. apply buildNNBook_records in H.
  destruct H as (name & content & -> & Hfs & Hrecs).
  exists name, content. repeat split; auto.
  eapply Forall2_impl; [|exact Hrecs].
  intros line r (b & j & Hb & Hr). apply record_of_line_done in Hr.
  destruct Hr as (_ & _ & _ & -> & _).
  split; [apply result_of_win|].
  split; [apply result_of_draw|].
  split; [apply result_of_loss|].
  split; [intros m; apply result_of_last_recognized|].
  intros a b0 c [-> | ->]; apply result_of_win.
  - exists (a ++ "[0.0]" ++ b0), c. now rewrite !append_assoc.
  - exists a, (b0 ++ "[0.0]" ++ c). reflexivity.
Qed.

End AnnotationClaims.

(** *** The sample runs *)

Lemma marked_nnbook_run_done :
  marked_nnbook_run = Done (tt, marked_nnbook_final, marked_nnbook_events).
Proof. vm_compute. reflexivity. Qed.

Lemma marked_book_lines :
  fgets_lines marked_book = [two_marker_line; wide_eval_line].
Proof. vm_compute. reflexivity. Qed.

(** C4, as stated, fails.  On the two-marker line the last-recognized
    marker is "[1.0]" and the integer after it is 20, but the field
    written is 10, the integer after the first "] "; on the other line
    the integer after the marker is 40000, and the 16-bit field holds
    -25536. *)
Lemma nnbook_eval_not_after_last_marker :
  marked_nnbook_run = Done (tt, marked_nnbook_final, marked_nnbook_events)
  /\ fgets_lines marked_book = [two_marker_line; wide_eval_line]
  /\ last_recognized two_marker_line = Some Win
  /\ map spec_eval_after_marker [two_marker_line; wide_eval_line]
     = [Some 20; Some 40000]
  /\ map rec_eval (records_of marked_nnbook_events) = [10; -25536]
  /\ ~ Forall2 (fun line r => spec_eval_after_marker line = Some (rec_eval r))
         (fgets_lines marked_book) (records_of marked_nnbook_events).
Proof.
  split; [exact marked_nnbook_run_done|].
  split; [exact marked_book_lines|].
  split; [vm_compute; reflexivity|].
  split; [vm_compute; reflexivity|].
  split; [vm_compute; reflexivity|].
  rewrite marked_book_lines. intros H.
  inversion H as [|line r lines recs Hhead Htail]; subst.
  vm_compute in Hhead. discriminate.
Qed.

Lemma nnbook_eval_witness :
  sample_nnbook_run = Done (tt, sample_nnbook_final, sample_nnbook_events)
  /\ Forall (fun r => -32768 <= rec_eval r <= 32767)
            (records_of sample_nnbook_events)
  /\ exists name content,
       Some "book.txt" = Some name /\ sample_files name = Some content
       /\ Forall2
            (fun line r =>
               exists pre rest,
                 line = pre ++ "] " ++ rest
                 /\ (forall pre' suf', line = pre' ++ suf' ->
                       (String.length pre' < String.length pre)%nat ->
                       prefix "] " suf' = false)
                 /\ rec_eval r = to_int16 (parse_int rest)
                 /\ (-32768 <= parse_int rest <= 32767 ->
                     rec_eval r = parse_int rest))
            (fgets_lines content) (records_of sample_nnbook_events).
Proof.
  split; [exact sample_nnbook_run_done|].
  split; [vm_compute; repeat constructor; discriminate|].
  exact (@nnbook_eval_follows_first_bracket sample_engine sample_macros
           (fun _ => 7) (Some "book.txt") sample_files sample_start
           tt sample_nnbook_final sample_nnbook_events
           sample_nnbook_run_done).
Defined.

Lemma nnbook_result_witness :
  sample_nnbook_run = Done (tt, sample_nnbook_final, sample_nnbook_events)
  /\ map rec_result (records_of sample_nnbook_events) = [1; 2; 0; 1; 2]
  /\ exists name content,
       Some "book.txt" = Some name /\ sample_files name = Some content
       /\ Forall2
            (fun line r =>
               (carries_only line Loss -> rec_result r = 0)
               /\ (carries_only line Draw -> rec_result r = 1)
               /\ (carries_only line Win -> rec_result r = 2)
               /\ ((exists m, carries line m) ->
                   rec_result r = 0 \/ rec_result r = 1 \/ rec_result r = 2))
            (fgets_lines content) (records_of sample_nnbook_events).
Proof.
  split; [exact sample_nnbook_run_done|].
  split; [vm_compute; reflexivity|].
  exact (@nnbook_result_of_marker sample_engine sample_macros
           (fun _ => 7) (Some "book.txt") sample_files sample_start
           tt sample_nnbook_final sample_nnbook_events
           sample_nnbook_run_done).
Defined.

Lemma nnbook_test_order_witness :
  marked_nnbook_run = Done (tt, marked_nnbook_final, marked_nnbook_events)
  /\ map rec_result (records_of marked_nnbook_events) = [2; 2]
  /\ exists name content,
       Some "marked.txt" = Some name /\ sample_files name = Some content
       /\ Forall2
            (fun line r =>
               (carries line Win -> rec_result r = 2)
               /\ (carries line Draw -> ~ carries line Win -> rec_result r = 1)
               /\ (carries line Loss -> ~ carries line Draw ->
                   ~ carries line Win -> rec_result r = 0)
               /\ (forall m, last_recognized line = Some m ->
                             rec_result r = marker_code m)
               /\ (forall a b c,
                     line = a ++ "[0.0]" ++ b ++ "[1.0]" ++ c
                     \/ line = a ++ "[1.0]" ++ b ++ "[0.0]" ++ c ->
                     rec_result r = 2))
            (fgets_lines content) (records_of marked_nnbook_events).
Proof.
  split; [exact marked_nnbook_run_done|].
  split; [vm_compute; reflexivity|].
  exact (@nnbook_result_by_test_order sample_engine sample_macros
           (fun _ => 7) (Some "marked.txt") sample_files sample_start
           tt marked_nnbook_final marked_nnbook_events
           marked_nnbook_run_done).
Defined.

(** ** [filterBook] *)

Lemma sprintf_string s : sprintf "%s" [PStr s] = s.
Proof.
  unfold sprintf. cbn. unfold pad_left. cbn.
  apply append_nil_r.
Qed.

Section FilterClaims.
Context {EH : EngineHandle} {PM : PieceMacros}.

(** [filter_line] never faults: it does what [judge] says. *)
Lemma filter_line_judge line fs g :
  filter_line line fs g
  = Done (tt, snd (judge line g), judge_trace line (fst (judge line g))).
Proof.
  unfold filter_line, judge, bind, call_, call, peek, printf, emit, call_,
    call, ret, in_check, piece_total, static_eval, quiescence_value.
  cbn [fst snd].
  destruct (negb (kingAttackers (board_of (boardFromFEN line g)) =? 0));
    [reflexivity|].
  destruct (popcount _ <=? 6); [reflexivity|].
  destruct (evaluateBoard (boardFromFEN line g)) as [ev g2]. cbn [fst snd].
  destruct (qsearch (- MATE) MATE g2) as [qs g3]. cbn [fst snd].
  destruct (ev =? qs); reflexivity.
Qed.

Lemma for_lines_filter lines k fs g :
  for_lines lines k (fun _ line => filter_line line) fs g
  = Done (tt, state_after_lines lines g, filter_trace lines g).
Proof.
  revert k g; induction lines as [|line rest IH]; intros k g.
  - reflexivity.
  - cbn [for_lines state_after_lines filter_trace]. unfold bind.
    rewrite filter_line_judge, IH.
    destruct (judge line g) as [v g1]. reflexivity.
Qed.

Lemma stdout_of_judge_trace line v :
  stdout_of (judge_trace line v)
  = match v with Kept => line | _ => "" end.
Proof.
  destruct v; try reflexivity.
  cbn [judge_trace stdout_of]. rewrite sprintf_string. apply append_nil_r.
Qed.

Lemma stdout_of_filter_trace lines g :
  stdout_of (filter_trace lines g)
  = fold_right String.append "" (kept_lines lines g).
Proof.
  revert g; induction lines as [|line rest IH]; intros g.
  - reflexivity.
  - cbn [filter_trace kept_lines]. destruct (judge line g) as [v g1].
    rewrite stdout_of_app, stdout_of_judge_trace, IH.
    destruct v; reflexivity.
Qed.

(** The verdict is [Kept] exactly when the three predicates hold. *)
Lemma judge_kept_iff line g :
  let parsed := boardFromFEN line g in
  fst (judge line g) = Kept <->
  kingAttackers (board_of parsed) = 0
  /\ 6 < piece_total (board_of parsed)
  /\ static_eval parsed = quiescence_value parsed.
Proof.
  cbv zeta. unfold judge, in_check.
  destruct (Z.eqb_spec (kingAttackers (board_of (boardFromFEN line g))) 0)
    as [Hk|Hk]; cbn [negb].
  - destruct (Z.leb_spec (piece_total (board_of (boardFromFEN line g))) 6)
      as [Hp|Hp].
    + cbn [fst]. split; [discriminate | intros (_ & H & _); lia].
    + destruct (Z.eqb_spec (static_eval (boardFromFEN line g))
                           (quiescence_value (boardFromFEN line g))) as [He|He];
        cbn [fst]; split; auto; try discriminate.
      intros (_ & _ & H). contradiction.
  - cbn [fst]. split; [discriminate | intros (H & _); contradiction].
Qed.

(** A position in check is rejected at the first test: neither the
    piece count nor the evaluations are looked at, and the engine is
    left as the parse left it. *)
Lemma judge_in_check line g :
  kingAttackers (board_of (boardFromFEN line g)) <> 0 ->
  judge line g = (RejectedInCheck, boardFromFEN line g).
Proof.
  intros H. unfold judge, in_check.
  destruct (Z.eqb_spec (kingAttackers (board_of (boardFromFEN line g))) 0);
    [contradiction | reflexivity].
Qed.

(** A position of at most 6 pieces is rejected without a call to the
    evaluation or the quiescence search. *)
Lemma judge_few_pieces line g :
  piece_total (board_of (boardFromFEN line g)) <= 6 ->
  snd (judge line g) = boardFromFEN line g
  /\ (fst (judge line g) = RejectedInCheck
      \/ fst (judge line g) = RejectedFewPieces).
Proof.
  intros H. unfold judge.
  destruct (in_check _); [auto|].
  destruct (Z.leb_spec (piece_total (board_of (boardFromFEN line g))) 6);
    [auto | lia].
Qed.

(** C3.  A run of [filterBook] prints exactly the lines of the book
    that [judge] keeps, each verbatim and in the order of the book, and
    nothing else; a line is kept if and only if the side to move is not
    in check, both colours together have more than 6 pieces, and the
    static evaluation equals the quiescence value; the three tests run
    in that order and stop at the first failure, so a position in check
    or of at most 6 pieces is rejected without the later tests. *)
Theorem filter_keeps_exactly_quiet_lines fname fs g u g' evs :
  filterBook fname fs g = Done (u, g', evs) ->
  exists name content,
    fname = Some name /\ fs name = Some content
    /\ let lines := fgets_lines content in
       let g0 := createThreadPool 1 g in
       evs = (EvCreateThreadPool 1 :: filter_trace lines g0 ++ [EvFree])%list
       /\ stdout_of evs = fold_right String.append "" (kept_lines lines g0)
       /\ (forall line h,
             let parsed := boardFromFEN line h in
             (fst (judge line h) = Kept <->
              kingAttackers (board_of parsed) = 0
              /\ 6 < piece_total (board_of parsed)
              /\ static_eval parsed = quiescence_value parsed)
             /\ (kingAttackers (board_of parsed) <> 0 ->
                 judge line h = (RejectedInCheck, parsed))
             /\ (piece_total (board_of parsed) <= 6 ->
                 snd (judge line h) = parsed
                 /\ (fst (judge line h) = RejectedInCheck
                     \/ fst (judge line h) = RejectedFewPieces))).
Proof.
  unfold filterBook. intros H.
  bind_inv H as fin g1 e1 Hopen. bind_inv H as [] g2 e2 Hpool.
  bind_inv H as [] g3 e3 Hloop.
  apply fopen_read_done in Hopen. destruct Hopen as (name & -> & -> & -> & ->).
  apply call__done in Hpool. destruct Hpool as [-> ->].
  apply emit_done in H. destruct H as [-> ->].
  apply while_fgets_done in Hloop. destruct Hloop as (content & Hc & Hloop).
  rewrite for_lines_filter in Hloop. apply Done_inj in Hloop.
  injection Hloop as <- <-.
  exists name, content. split; [reflexivity|]. split; [auto|].
  cbv zeta. split; [reflexivity|]. split.
  - cbn [app]. change (stdout_of (EvCreateThreadPool 1 :: ?l)) with (stdout_of l).
    rewrite stdout_of_app, stdout_of_filter_trace. cbn [stdout_of].
    apply append_nil_r.
  - intros line h. split; [apply judge_kept_iff|].
    split; [apply judge_in_check | apply judge_few_pieces].
Qed.

End FilterClaims.

Lemma sample_filter_run_done :
  sample_filter_run = Done (tt, sample_filter_final, sample_filter_events).
Proof. vm_compute. reflexivity. Qed.

Lemma filter_witness :
  sample_filter_run = Done (tt, sample_filter_final, sample_filter_events)
  /\ stdout_of sample_filter_events
     = (start_fen ++ " [0.5] 12" ++ nl)
       ++ ("r1bqkbnr/pppppppp/2n5/8/8/5N2/PPPPPPPP/RNBQKB1R b KQkq - 2 2 [1.0] -7"
           ++ nl)
  /\ exists name content,
       Some "book.txt" = Some name /\ sample_files name = Some content
       /\ stdout_of sample_filter_events
          = fold_right String.append ""
              (kept_lines (fgets_lines content) (createThreadPool 1 sample_start)).
Proof.
  split; [exact sample_filter_run_done|].
  split; [vm_compute; reflexivity|].
  destruct (@filter_keeps_exactly_quiet_lines sample_engine
              (Some "book.txt") sample_files sample_start
              tt sample_filter_final sample_filter_events
              sample_filter_run_done)
    as (name & content & Hn & Hc & _ & Hout & _).
  exists name, content. auto.
Defined.

(** ** [handleCommandLine] *)

Section DispatchClaims.
Context {EH : EngineHandle} {PM : PieceMacros}.

Lemma arg_is_unrecognized argv name :
  unrecognized argv ->
  In name ["bench"; "filter"; "nnbook"; "evalbook"] ->
  arg_is argv 1 name = false.
Proof.
  unfold unrecognized, arg_is, strEquals. intros H Hin.
  destruct (nth_error argv 1) as [cmd|]; [|reflexivity].
  destruct (H cmd eq_refl) as (H1 & H2 & H3 & H4).
  apply String.eqb_neq. simpl in Hin.
  intuition congruence.
Qed.

(** An unrecognized command reaches the end of the four tests; what
    follows depends on whether the build defines [TUNE]. *)
Lemma handleCommandLine_unrecognized tune bench_csv junk argv fs g :
  unrecognized argv ->
  handleCommandLine tune bench_csv junk argv fs g
  = if tune then Done (Exited EXIT_SUCCESS, runTuner g, [EvRunTuner])
    else Done (Returned, g, []).
Proof.
  intros H. unfold handleCommandLine.
  rewrite !(@arg_is_unrecognized argv _ H) by (simpl; auto).
  rewrite !andb_false_r. destruct tune; reflexivity.
Qed.

(** C8.  In a build without [TUNE], when [argv[1]] is absent or is not
    one of the four command names, [handleCommandLine] returns to its
    caller: no pipeline runs, nothing is printed, the engine is not
    touched and the process does not exit. *)
Theorem handleCommandLine_falls_through bench_csv junk argv fs g :
  unrecognized argv ->
  handleCommandLine false bench_csv junk argv fs g = Done (Returned, g, [])
  /\ forall c g' evs,
       handleCommandLine false bench_csv junk argv fs g = Done (c, g', evs) ->
       stdout_of evs = ""
       /\ (forall status, c = Exited status -> status = EXIT_SUCCESS).
Proof.
  intros H.
  pose proof (@handleCommandLine_unrecognized false bench_csv junk argv fs g H) as E.
  cbn [negb] in E. split; [exact E|].
  intros c g' evs Hrun. rewrite E in Hrun. apply Done_inj in Hrun.
  injection Hrun as <- <- <-. split; [reflexivity|]. discriminate.
Qed.

End DispatchClaims.

Lemma handleCommandLine_witness :
  unrecognized ["Ethereal"] /\ unrecognized ["Ethereal"; "perft"; "5"]
  /\ handleCommandLine false [] (fun _ => 0) ["Ethereal"; "perft"; "5"]
       sample_files sample_start
     = Done (Returned, sample_start, []).
Proof.
  assert (H1 : unrecognized ["Ethereal"]) by (intros cmd; discriminate).
  assert (H2 : unrecognized ["Ethereal"; "perft"; "5"]).
  { intros cmd [= <-]. repeat split; discriminate. }
  split; [exact H1|]. split; [exact H2|].
  exact (proj1 (@handleCommandLine_falls_through sample_engine sample_macros
                  [] (fun _ => 0) ["Ethereal"; "perft"; "5"]
                  sample_files sample_start H2)).
Defined.

(** ** The benchmark: arrays, loops and faults *)

Lemma nth_error_list_update_eq {A} (l : list A) i v :
  (i < List.length l)%nat -> nth_error (list_update l i v) i = Some v.
Proof.
  revert i; induction l as [|h t IH]; intros [|i] Hi; simpl in *; try lia.
  - reflexivity.
  - apply IH. lia.
Qed.

Lemma nth_error_list_update_neq {A} (l : list A) i j v :
  i <> j -> nth_error (list_update l i v) j = nth_error l j.
Proof.
  revert i j; induction l as [|h t IH]; intros [|i] [|j] Hij; simpl;
    try reflexivity; try lia.
  apply IH. lia.
Qed.

Lemma Forall_list_update {A} (P : A -> Prop) l i v :
  Forall P l -> P v -> Forall P (list_update l i v).
Proof.
  intros Hl Hv. revert i; induction Hl as [|h t Hh Ht IH]; intros [|i]; simpl;
    constructor; auto.
Qed.

Lemma stdout_of_no_printf evs : filter is_printf evs = [] -> stdout_of evs = "".
Proof.
  induction evs as [|e evs IH]; [reflexivity|].
  destruct e; simpl; auto. discriminate.
Qed.

Lemma phases_app l1 l2 : phases (l1 ++ l2) = (phases l1 ++ phases l2)%list.
Proof.
  induction l1 as [|e l1 IH]; [reflexivity|].
  simpl. destruct (phase_of e); simpl; rewrite IH; reflexivity.
Qed.

Lemma positions_sentinel l1 l2 :
  Forall (fun fen => fen <> "") l1 -> positions (l1 ++ "" :: l2) = l1.
Proof.
  induction 1 as [|fen l1 Hfen _ IH]; [reflexivity|].
  simpl. unfold strEquals. apply String.eqb_neq in Hfen. rewrite Hfen.
  now rewrite IH.
Qed.

Lemma positions_length_le l : (List.length (positions l) <= List.length l)%nat.
Proof.
  induction l as [|fen l IH]; simpl; [lia|].
  destruct (strEquals fen ""); simpl; lia.
Qed.

Lemma in_sentinel_app (csv : list string) : In "" (csv ++ [""])%list.
Proof. apply in_or_app. right. now left. Qed.

Section BenchFacts.
Context {EH : EngineHandle} {PM : PieceMacros}.

Lemma bind_fault {A B} (m : M A) (k : A -> M B) fs g f :
  bind m k fs g = Fault f ->
  m fs g = Fault f
  \/ exists a g1 e1, m fs g = Done (a, g1, e1) /\ k a fs g1 = Fault f.
Proof.
  unfold bind. destruct (m fs g) as [[[a g1] e1]|f0].
  - destruct (k a fs g1) as [[[b g2] e2]|f1] eqn:Hk; [discriminate|].
    intros [= <-]. right. exists a, g1, e1. auto.
  - intros [= <-]. now left.
Qed.

Lemma call_fault {A} e (f : Engine -> A * Engine) fs g x :
  call e f fs g = Fault x -> False.
Proof. unfold call. destruct (f g). discriminate. Qed.

Lemma call__fault e (f : Engine -> Engine) fs g x :
  call_ e f fs g = Fault x -> False.
Proof. apply call_fault. Qed.

Lemma emit_fault e fs g x : emit e fs g = Fault x -> False.
Proof. apply call__fault. Qed.

Lemma lift_fault {A} (o : outcome A) fs g f :
  lift o fs g = Fault f -> o = Fault f.
Proof. unfold lift. destruct o; [discriminate|]. now intros [= <-]. Qed.

Lemma info_value_at_done depth fs g v g' evs :
  info_value_at depth fs g = Done (v, g', evs) ->
  v = info_value g depth /\ g' = g /\ evs = [].
Proof.
  unfold info_value_at. destruct (andb _ _); [|discriminate].
  intros H. now apply peek_done in H.
Qed.

Lemma info_value_at_inside depth fs g :
  0 <= depth < MAX_PLY ->
  info_value_at depth fs g = Done (info_value g depth, g, []).
Proof.
  intros [H0 H1]. unfold info_value_at.
  apply Z.leb_le in H0. apply Z.ltb_lt in H1. now rewrite H0, H1.
Qed.

Lemma info_value_at_outside depth fs g :
  ~ 0 <= depth < MAX_PLY ->
  info_value_at depth fs g = Fault (OutOfBounds "values" depth).
Proof.
  intros H. unfold info_value_at.
  destruct (Z.leb_spec 0 depth), (Z.ltb_spec depth MAX_PLY);
    try reflexivity. lia.
Qed.

Lemma info_value_at_range depth fs g v g' evs :
  info_value_at depth fs g = Done (v, g', evs) -> 0 <= depth < MAX_PLY.
Proof.
  unfold info_value_at.
  destruct (Z.leb_spec 0 depth), (Z.ltb_spec depth MAX_PLY);
    try discriminate. lia.
Qed.

Lemma store_done {A} name (a : list (option A)) i v fs g a' g' evs :
  store name a i v fs g = Done (a', g', evs) ->
  (i < List.length a)%nat /\ a' = list_update a i (Some v)
  /\ g' = g /\ evs = [].
Proof.
  unfold store. intros H. apply lift_done in H. destruct H as (H & -> & ->).
  apply array_set_done in H. tauto.
Qed.

Lemma store_fault {A} name (a : list (option A)) i (v : A) fs g f :
  store name a i v fs g = Fault f -> (List.length a <= i)%nat.
Proof.
  unfold store. intros H. apply lift_fault in H. unfold array_set in H.
  destruct (Nat.ltb_spec i (List.length a)); [discriminate | assumption].
Qed.

Lemma load_done {A} name (a : list (option A)) i fs g v g' evs :
  load name a i fs g = Done (v, g', evs) ->
  nth_error a i = Some (Some v) /\ g' = g /\ evs = [].
Proof.
  unfold load. intros H. apply lift_done in H. destruct H as (H & -> & ->).
  obind_inv H as cell Hcell. unfold array_get in Hcell.
  apply from_option_done in Hcell. apply from_option_done in H.
  subst cell. auto.
Qed.

Lemma load_fault {A} name (a : list (option A)) i fs g f :
  load name a i fs g = Fault f -> ~ cell_set a i.
Proof.
  unfold load, array_get. intros H [v Hv]. apply lift_fault in H.
  rewrite Hv in H. discriminate.
Qed.

Lemma atoi_fault s f : atoi s = Fault f -> f = Undefined "atoi out of range".
Proof.
  unfold atoi. destruct (andb _ _); [discriminate|]. now intros [= <-].
Qed.

Lemma int_arg_fault argv k d fs g f :
  int_arg argv k d fs g = Fault f -> f = Undefined "atoi out of range".
Proof.
  unfold int_arg. destruct (nth_error argv k).
  - intros H. apply lift_fault in H. now apply atoi_fault in H.
  - discriminate.
Qed.

Lemma int_arg_done argv k d fs g v g' evs :
  int_arg argv k d fs g = Done (v, g', evs) -> g' = g /\ evs = [].
Proof.
  unfold int_arg. destruct (nth_error argv k).
  - intros H. apply lift_done in H. tauto.
  - intros H. apply ret_done in H. tauto.
Qed.

Lemma bind_done_intro {A B} (m : M A) (k : A -> M B) fs g a g1 e1 b g2 e2 :
  m fs g = Done (a, g1, e1) -> k a fs g1 = Done (b, g2, e2) ->
  bind m k fs g = Done (b, g2, (e1 ++ e2)%list).
Proof. intros Hm Hk. unfold bind. now rewrite Hm, Hk. Qed.

Lemma int_arg_done_value argv k d fs g v g' evs :
  int_arg argv k d fs g = Done (v, g', evs) -> v = int_arg_value argv k d.
Proof.
  unfold int_arg, int_arg_value. destruct (nth_error argv k) as [a|].
  - intros H. apply lift_done in H. destruct H as (H & _). unfold atoi in H.
    destruct (andb _ _); [|discriminate]. now apply Done_inj in H.
  - intros H. apply ret_done in H. now destruct H as (-> & _).
Qed.

(** What [(int)d] gives when it is defined. *)
Lemma int_of_double_done d z :
  int_of_double d = Done z ->
  match d with
  | S754_zero _ => z = 0
  | S754_finite s m e =>
      z = (if s then -1 else 1)
          * (if 0 <=? e then Z.pos m * 2 ^ e else Z.pos m / 2 ^ (- e))
      /\ INT_MIN <= z <= INT_MAX
  | _ => False
  end.
Proof.
  unfold int_of_double. destruct d as [s|s| |s m e]; try discriminate.
  - now intros [= <-].
  - cbv zeta.
    generalize (if 0 <=? e then Z.pos m * 2 ^ e else Z.pos m / 2 ^ (- e)).
    intros mag.
    destruct (andb _ _) eqn:E; [|discriminate]. intros [= <-].
    apply andb_true_iff in E. destruct E as [E1 E2].
    apply Z.leb_le in E1, E2. split; [|split; assumption].
    destruct s; lia.
Qed.

Lemma int_of_double_fault d f :
  int_of_double d = Fault f -> is_bounds_fault f = false.
Proof.
  unfold int_of_double. destruct d as [s|s| |s m e]; try discriminate.
  - now intros [= <-].
  - now intros [= <-].
  - destruct (andb _ _); [discriminate|]. now intros [= <-].
Qed.

Lemma cell_set_update_eq {A} (a : list (option A)) i (v : A) :
  (i < List.length a)%nat -> cell_set (list_update a i (Some v)) i.
Proof. intros H. exists v. now apply nth_error_list_update_eq. Qed.

Lemma cell_set_update_neq {A} (a : list (option A)) i k (v : A) :
  i <> k -> cell_set a k -> cell_set (list_update a i (Some v)) k.
Proof.
  intros Hik [w Hw]. exists w. now rewrite nth_error_list_update_neq.
Qed.

Lemma fresh_stats_sized : stats_sized fresh_stats.
Proof. repeat split. Qed.

Lemma fresh_stats_ranged : nodes_ranged fresh_stats.
Proof. unfold nodes_ranged. cbn [nodes fresh_stats]. apply Forall_forall.
  intros cell Hin. apply repeat_spec in Hin. now subst. Qed.

Lemma fresh_stats_filled : stats_filled fresh_stats 0.
Proof. intros k Hk. lia. Qed.

(** The search loop: one search and one [clearTT] per position, and
    every array filled up to the number of positions. *)
Lemma bench_search_done rest i depth limits st fs g st' g' evs :
  bench_search rest i depth limits st fs g = Done (st', g', evs) ->
  stats_sized st -> stats_filled st i -> nodes_ranged st ->
  stats_sized st'
  /\ stats_filled st' (i + List.length (positions rest))
  /\ nodes_ranged st'
  /\ phases evs = times_list (List.length (positions rest)) [PhSearch; PhClearTT]
  /\ filter is_printf evs = [].
Proof.
  revert i limits st g evs;
    induction rest as [|fen rest IH]; intros i limits st g evs;
    cbn [bench_search positions].
  - intros H. unfold past_the_array, lift in H. discriminate.
  - destruct (strEquals fen "").
    + intros H Hs Hf Hr. apply ret_done in H. destruct H as (-> & -> & ->).
      cbn [List.length]. rewrite Nat.add_0_r. auto.
    + intros H Hs Hf Hr.
      bind_inv H as now g1 e1 Hnow. bind_inv H as [] g2 e2 Hparse.
      bind_inv H as moves g3 e3 Hmoves.
      bind_inv H as bm g4 e4 Hbm. bind_inv H as pm g5 e5 Hpm.
      bind_inv H as score g6 e6 Hscore. bind_inv H as sc g7 e7 Hsc.
      bind_inv H as now' g8 e8 Hnow'. bind_inv H as tm g9 e9 Htm.
      bind_inv H as n g10 e10 Hn. bind_inv H as nd g11 e11 Hnd.
      bind_inv H as [] g12 e12 Hclear.
      apply call_done in Hnow, Hmoves, Hnow'.
      apply call__done in Hparse, Hclear.
      apply info_value_at_done in Hscore. apply peek_done in Hn.
      apply store_done in Hbm, Hpm, Hsc, Htm, Hnd.
      destruct Hnow as [_ ->], Hmoves as [_ ->], Hnow' as [_ ->].
      destruct Hparse as [_ ->], Hclear as [_ ->].
      destruct Hscore as (_ & _ & ->), Hn as (_ & _ & ->).
      destruct Hbm as (Lbm & -> & _ & ->), Hpm as (Lpm & -> & _ & ->).
      destruct Hsc as (Lsc & -> & _ & ->), Htm as (Ltm & -> & _ & ->).
      destruct Hnd as (Lnd & -> & _ & ->).
      apply IH in H.
      * destruct H as (Hs' & Hf' & Hr' & Hph & Hout).
        cbn [List.length]. rewrite Nat.add_succ_r.
        split; [exact Hs'|]. split; [exact Hf'|]. split; [exact Hr'|].
        rewrite !phases_app, !filter_app, Hph, Hout. split; reflexivity.
      * destruct Hs as (S1 & S2 & S3 & S4 & S5). unfold stats_sized.
        cbn [scores times nodes bestMoves ponderMoves].
        rewrite !list_update_length. auto.
      * intros k Hk. cbn [scores times nodes bestMoves ponderMoves].
        destruct (Nat.eq_dec i k) as [<-|Hne].
        -- repeat split; now apply cell_set_update_eq.
        -- destruct (Hf k) as (C1 & C2 & C3 & C4 & C5); [lia|].
           repeat split; now apply cell_set_update_neq.
      * unfold nodes_ranged. cbn [nodes]. apply Forall_list_update; [exact Hr|].
        unfold to_uint64. apply Z.mod_pos_bound. lia.
Qed.

(** Under the precondition, the search loop stays inside the arrays. *)
Lemma bench_search_fault rest i depth limits st fs g f :
  bench_search rest i depth limits st fs g = Fault f ->
  In "" rest -> stats_sized st ->
  (i + List.length (positions rest) <= 256)%nat ->
  0 <= depth < MAX_PLY ->
  False.
Proof.
  revert i limits st g;
    induction rest as [|fen rest IH]; intros i limits st g;
    cbn [bench_search positions].
  - intros _ [].
  - destruct (strEquals fen "") eqn:Hfen; [discriminate|].
    intros H Hin Hs Hle Hdepth. cbn [List.length] in Hle.
    destruct Hs as (S1 & S2 & S3 & S4 & S5).
    destruct Hin as [->|Hin]; [discriminate|].
    apply bind_fault in H.
    destruct H as [H | (now & g1 & e1 & _ & H)]; [now apply call_fault in H|].
    apply bind_fault in H.
    destruct H as [H | ([] & g2 & e2 & _ & H)]; [now apply call__fault in H|].
    apply bind_fault in H.
    destruct H as [H | (moves & g3 & e3 & _ & H)]; [now apply call_fault in H|].
    apply bind_fault in H.
    destruct H as [H | (bm & g4 & e4 & Hbm & H)];
      [apply store_fault in H; lia|].
    apply bind_fault in H.
    destruct H as [H | (pm & g5 & e5 & Hpm & H)];
      [apply store_fault in H; lia|].
    apply bind_fault in H.
    destruct H as [H | (score & g6 & e6 & _ & H)];
      [rewrite info_value_at_inside in H by assumption; discriminate|].
    apply bind_fault in H.
    destruct H as [H | (sc & g7 & e7 & Hsc & H)];
      [apply store_fault in H; lia|].
    apply bind_fault in H.
    destruct H as [H | (now' & g8 & e8 & _ & H)]; [now apply call_fault in H|].
    apply bind_fault in H.
    destruct H as [H | (tm & g9 & e9 & Htm & H)];
      [apply store_fault in H; lia|].
    apply bind_fault in H.
    destruct H as [H | (n & g10 & e10 & _ & H)]; [discriminate|].
    apply bind_fault in H.
    destruct H as [H | (nd & g11 & e11 & Hnd & H)];
      [apply store_fault in H; lia|].
    apply bind_fault in H.
    destruct H as [H | ([] & g12 & e12 & _ & H)]; [now apply call__fault in H|].
    apply store_done in Hbm, Hpm, Hsc, Htm, Hnd.
    destruct Hbm as (_ & -> & _), Hpm as (_ & -> & _), Hsc as (_ & -> & _).
    destruct Htm as (_ & -> & _), Hnd as (_ & -> & _).
    apply IH in H; auto.
    + unfold stats_sized. cbn [scores times nodes bestMoves ponderMoves].
      rewrite !list_update_length. auto.
    + lia.
Qed.

End BenchFacts.

Lemma to_uint64_idem z : to_uint64 (to_uint64 z) = to_uint64 z.
Proof. unfold to_uint64. apply Z.mod_mod. lia. Qed.

Lemma fold_total counts total :
  to_uint64 (fold_left (fun acc c => to_uint64 (acc + c)) counts total)
  = to_uint64 (total + sum_list counts).
Proof.
  revert total; induction counts as [|c counts IH]; intros total; simpl.
  - now rewrite Z.add_0_r.
  - rewrite IH. unfold to_uint64.
    rewrite Zplus_mod_idemp_l. f_equal. unfold sum_list. simpl. lia.
Qed.

Lemma fold_total_zero counts :
  fold_left (fun acc c => to_uint64 (acc + c)) counts 0
  = to_uint64 (sum_list counts).
Proof.
  rewrite <- (Z.add_0_l (sum_list counts)), <- fold_total.
  destruct counts as [|c counts]; [reflexivity|].
  symmetry. revert c. 
  assert (H : forall l a, to_uint64 (fold_left (fun acc c => to_uint64 (acc + c)) l (to_uint64 a))
                     = fold_left (fun acc c => to_uint64 (acc + c)) l (to_uint64 a)).
  { induction l as [|x l IHl]; intros a; simpl.
    - apply to_uint64_idem.
    - apply IHl. }
  intros c. simpl. apply H.
Qed.

Section BenchReportFacts.
Context {EH : EngineHandle} {PM : PieceMacros}.

Lemma printf_done fmt args fs g u g' evs :
  printf fmt args fs g = Done (u, g', evs) ->
  g' = g /\ evs = [EvPrintf fmt args].
Proof. unfold printf. apply emit_done. Qed.

Lemma printf_fault fmt args fs g x : printf fmt args fs g = Fault x -> False.
Proof. unfold printf. apply emit_fault. Qed.

Lemma node_counts_step st i n :
  node_counts st i (S n)
  = (match nth i (nodes st) None with Some v => v | None => 0 end)
      :: node_counts st (S i) n.
Proof. reflexivity. Qed.

Lemma node_counts_ranged st i n :
  nodes_ranged st -> Forall (fun c => 0 <= c < 2 ^ 64) (node_counts st i n).
Proof.
  intros Hr. unfold node_counts. apply Forall_forall. intros c Hc.
  apply in_map_iff in Hc. destruct Hc as (k & <- & _).
  destruct (nth_in_or_default k (nodes st) None) as [Hin | ->]; [|lia].
  unfold nodes_ranged in Hr. rewrite Forall_forall in Hr.
  specialize (Hr _ Hin). destruct (nth k (nodes st) None); [exact Hr | lia].
Qed.

(** The report loop prints one line per position, with the node count
    of that position as its fifth argument. *)
Lemma bench_report_done rest i st fs g u g' evs :
  bench_report rest i st fs g = Done (u, g', evs) ->
  g' = g /\ phases evs = []
  /\ Forall (fun e => exists args, e = EvPrintf bench_line_format args) evs
  /\ map bench_line_nodes evs
     = map (fun c => Some (to_int32 c))
           (node_counts st i (List.length (positions rest))).
Proof.
  revert i g evs; induction rest as [|fen rest IH]; intros i g evs;
    cbn [bench_report positions].
  - intros H. unfold past_the_array, lift in H. discriminate.
  - destruct (strEquals fen "").
    + intros H. apply ret_done in H. destruct H as (_ & -> & ->).
      split; [reflexivity|]. split; [reflexivity|].
      split; [constructor | reflexivity].
    + intros H.
      bind_inv H as best g1 e1 Hbest. bind_inv H as ponder g2 e2 Hponder.
      bind_inv H as score g3 e3 Hscore. bind_inv H as n g4 e4 Hn.
      bind_inv H as t g5 e5 Ht. bind_inv H as nps g6 e6 Hnps.
      bind_inv H as [] g7 e7 Hprint.
      apply load_done in Hbest, Hponder, Hscore, Hn, Ht.
      destruct Hbest as (_ & -> & ->), Hponder as (_ & -> & ->).
      destruct Hscore as (_ & -> & ->), Hn as (Hn & -> & ->).
      destruct Ht as (_ & -> & ->).
      apply lift_done in Hnps. destruct Hnps as (_ & -> & ->).
      apply printf_done in Hprint. destruct Hprint as [-> ->].
      apply IH in H. destruct H as (-> & Hph & Hall & Hnodes).
      cbn [List.length]. rewrite node_counts_step.
      rewrite (nth_error_nth _ _ None Hn).
      cbn [app]. split; [reflexivity|]. split; [exact Hph|].
      split; [constructor; [eexists; reflexivity | exact Hall]|].
      cbn [map bench_line_nodes]. now rewrite Hnodes.
Qed.

Lemma bench_report_fault rest i st fs g f :
  bench_report rest i st fs g = Fault f ->
  In "" rest ->
  stats_filled st (i + List.length (positions rest)) ->
  is_bounds_fault f = false
  /\ f <> Undefined "read of an uninitialised element".
Proof.
  revert i g; induction rest as [|fen rest IH]; intros i g;
    cbn [bench_report positions].
  - intros _ [].
  - destruct (strEquals fen "") eqn:Hfen; [discriminate|].
    intros H Hin Hf. cbn [List.length] in Hf.
    destruct Hin as [->|Hin]; [discriminate|].
    destruct (Hf i) as (C1 & C2 & C3 & C4 & C5); [lia|].
    apply bind_fault in H.
    destruct H as [H | (best & g1 & e1 & _ & H)];
      [now apply load_fault in H|].
    apply bind_fault in H.
    destruct H as [H | (ponder & g2 & e2 & _ & H)];
      [now apply load_fault in H|].
    apply bind_fault in H.
    destruct H as [H | (score & g3 & e3 & _ & H)];
      [now apply load_fault in H|].
    apply bind_fault in H.
    destruct H as [H | (n & g4 & e4 & _ & H)];
      [now apply load_fault in H|].
    apply bind_fault in H.
    destruct H as [H | (t & g5 & e5 & _ & H)];
      [now apply load_fault in H|].
    apply bind_fault in H.
    destruct H as [H | (nps & g6 & e6 & _ & H)].
    { apply lift_fault in H. unfold int_of_double in H.
      destruct (nps_value n t) as [s|s| |s m e]; try discriminate;
        try (injection H as <-; split; [reflexivity | discriminate]).
      destruct (andb _ _); [discriminate|].
      injection H as <-. split; [reflexivity | discriminate]. }
    apply bind_fault in H.
    destruct H as [H | ([] & g7 & e7 & _ & H)]; [now apply printf_fault in H|].
    apply IH in H; auto.
    rewrite Nat.add_succ_l, <- Nat.add_succ_r. exact Hf.
Qed.

Lemma bench_total_done rest i st total fs g t g' evs :
  bench_total rest i st total fs g = Done (t, g', evs) ->
  g' = g /\ evs = []
  /\ t = fold_left (fun acc c => to_uint64 (acc + c))
           (node_counts st i (List.length (positions rest))) total.
Proof.
  revert i total g evs; induction rest as [|fen rest IH];
    intros i total g evs; cbn [bench_total positions].
  - intros H. unfold past_the_array, lift in H. discriminate.
  - destruct (strEquals fen "").
    + intros H. apply ret_done in H. destruct H as (-> & -> & ->). auto.
    + intros H. bind_inv H as n g1 e1 Hn.
      apply load_done in Hn. destruct Hn as (Hn & -> & ->).
      apply IH in H. destruct H as (-> & -> & ->).
      cbn [List.length]. rewrite node_counts_step.
      rewrite (nth_error_nth _ _ None Hn). auto.
Qed.

Lemma bench_total_fault rest i st total fs g f :
  bench_total rest i st total fs g = Fault f ->
  In "" rest ->
  stats_filled st (i + List.length (positions rest)) ->
  False.
Proof.
  revert i total g; induction rest as [|fen rest IH]; intros i total g;
    cbn [bench_total positions].
  - intros _ [].
  - destruct (strEquals fen "") eqn:Hfen; [discriminate|].
    intros H Hin Hf. cbn [List.length] in Hf.
    destruct Hin as [->|Hin]; [discriminate|].
    destruct (Hf i) as (_ & _ & C3 & _); [lia|].
    apply bind_fault in H.
    destruct H as [H | (n & g1 & e1 & _ & H)];
      [now apply load_fault in H|].
    apply IH in H; auto.
    rewrite Nat.add_succ_l, <- Nat.add_succ_r. exact Hf.
Qed.

(** A run of [runBenchmark] that ends, taken apart. *)
Lemma runBenchmark_done bench_csv argv fs g u g' evs :
  runBenchmark bench_csv argv fs g = Done (u, g', evs) ->
  exists megabytes nthreads search report st late nps,
    let n := List.length (positions (bench_csv ++ [""])) in
    let counts := node_counts st 0 n in
    let total := to_uint64 (sum_list counts) in
    let time0 := fst (getRealTime (initTT megabytes g)) in
    let time1 := fst (getRealTime late) in
    evs = ([EvInitTT megabytes; EvGetRealTime; EvCreateThreadPool nthreads]
           ++ search ++ [EvPrintf (nl ++ rule ++ nl) []] ++ report
           ++ [EvPrintf (rule ++ nl) []; EvGetRealTime;
               EvPrintf overall_format [PInt (to_int32 total); PInt nps];
               EvFree])%list
    /\ phases search = times_list n [PhSearch; PhClearTT]
    /\ filter is_printf search = []
    /\ Forall (fun c => 0 <= c < 2 ^ 64) counts
    /\ phases report = []
    /\ Forall (fun e => exists args, e = EvPrintf bench_line_format args) report
    /\ map bench_line_nodes report = map (fun c => Some (to_int32 c)) counts
    /\ int_of_double (nps_value total (dsub time1 time0)) = Done nps.
Proof.
  unfold runBenchmark. intros H.
  bind_inv H as depth g1 e1 Hdepth. bind_inv H as nthreads g2 e2 Hnt.
  bind_inv H as megabytes g3 e3 Hmb.
  bind_inv H as [] g4 e4 Hinit. bind_inv H as time0 g5 e5 Htime0.
  bind_inv H as [] g6 e6 Hpool. bind_inv H as st g7 e7 Hsearch.
  bind_inv H as [] g8 e8 Hrule1. bind_inv H as [] g9 e9 Hreport.
  bind_inv H as [] g10 e10 Hrule2. bind_inv H as now g11 e11 Hnow.
  bind_inv H as total g12 e12 Htotal. bind_inv H as nps g13 e13 Hnps.
  bind_inv H as [] g14 e14 Hprint.
  apply int_arg_done in Hdepth, Hnt, Hmb.
  destruct Hdepth as [-> ->], Hnt as [-> ->], Hmb as [-> ->].
  apply call__done in Hinit, Hpool. destruct Hinit as [-> ->], Hpool as [-> ->].
  apply call_done in Htime0, Hnow. destruct Htime0 as [Ht0 ->], Hnow as [Ht1 ->].
  apply printf_done in Hrule1, Hrule2, Hprint. apply emit_done in H.
  destruct Hrule1 as [-> ->], Hrule2 as [-> ->], Hprint as [-> ->], H as [-> ->].
  apply bench_search_done in Hsearch;
    [|apply fresh_stats_sized | apply fresh_stats_filled
     | apply fresh_stats_ranged].
  destruct Hsearch as (Hsized & Hfilled & Hranged & Hph & Hout).
  apply bench_report_done in Hreport.
  destruct Hreport as (-> & Hrph & Hrall & Hrnodes).
  apply bench_total_done in Htotal. destruct Htotal as (-> & -> & ->).
  apply lift_done in Hnps. destruct Hnps as (Hnps & -> & ->).
  rewrite fold_total_zero in Hnps |- *.
  match type of Ht1 with getRealTime ?x = _ =>
    exists megabytes, nthreads, e7, e9, st, x, nps
  end.
  cbv zeta. rewrite Ht0, Ht1. cbn [fst].
  repeat split; auto.
  now apply node_counts_ranged.
Qed.

End BenchReportFacts.

(** ** The transposition table across a run *)

Lemma times_list_no_init n l :
  filter is_init_phase l = [] -> filter is_init_phase (times_list n l) = [].
Proof.
  intros H. induction n as [|n IH]; [reflexivity|].
  cbn [times_list]. now rewrite filter_app, H, IH.
Qed.

Section TableClaims.
Context {EH : EngineHandle} {PM : PieceMacros}.

Lemma evalbook_line_done limits line fs g u g' evs :
  evalbook_line limits line fs g = Done (u, g', evs) ->
  phases evs = [PhSearch; PhResetPool; PhClearTT].
Proof.
  unfold evalbook_line. intros H.
  bind_inv H as now g1 e1 Hnow. bind_inv H as [] g2 e2 Hparse.
  bind_inv H as moves g3 e3 Hmoves. bind_inv H as [] g4 e4 Hreset.
  bind_inv H as [] g5 e5 Hclear.
  apply call_done in Hnow, Hmoves. apply call__done in Hparse, Hreset, Hclear.
  apply printf_done in H.
  destruct Hnow as [_ ->], Hmoves as [_ ->], Hparse as [_ ->].
  destruct Hreset as [_ ->], Hclear as [_ ->], H as [_ ->].
  reflexivity.
Qed.

Lemma for_lines_evalbook limits lines k fs g u g' evs :
  for_lines lines k (fun _ line => evalbook_line limits line) fs g
  = Done (u, g', evs) ->
  phases evs = times_list (List.length lines) [PhSearch; PhResetPool; PhClearTT].
Proof.
  revert k g evs; induction lines as [|line rest IH]; intros k g evs;
    cbn [for_lines].
  - intros H. apply ret_done in H. destruct H as (_ & _ & ->). reflexivity.
  - intros H. bind_inv H as [] g1 e1 Hline.
    apply evalbook_line_done in Hline. apply IH in H.
    rewrite phases_app, Hline, H. reflexivity.
Qed.

Lemma phases_runBenchmark bench_csv argv fs g u g' evs :
  runBenchmark bench_csv argv fs g = Done (u, g', evs) ->
  phases evs
  = PhInitTT :: times_list (List.length (positions (bench_csv ++ [""])))
                           [PhSearch; PhClearTT].
Proof.
  intros H. apply runBenchmark_done in H.
  destruct H as (mb & nt & search & report & st & late & nps & H).
  cbv zeta in H. destruct H as (-> & Hph & _ & _ & Hrph & _).
  rewrite !phases_app, Hph, Hrph. cbn. now rewrite app_nil_r.
Qed.

Lemma phases_runEvalBook argv fs g u g' evs :
  runEvalBook argv fs g = Done (u, g', evs) ->
  exists name content,
    nth_error argv 2 = Some name /\ fs name = Some content
    /\ phases evs
       = PhInitTT :: times_list (List.length (fgets_lines content))
                                [PhSearch; PhResetPool; PhClearTT].
Proof.
  unfold runEvalBook. intros H.
  bind_inv H as start0 g1 e1 Hstart. bind_inv H as book g2 e2 Hopen.
  bind_inv H as depth g3 e3 Hdepth. bind_inv H as nthreads g4 e4 Hnt.
  bind_inv H as megabytes g5 e5 Hmb. bind_inv H as [] g6 e6 Hpool.
  bind_inv H as [] g7 e7 Hinit. bind_inv H as [] g8 e8 Hloop.
  bind_inv H as now g9 e9 Hnow. bind_inv H as ms g10 e10 Hms.
  apply call_done in Hstart, Hnow. destruct Hstart as [_ ->], Hnow as [_ ->].
  apply fopen_read_done in Hopen. destruct Hopen as (name & Hname & -> & -> & ->).
  apply int_arg_done in Hdepth, Hnt, Hmb.
  destruct Hdepth as [-> ->], Hnt as [-> ->], Hmb as [-> ->].
  apply call__done in Hpool, Hinit. destruct Hpool as [-> ->], Hinit as [-> ->].
  apply lift_done in Hms. destruct Hms as (_ & -> & ->).
  apply printf_done in H. destruct H as [_ ->].
  apply while_fgets_done in Hloop. destruct Hloop as (content & Hc & Hloop).
  apply for_lines_evalbook in Hloop.
  exists name, content. repeat split; auto.
  rewrite !phases_app, Hloop. cbn. now rewrite app_nil_r.
Qed.

(** C6.  In a run of [runBenchmark] and in a run of [runEvalBook], the
    events that touch the transposition table, the searches and the
    per-search state of the pool are: one [initTT], then for every
    position (every line) a search followed by [clearTT] (by
    [resetThreadPool] and [clearTT] in [runEvalBook]).  So [initTT]
    happens exactly once, before the first search, and between two
    searches the table is cleared and never initialised again. *)
Theorem tt_init_once_then_clear_after_each_search :
  (forall bench_csv argv fs g u g' evs,
      runBenchmark bench_csv argv fs g = Done (u, g', evs) ->
      phases evs
      = PhInitTT :: times_list (List.length (positions (bench_csv ++ [""])))
                               [PhSearch; PhClearTT]
      /\ List.length (filter is_init_phase (phases evs)) = 1%nat)
  /\ (forall argv fs g u g' evs,
        runEvalBook argv fs g = Done (u, g', evs) ->
        exists name content,
          nth_error argv 2 = Some name /\ fs name = Some content
          /\ phases evs
             = PhInitTT :: times_list (List.length (fgets_lines content))
                                      [PhSearch; PhResetPool; PhClearTT]
          /\ List.length (filter is_init_phase (phases evs)) = 1%nat).
Proof.
  split.
  - intros csv argv fs g u g' evs H. apply phases_runBenchmark in H.
    split; [exact H|]. rewrite H. cbn [filter is_init_phase].
    now rewrite times_list_no_init.
  - intros argv fs g u g' evs H. apply phases_runEvalBook in H.
    destruct H as (name & content & Hn & Hc & H).
    exists name, content. repeat split; auto.
    rewrite H. cbn [filter is_init_phase].
    now rewrite times_list_no_init.
Qed.

End TableClaims.

Lemma sample_bench_run_done :
  sample_bench_run = Done (tt, sample_bench_final, sample_bench_events).
Proof. vm_compute. reflexivity. Qed.

Lemma sample_evalbook_run_done :
  sample_evalbook_run
  = Done (tt, sample_evalbook_final, sample_evalbook_events).
Proof. vm_compute. reflexivity. Qed.

Lemma tt_discipline_witness :
  sample_bench_run = Done (tt, sample_bench_final, sample_bench_events)
  /\ phases sample_bench_events
     = [PhInitTT; PhSearch; PhClearTT; PhSearch; PhClearTT]
  /\ sample_evalbook_run
     = Done (tt, sample_evalbook_final, sample_evalbook_events)
  /\ List.length (filter is_init_phase (phases sample_evalbook_events)) = 1%nat.
Proof.
  split; [exact sample_bench_run_done|].
  split.
  - exact (proj1 (proj1 (@tt_init_once_then_clear_after_each_search
                           sample_engine)
                    sample_suite ["Ethereal"; "bench"; "4"]
                    sample_files sample_start tt sample_bench_final
                    sample_bench_events sample_bench_run_done)).
  - split; [exact sample_evalbook_run_done|].
    destruct (proj2 (@tt_init_once_then_clear_after_each_search
                       sample_engine)
                ["Ethereal"; "evalbook"; "book.txt"; "3"]
                sample_files sample_start tt sample_evalbook_final
                sample_evalbook_events sample_evalbook_run_done)
      as (name & content & _ & _ & _ & H).
    exact H.
Defined.

(** ** The aggregate line of the benchmark *)

Lemma filter_line_of_no_printf fmt evs :
  filter is_printf evs = [] -> filter (is_line_of fmt) evs = [].
Proof.
  induction evs as [|e evs IH]; [reflexivity|].
  destruct e; simpl; auto. discriminate.
Qed.

Lemma filter_line_of_same fmt evs :
  Forall (fun e => exists args, e = EvPrintf fmt args) evs ->
  filter (is_line_of fmt) evs = evs.
Proof.
  induction 1 as [|e evs [args ->] _ IH]; [reflexivity|].
  simpl. rewrite String.eqb_refl. now rewrite IH.
Qed.

Lemma filter_line_of_other fmt fmt' evs :
  Forall (fun e => exists args, e = EvPrintf fmt' args) evs ->
  String.eqb fmt' fmt = false ->
  filter (is_line_of fmt) evs = [].
Proof.
  intros H Hne. induction H as [|e evs [args ->] _ IH]; [reflexivity|].
  simpl. now rewrite Hne.
Qed.

Lemma to_int32_small z : 0 <= z <= INT_MAX -> to_int32 z = z.
Proof.
  unfold to_int32, INT_MAX. intros H. rewrite Z.mod_small; lia.
Qed.

Lemma sum_list_nonneg l : Forall (fun c => 0 <= c < 2 ^ 64) l -> 0 <= sum_list l.
Proof.
  induction 1 as [|c l Hc _ IH]; unfold sum_list in *; simpl; lia.
Qed.

(** With no node searched the rate is 0, whatever the elapsed time, as
    long as the quotient is a number at all. *)
Lemma nps_of_zero_nodes elapsed nps :
  int_of_double (nps_value 0 elapsed) = Done nps -> nps = 0.
Proof.
  unfold nps_value.
  change (fmul (float_of_Z 1000) (float_of_Z 0)) with (S754_zero false).
  unfold ddiv, SFdiv.
  destruct (dadd elapsed (double_of_Z 1)) as [s|s| |s m e]; simpl;
    intros H; try discriminate; now injection H.
Qed.

Lemma nps_zero_defined elapsed :
  nonzero_number (dadd elapsed (double_of_Z 1)) = true ->
  int_of_double (nps_value 0 elapsed) = Done 0.
Proof.
  unfold nps_value.
  change (fmul (float_of_Z 1000) (float_of_Z 0)) with (S754_zero false).
  unfold ddiv, SFdiv.
  destruct (dadd elapsed (double_of_Z 1)) as [s|s| |s m e]; simpl;
    intros H; try discriminate; reflexivity.
Qed.

(** Adding 1 to an elapsed time of zero gives 1: the divisor is not 0. *)
Lemma elapsed_zero_plus_one s :
  dadd (S754_zero s) (double_of_Z 1) = double_of_Z 1
  /\ nonzero_number (double_of_Z 1) = true.
Proof. destruct s; split; reflexivity. Qed.

Section OverallClaims.
Context {EH : EngineHandle} {PM : PieceMacros}.

Lemma int_arg_total argv k d fs g :
  args_in_range argv ->
  int_arg argv k d fs g = Done (int_arg_value argv k d, g, []).
Proof.
  intros H. unfold int_arg, int_arg_value.
  destruct (nth_error argv k) as [a|] eqn:E; [|reflexivity].
  specialize (H k a E). unfold lift, atoi.
  destruct (Z.leb_spec INT_MIN (parse_int a)); [|lia].
  destruct (Z.leb_spec (parse_int a) INT_MAX); [|lia].
  reflexivity.
Qed.

(** The benchmark on a suite that holds only the sentinel. *)
Lemma runBenchmark_empty_suite argv fs g :
  args_in_range argv ->
  let nthreads := int_arg_value argv 3 1 in
  let megabytes := int_arg_value argv 4 16 in
  let g1 := initTT megabytes g in
  let time0 := fst (getRealTime g1) in
  let g2 := createThreadPool nthreads (snd (getRealTime g1)) in
  let time1 := fst (getRealTime g2) in
  nonzero_number (dadd (dsub time1 time0) (double_of_Z 1)) = true ->
  runBenchmark [] argv fs g
  = Done (tt, snd (getRealTime g2),
          [EvInitTT megabytes; EvGetRealTime; EvCreateThreadPool nthreads;
           EvPrintf (nl ++ rule ++ nl) []; EvPrintf (rule ++ nl) [];
           EvGetRealTime;
           EvPrintf overall_format [PInt 0; PInt 0]; EvFree]).
Proof.
  intros Hargs. cbv zeta. intros Hnum.
  unfold runBenchmark, bind. rewrite !int_arg_total by assumption.
  unfold call_, call, printf, emit, call_, call.
  destruct (getRealTime (initTT (int_arg_value argv 4 16) g)) as [t0 g2].
  cbn [fst snd] in Hnum |- *. cbn [app bench_search bench_report bench_total].
  change (strEquals "" "") with true. cbn iota. unfold ret.
  destruct (getRealTime (createThreadPool (int_arg_value argv 3 1) g2))
    as [t1 g3].
  cbn [fst snd] in Hnum |- *. unfold lift.
  rewrite (nps_zero_defined _ Hnum). reflexivity.
Qed.


End OverallClaims.

(** ** The arrays of the benchmark *)

Section BoundsClaims.
Context {EH : EngineHandle} {PM : PieceMacros}.

(** C10, as amended.  When the suite holds at most 256 positions before
    the sentinel and the depth is an index of [threads->info->values]
    (0 <= depth < MAX_PLY), no run of [runBenchmark] accesses [scores],
    [times], [nodes], [bestMoves], [ponderMoves], [Benchmarks] or
    [values] outside its bounds, in the search loop or in either
    reporting loop, and none reads an element that was not stored: the
    only faults left are an argument that [atoi] cannot represent and a
    rate that does not fit an [int].  With arguments that [atoi] can
    represent the search loop runs to its end, and has then stored to
    the elements of the five arrays for every position of the suite. *)
Theorem bench_arrays_in_bounds bench_csv argv fs g :
  (List.length (positions (bench_csv ++ [""])) <= 256)%nat ->
  0 <= int_arg_value argv 2 13 < MAX_PLY ->
  (forall f,
      runBenchmark bench_csv argv fs g = Fault f ->
      is_bounds_fault f = false
      /\ f <> Undefined "read of an uninitialised element")
  /\ (args_in_range argv ->
      let depth := int_arg_value argv 2 13 in
      let limits := {| multiPV := 1; limitedByDepth := 1; depthLimit := depth;
                       start := S754_zero false |} in
      let g0 := createThreadPool (int_arg_value argv 3 1)
                  (snd (getRealTime (initTT (int_arg_value argv 4 16) g))) in
      exists st g' evs,
        bench_search (bench_csv ++ [""]) 0 depth limits fresh_stats fs g0
        = Done (st, g', evs)
        /\ stats_sized st
        /\ stats_filled st (List.length (positions (bench_csv ++ [""])))).
Proof.
  intros Hle Hdepth. pose proof (in_sentinel_app bench_csv) as Hsent. split.
  - intros f H. unfold runBenchmark in H.
    apply bind_fault in H. destruct H as [H | (depth & g1 & e1 & Vd & H)].
    { apply int_arg_fault in H. subst f. split; [reflexivity | discriminate]. }
    apply int_arg_done_value in Vd. subst depth.
    apply bind_fault in H. destruct H as [H | (nthreads & g2 & e2 & _ & H)].
    { apply int_arg_fault in H. subst f. split; [reflexivity | discriminate]. }
    apply bind_fault in H. destruct H as [H | (megabytes & g3 & e3 & _ & H)].
    { apply int_arg_fault in H. subst f. split; [reflexivity | discriminate]. }
    apply bind_fault in H. destruct H as [H | ([] & g4 & e4 & _ & H)];
      [now apply call__fault in H|].
    apply bind_fault in H. destruct H as [H | (time0 & g5 & e5 & _ & H)];
      [now apply call_fault in H|].
    apply bind_fault in H. destruct H as [H | ([] & g6 & e6 & _ & H)];
      [now apply call__fault in H|].
    apply bind_fault in H. destruct H as [H | (st & g7 & e7 & Hsearch & H)].
    { exfalso. eapply bench_search_fault;
        [exact H | exact Hsent | apply fresh_stats_sized | exact Hle
         | exact Hdepth]. }
    apply bench_search_done in Hsearch;
      [|apply fresh_stats_sized | apply fresh_stats_filled
       | apply fresh_stats_ranged].
    destruct Hsearch as (_ & Hfilled & _).
    apply bind_fault in H. destruct H as [H | ([] & g8 & e8 & _ & H)];
      [now apply printf_fault in H|].
    apply bind_fault in H. destruct H as [H | ([] & g9 & e9 & _ & H)].
    { eapply bench_report_fault; [exact H | exact Hsent | exact Hfilled]. }
    apply bind_fault in H. destruct H as [H | ([] & g10 & e10 & _ & H)];
      [now apply printf_fault in H|].
    apply bind_fault in H. destruct H as [H | (now & g11 & e11 & _ & H)];
      [now apply call_fault in H|].
    apply bind_fault in H. destruct H as [H | (total & g12 & e12 & _ & H)].
    { exfalso. eapply bench_total_fault; [exact H | exact Hsent | exact Hfilled]. }
    apply bind_fault in H. destruct H as [H | (nps & g13 & e13 & _ & H)].
    { apply lift_fault in H. unfold int_of_double in H.
      destruct (nps_value total _) as [s|s| |s m e]; try discriminate;
        try (injection H as <-; split; [reflexivity | discriminate]).
      destruct (andb _ _); [discriminate|].
      injection H as <-. split; [reflexivity | discriminate]. }
    apply bind_fault in H. destruct H as [H | ([] & g14 & e14 & _ & H)];
      [now apply printf_fault in H|].
    now apply emit_fault in H.
  - intros _. cbv zeta.
    match goal with
    | |- exists st g' evs, ?run = _ /\ _ =>
        destruct run as [[[st g'] evs]|f] eqn:Hsearch
    end.
    + exists st, g', evs. split; [reflexivity|].
      apply bench_search_done in Hsearch;
        [|apply fresh_stats_sized | apply fresh_stats_filled
         | apply fresh_stats_ranged].
      destruct Hsearch as (Hsized & Hfilled & _). split; assumption.
    + exfalso. eapply bench_search_fault;
        [exact Hsearch | exact Hsent | apply fresh_stats_sized | exact Hle
         | exact Hdepth].
Qed.

End BoundsClaims.

(** *** Sample runs of the benchmark *)

(** C10, as stated, fails.  The size of the suite is not the only
    precondition: with a suite of two positions, a depth of -1 and a
    depth of 200 each make the search loop read [values] outside its
    [MAX_PLY] elements. *)
Lemma bench_depth_outside_values :
  (List.length (positions (sample_suite ++ [""])) <= 256)%nat
  /\ runBenchmark sample_suite ["Ethereal"; "bench"; "-1"]
       sample_files sample_start
     = Fault (OutOfBounds "values" (-1))
  /\ runBenchmark sample_suite ["Ethereal"; "bench"; "200"]
       sample_files sample_start
     = Fault (OutOfBounds "values" 200)
  /\ is_bounds_fault (OutOfBounds "values" 200) = true.
Proof.
  split; [vm_compute; repeat constructor|].
  split; [vm_compute; reflexivity|].
  split; [vm_compute; reflexivity | reflexivity].
Qed.

Lemma args_in_range_forall argv :
  Forall (fun a => INT_MIN <= parse_int a <= INT_MAX) argv -> args_in_range argv.
Proof.
  intros H k a Hk. apply nth_error_In in Hk.
  rewrite Forall_forall in H. now apply H.
Qed.

Lemma args_in_range_bench_4 : args_in_range ["Ethereal"; "bench"; "4"].
Proof. apply args_in_range_forall; repeat constructor; discriminate. Qed.

Lemma bench_bounds_witness :
  (List.length (positions (sample_suite ++ [""])) <= 256)%nat
  /\ 0 <= int_arg_value ["Ethereal"; "bench"; "4"] 2 13 < 128
  /\ args_in_range ["Ethereal"; "bench"; "4"]
  /\ exists st g' evs,
       bench_search (sample_suite ++ [""]) 0 4
         {| multiPV := 1; limitedByDepth := 1; depthLimit := 4;
            start := S754_zero false |}
         fresh_stats sample_files sample_start
       = Done (st, g', evs)
       /\ stats_sized st /\ stats_filled st 2.
Proof.
  assert (Hle : (List.length (positions (sample_suite ++ [""])) <= 256)%nat)
    by (vm_compute; repeat constructor).
  assert (Hdepth : 0 <= int_arg_value ["Ethereal"; "bench"; "4"] 2 13 < 128)
    by (split; [vm_compute; congruence | reflexivity]).
  split; [exact Hle|]. split; [exact Hdepth|].
  split; [exact args_in_range_bench_4|].
  exact (proj2 (@bench_arrays_in_bounds sample_engine sample_suite
                  ["Ethereal"; "bench"; "4"] sample_files sample_start
                  Hle Hdepth)
               args_in_range_bench_4).
Defined.


Lemma bench_257_positions_overflow :
  runBenchmark (repeat start_fen 257) ["Ethereal"; "bench"; "1"]
    sample_files sample_start
  = Fault (OutOfBounds "bestMoves" 256).
Proof. vm_compute. reflexivity. Qed.

(** With 256 positions the run ends. *)
Lemma bench_256_positions_run :
  exists g evs,
    runBenchmark (repeat start_fen 256) ["Ethereal"; "bench"; "1"]
      sample_files sample_start
    = Done (tt, g, evs).
Proof. vm_compute. eauto. Qed.

(** ** When a record is written *)

Lemma popcount_eq bb : popcount bb = Z.of_nat (List.length (squares_of bb)).
Proof. reflexivity. Qed.

Lemma uint64_bits x :
  is_uint64 x <-> 0 <= x /\ forall n, 64 <= n -> Z.testbit x n = false.
Proof.
  unfold is_uint64. split.
  - intros [H0 H1]. split; [assumption|]. intros n Hn.
    destruct (Z.eq_dec x 0) as [->|Hnz]; [apply Z.bits_0|].
    apply Z.bits_above_log2; [assumption|].
    apply Z.lt_le_trans with 64; [|assumption].
    apply Z.log2_lt_pow2; lia.
  - intros [H0 Hbits]. split; [assumption|].
    destruct (Z.lt_ge_cases x (2 ^ 64)) as [Hlt|Hge]; [assumption|].
    assert (Hpos : 0 < x) by lia.
    assert (Hlog : 64 <= Z.log2 x) by (apply Z.log2_le_pow2; lia).
    pose proof (Z.bit_log2 x Hpos) as Hbit.
    rewrite (Hbits _ Hlog) in Hbit. discriminate.
Qed.

Lemma uint64_nonzero_has_square bb :
  is_uint64 bb -> bb <> 0 -> squares_of bb <> [].
Proof.
  intros Hu Hnz Hempty. apply Hnz. apply uint64_bits in Hu.
  destruct Hu as [H0 Hhigh]. apply Z.bits_inj'. intros n Hn.
  rewrite Z.bits_0. destruct (Z.lt_ge_cases n 64) as [Hlt|Hge].
  - destruct (Z.testbit bb n) eqn:E; [|reflexivity].
    assert (Hin : In n (squares_of bb)) by (apply squares_of_spec; split; [lia | assumption]).
    rewrite Hempty in Hin. destruct Hin.
  - now apply Hhigh.
Qed.

Lemma clearbit_uint64 bb sq : is_uint64 bb -> is_uint64 (Z.clearbit bb sq).
Proof.
  intros Hu. apply uint64_bits in Hu. destruct Hu as [H0 Hhigh].
  apply uint64_bits. split.
  - rewrite Z.clearbit_spec'. apply Z.ldiff_nonneg. now left.
  - intros n Hn. rewrite Z.clearbit_eqb, (Hhigh n Hn). reflexivity.
Qed.

Lemma lor_uint64 a b : is_uint64 a -> is_uint64 b -> is_uint64 (Z.lor a b).
Proof.
  intros Ha Hb. apply uint64_bits in Ha, Hb.
  destruct Ha as [Ha Hah], Hb as [Hb Hbh]. apply uint64_bits. split.
  - apply Z.lor_nonneg. auto.
  - intros n Hn. rewrite Z.lor_spec, (Hah n Hn), (Hbh n Hn). reflexivity.
Qed.

Section EncoderTotal.
Context {PM : PieceMacros}.

Lemma fill_types_total fuel b i pcs types :
  is_uint64 pcs ->
  (List.length (squares_of pcs) <= fuel)%nat ->
  (i + List.length (squares_of pcs) <= List.length types)%nat ->
  exists t', fill_types fuel b i pcs types = Done t'.
Proof.
  revert i pcs types; induction fuel as [|fuel IH]; intros i pcs types Hu Hf Hl;
    cbn [fill_types]; destruct (Z.eqb_spec pcs 0) as [->|Hnz]; eauto.
  - pose proof (uint64_nonzero_has_square Hu Hnz) as Hne.
    destruct (squares_of pcs); [contradiction | simpl in Hf; lia].
  - pose proof (uint64_nonzero_has_square Hu Hnz) as Hne.
    destruct (squares_of pcs) as [|sq rest] eqn:Hsq; [contradiction|].
    unfold poplsb, getlsb. rewrite Hsq. cbn [hd_error from_option obind].
    pose proof (squares_of_clearbit _ Hsq) as Hrest.
    cbn [List.length] in Hf, Hl.
    unfold array_set. destruct (Nat.ltb_spec i (List.length types)); [|lia].
    cbn [obind]. apply IH.
    + now apply clearbit_uint64.
    + rewrite Hrest. lia.
    + rewrite Hrest, list_update_length. lia.
Qed.

Lemma pack_loop_total n i types packed :
  ((i + n) * 2 <= List.length types)%nat ->
  (i + n <= List.length packed)%nat ->
  exists p', pack_loop n i types packed = Done p'.
Proof.
  revert i packed; induction n as [|n IH]; intros i packed Ht Hp;
    cbn [pack_loop]; [eauto|].
  unfold array_get.
  destruct (nth_error types (i * 2)) as [p1|] eqn:E1;
    [|apply nth_error_None in E1; lia].
  destruct (nth_error types (i * 2 + 1)) as [p2|] eqn:E2;
    [|apply nth_error_None in E2; lia].
  cbn [from_option obind]. unfold array_set.
  destruct (Nat.ltb_spec i (List.length packed)); [|lia].
  cbn [obind]. apply IH.
  - lia.
  - rewrite list_update_length. lia.
Qed.

(** A record is written for every line that has a "] " followed by an
    [int], on a board of at most 32 pieces with both kings. *)
Lemma record_of_line_total b junk line :
  is_uint64 (colours b WHITE) -> is_uint64 (colours b BLACK) ->
  popcount (Z.lor (colours b WHITE) (colours b BLACK)) <= 32 ->
  squares_of (Z.land (colours b WHITE) (pieces b KING)) <> [] ->
  squares_of (Z.land (colours b BLACK) (pieces b KING)) <> [] ->
  (exists v, eval_of line = Done v) ->
  exists r, record_of_line b junk line = Done r.
Proof.
  intros Hw Hb Hcount Hwk Hbk [v Hv]. unfold record_of_line.
  rewrite Hv. cbn [obind]. unfold getlsb.
  destruct (squares_of (Z.land (colours b WHITE) (pieces b KING)))
    as [|wk ?]; [contradiction|].
  destruct (squares_of (Z.land (colours b BLACK) (pieces b KING)))
    as [|bk ?]; [contradiction|].
  cbn [hd_error from_option obind].
  rewrite to_uint8_popcount.
  pose proof (lor_uint64 Hw Hb) as Hu.
  pose proof (popcount_bound (Z.lor (colours b WHITE) (colours b BLACK))) as Hpb.
  destruct (@fill_types_total 64 b 0
              (Z.lor (colours b WHITE) (colours b BLACK)) (repeat 0 32) Hu)
    as [types Htypes].
  { rewrite popcount_eq in Hpb. revert Hpb.
    generalize (squares_of (Z.lor (colours b WHITE) (colours b BLACK))).
    intros sqs Hsqs. lia. }
  { rewrite repeat_length. rewrite popcount_eq in Hcount. revert Hcount.
    generalize (squares_of (Z.lor (colours b WHITE) (colours b BLACK))).
    intros sqs Hsqs. lia. }
  rewrite Htypes. cbn [obind].
  pose proof (fill_types_done _ _ _ _ _ Htypes) as [Hn Ht].
  assert (Hlen : List.length types = 32%nat).
  { rewrite Ht. rewrite popcount_eq in Hcount.
    rewrite !length_app, length_map, length_skipn, repeat_length.
    cbn [firstn List.length]. revert Hcount.
    generalize (squares_of (Z.lor (colours b WHITE) (colours b BLACK))).
    intros sqs Hsqs. lia. }
  destruct (@pack_loop_total 16 0 types (repeat 0 16)) as [packed Hpacked].
  { rewrite Hlen. lia. }
  { rewrite repeat_length. lia. }
  rewrite Hpacked. cbn [obind].
  pose proof (pack_loop_done _ _ _ _ Hpacked) as [_ Hp].
  unfold fwrite_bytes.
  destruct (Nat.leb_spec
              (Z.to_nat ((popcount (Z.lor (colours b WHITE) (colours b BLACK)) + 1) / 2))
              (List.length packed)) as [Hle|Hgt].
  - cbn [obind]. eauto.
  - exfalso. rewrite Hp in Hgt.
    rewrite !length_app, length_map, length_seq, length_skipn, repeat_length in Hgt.
    cbn [firstn List.length] in Hgt.
    assert ((popcount (Z.lor (colours b WHITE) (colours b BLACK)) + 1) / 2 < 17)
      by (apply Z.div_lt_upper_bound; lia).
    revert Hgt. generalize (List.length (squares_of (Z.lor (colours b WHITE) (colours b BLACK)))).
    intros n Hgt. lia.
Qed.

End EncoderTotal.

(** A board of 33 pieces: the loop stores outside [types]. *)
Lemma record_of_33_pieces_overflows :
  record_of_line
    (sample_board_of "pppppppp/pppppppp/pppppppp/pppppppp/k7/8/8/7K w - - 0 1")
    0 "pppppppp/pppppppp/pppppppp/pppppppp/k7/8/8/7K w - - 0 1 [0.5] 0"
  = Fault (OutOfBounds "types" 32).
Proof. vm_compute. reflexivity. Qed.

(** A line without a marker: the byte written is whatever the
    uninitialised variable held. *)
Lemma record_of_unmarked_line junk :
  exists r,
    record_of_line three_piece_board junk "4k3/8/8/8/8/8/4P3/4K3 w - - 0 1 [] 5"
    = Done r
    /\ rec_result r = junk.
Proof. eexists. split; [vm_compute; reflexivity | reflexivity]. Qed.

(** ** The lines [fgets] yields *)

Lemma read_line_append n s l r : read_line n s = (l, r) -> s = l ++ r.
Proof.
  revert s l r; induction n as [|n IH]; intros s l r; simpl.
  - now intros [= <- <-].
  - destruct s as [|c rest]; [now intros [= <- <-]|].
    destruct (Ascii.eqb c newline); [now intros [= <- <-]|].
    destruct (read_line n rest) as [l' r'] eqn:E. intros [= <- <-].
    simpl. f_equal. now apply IH.
Qed.

(** Nothing of the file is lost or reordered by reading it line by line. *)
Lemma fgets_lines_concat s : fold_right String.append "" (fgets_lines s) = s.
Proof.
  funelim (fgets_lines s).
  - cbn [fold_right]. rewrite H0.
    destruct s as [|c rest']; [discriminate|].
    unfold fgets in H. symmetry.
    apply read_line_append with (n := (256 - 1)%nat). congruence.
  - destruct s; [reflexivity | discriminate].
Qed.

(* ================================================================== *)
(** * Further properties of the harness                                *)
(* ================================================================== *)

(** ** The dispatch of [handleCommandLine] *)

Lemma arg_is_true_length argv k name :
  arg_is argv k name = true -> (k < List.length argv)%nat.
Proof.
  unfold arg_is. destruct (nth_error argv k) eqn:E; [|discriminate].
  intros _. apply nth_error_Some. congruence.
Qed.

Lemma guarded_arg_false argv k name :
  (k <? List.length argv)%nat && arg_is argv k name = false ->
  arg_is argv k name = false.
Proof.
  destruct (arg_is argv k name) eqn:E; [|reflexivity].
  apply arg_is_true_length in E. apply Nat.ltb_lt in E. rewrite E. discriminate.
Qed.

Section DispatchFacts.
Context {EH : EngineHandle} {PM : PieceMacros}.

(** X1.  Whatever the arguments and the build, a call of [handleCommandLine]
    that comes to an end either returns or exits with [EXIT_SUCCESS].
    It returns only in a build without [TUNE], having done nothing, and
    only when [argv[1]] is not "bench", "filter" or "nnbook" and is
    "evalbook" at most when no book name follows it. *)
Theorem handleCommandLine_returns_only_unselected
        tune bench_csv junk argv fs g c g' evs :
  handleCommandLine tune bench_csv junk argv fs g = Done (c, g', evs) ->
  (c = Returned \/ c = Exited EXIT_SUCCESS)
  /\ (c = Returned ->
      tune = false /\ g' = g /\ evs = []
      /\ arg_is argv 1 "bench" = false
      /\ arg_is argv 1 "filter" = false
      /\ arg_is argv 1 "nnbook" = false
      /\ (arg_is argv 1 "evalbook" = true -> (List.length argv <= 2)%nat)).
Proof.
  unfold handleCommandLine.
  destruct ((1 <? List.length argv)%nat && arg_is argv 1 "bench") eqn:Hb.
  { intros H. bind_inv H as [] g1 e1 Hrun. apply ret_done in H.
    destruct H as (-> & _ & _). split; [now right | discriminate]. }
  destruct ((1 <? List.length argv)%nat && arg_is argv 1 "filter") eqn:Hf.
  { intros H. bind_inv H as [] g1 e1 Hrun. apply ret_done in H.
    destruct H as (-> & _ & _). split; [now right | discriminate]. }
  destruct ((1 <? List.length argv)%nat && arg_is argv 1 "nnbook") eqn:Hn.
  { intros H. bind_inv H as [] g1 e1 Hrun. apply ret_done in H.
    destruct H as (-> & _ & _). split; [now right | discriminate]. }
  destruct ((2 <? List.length argv)%nat && arg_is argv 1 "evalbook") eqn:He.
  { intros H. bind_inv H as [] g1 e1 Hrun. apply ret_done in H.
    destruct H as (-> & _ & _). split; [now right | discriminate]. }
  apply guarded_arg_false in Hb, Hf, Hn.
  destruct tune.
  { intros H. bind_inv H as [] g1 e1 Hrun. apply ret_done in H.
    destruct H as (-> & _ & _). split; [now right | discriminate]. }
  intros H. apply ret_done in H. destruct H as (-> & -> & ->).
  split; [now left|]. intros _. repeat split; auto.
  intros Hev. rewrite Hev, andb_true_r in He. apply Nat.ltb_ge in He. exact He.
Qed.

(** X2.  [argv[2]] is tested for by "evalbook" only.  "filter" and "nnbook"
    with nothing after them pass the NULL of [argv[argc]] to [fopen];
    "evalbook" with nothing after it is no command at all. *)
Theorem missing_book_argument tune bench_csv junk prog fs g :
  handleCommandLine tune bench_csv junk [prog; "filter"] fs g
  = Fault (NullPointer "fopen(NULL)")
  /\ handleCommandLine tune bench_csv junk [prog; "nnbook"] fs g
     = Fault (NullPointer "fopen(NULL)")
  /\ handleCommandLine tune bench_csv junk [prog; "evalbook"] fs g
     = if tune then Done (Exited EXIT_SUCCESS, runTuner g, [EvRunTuner])
       else Done (Returned, g, []).
Proof.
  repeat split; try reflexivity. destruct tune; reflexivity.
Qed.

(** X3.  No pipeline looks at what [fopen] returns: on a book that cannot be
    opened, each of them calls [fgets] on the NULL stream. *)
Theorem unopened_book_faults junk name argv (fs : FileSystem) g :
  fs name = None ->
  filterBook (Some name) fs g = Fault (NullPointer "fgets on a NULL stream")
  /\ buildNNBook junk (Some name) fs g
     = Fault (NullPointer "fgets on a NULL stream")
  /\ (nth_error argv 2 = Some name -> args_in_range argv ->
      runEvalBook argv fs g = Fault (NullPointer "fgets on a NULL stream")).
Proof.
  intros Hfs. repeat split.
  - unfold filterBook, bind, fopen_read. rewrite Hfs. reflexivity.
  - unfold buildNNBook, bind, fopen_read. rewrite Hfs. reflexivity.
  - intros Hname Hargs. unfold runEvalBook, bind, call.
    destruct (getRealTime g) as [t0 g1]. unfold fopen_read.
    rewrite Hname, Hfs, !int_arg_total by assumption. reflexivity.
Qed.

(** X4.  Of its arguments a run takes the values only, and the defaults for
    the ones left out: two argument vectors that give the same depth,
    number of threads and hash size (13, 1 and 16 when left out) give
    the same run of the benchmark, and two that name the same book and
    give the same depth, number of threads and hash size (12, 1 and 2
    when left out) give the same evaluation of the book. *)
Theorem runs_depend_on_argument_values bench_csv argv argv' fs g :
  args_in_range argv -> args_in_range argv' ->
  (int_arg_value argv 2 13 = int_arg_value argv' 2 13 ->
   int_arg_value argv 3 1 = int_arg_value argv' 3 1 ->
   int_arg_value argv 4 16 = int_arg_value argv' 4 16 ->
   runBenchmark bench_csv argv fs g = runBenchmark bench_csv argv' fs g)
  /\ (nth_error argv 2 = nth_error argv' 2 ->
      int_arg_value argv 3 12 = int_arg_value argv' 3 12 ->
      int_arg_value argv 4 1 = int_arg_value argv' 4 1 ->
      int_arg_value argv 5 2 = int_arg_value argv' 5 2 ->
      runEvalBook argv fs g = runEvalBook argv' fs g).
Proof.
  intros Hargs Hargs'. split.
  - intros Hd Hn Hm. unfold runBenchmark, bind.
    rewrite !int_arg_total by assumption. rewrite Hd, Hn, Hm. reflexivity.
  - intros Hb Hd Hn Hm. unfold runEvalBook, bind, call.
    destruct (getRealTime g) as [t0 g1]. rewrite Hb.
    destruct (fopen_read (nth_error argv' 2) fs g1) as [[[book g2] e2]|f];
      [|reflexivity].
    rewrite !int_arg_total by assumption. rewrite Hd, Hn, Hm. reflexivity.
Qed.

End DispatchFacts.

Lemma returns_only_unselected_witness :
  handleCommandLine false [] (fun _ => 0) ["Ethereal"; "evalbook"]
    sample_files sample_start
  = Done (Returned, sample_start, [])
  /\ (List.length ["Ethereal"; "evalbook"] <= 2)%nat.
Proof.
  split; [reflexivity|].
  exact (proj2 (proj2 (proj2 (proj2 (proj2 (proj2
    (proj2 (@handleCommandLine_returns_only_unselected sample_engine sample_macros
              false [] (fun _ => 0) ["Ethereal"; "evalbook"] sample_files
              sample_start Returned sample_start [] eq_refl) eq_refl))))))
           eq_refl).
Defined.

Lemma unopened_book_witness :
  sample_files "nobook.txt" = None
  /\ filterBook (Some "nobook.txt") sample_files sample_start
     = Fault (NullPointer "fgets on a NULL stream").
Proof.
  split; [reflexivity|].
  exact (proj1 (@unopened_book_faults sample_engine sample_macros (fun _ => 0)
                  "nobook.txt" [] sample_files sample_start eq_refl)).
Defined.

Lemma default_arguments_witness :
  args_in_range ["Ethereal"; "bench"]
  /\ args_in_range ["Ethereal"; "bench"; "13"; "1"; "16"]
  /\ runBenchmark sample_suite ["Ethereal"; "bench"] sample_files sample_start
     = runBenchmark sample_suite ["Ethereal"; "bench"; "13"; "1"; "16"]
         sample_files sample_start.
Proof.
  assert (H1 : args_in_range ["Ethereal"; "bench"])
    by (apply args_in_range_forall; repeat constructor; discriminate).
  assert (H2 : args_in_range ["Ethereal"; "bench"; "13"; "1"; "16"])
    by (apply args_in_range_forall; repeat constructor; discriminate).
  split; [exact H1|]. split; [exact H2|].
  exact (proj1 (@runs_depend_on_argument_values sample_engine sample_suite
                  ["Ethereal"; "bench"] ["Ethereal"; "bench"; "13"; "1"; "16"]
                  sample_files sample_start H1 H2)
               eq_refl eq_refl eq_refl).
Defined.

(** ** One command, one pipeline *)

Lemma arg_is_true argv k name :
  arg_is argv k name = true -> nth_error argv k = Some name.
Proof.
  unfold arg_is, strEquals. destruct (nth_error argv k) as [a|]; [|discriminate].
  intros H. apply String.eqb_eq in H. now subst.
Qed.

Section OnePipeline.
Context {EH : EngineHandle} {PM : PieceMacros}.

Lemma bind_then_exit (m : M unit) fs g :
  bind m (fun _ => ret (Exited EXIT_SUCCESS)) fs g = then_exit (m fs g).
Proof.
  unfold bind, ret, then_exit. destruct (m fs g) as [[[u g1] evs]|f];
    [|reflexivity].
  now rewrite app_nil_r.
Qed.

(** X5.  A command runs its pipeline and nothing else, then exits with
    [EXIT_SUCCESS]: the run of [handleCommandLine] is the run of the
    pipeline, fault for fault and event for event, in a build with
    [TUNE] as in one without ("evalbook" when a book name follows). *)
Theorem handleCommandLine_runs_one_pipeline tune bench_csv junk argv fs g :
  (arg_is argv 1 "bench" = true ->
   handleCommandLine tune bench_csv junk argv fs g
   = then_exit (runBenchmark bench_csv argv fs g))
  /\ (arg_is argv 1 "filter" = true ->
      handleCommandLine tune bench_csv junk argv fs g
      = then_exit (filterBook (nth_error argv 2) fs g))
  /\ (arg_is argv 1 "nnbook" = true ->
      handleCommandLine tune bench_csv junk argv fs g
      = then_exit (buildNNBook junk (nth_error argv 2) fs g))
  /\ (arg_is argv 1 "evalbook" = true -> (2 < List.length argv)%nat ->
      handleCommandLine tune bench_csv junk argv fs g
      = then_exit (runEvalBook argv fs g)).
Proof.
  repeat split.
  - intros H. pose proof (arg_is_true_length _ _ _ H) as Hlen.
    apply Nat.ltb_lt in Hlen. unfold handleCommandLine. rewrite Hlen, H.
    cbn [andb]. apply bind_then_exit.
  - intros H. pose proof (arg_is_true_length _ _ _ H) as Hlen.
    apply Nat.ltb_lt in Hlen. unfold handleCommandLine. rewrite Hlen, H.
    apply arg_is_true in H. unfold arg_is. rewrite H.
    cbn [andb]. change (strEquals "filter" "bench") with false.
    cbn iota. apply bind_then_exit.
  - intros H. pose proof (arg_is_true_length _ _ _ H) as Hlen.
    apply Nat.ltb_lt in Hlen. unfold handleCommandLine. rewrite Hlen, H.
    apply arg_is_true in H. unfold arg_is. rewrite H.
    cbn [andb]. change (strEquals "nnbook" "bench") with false.
    change (strEquals "nnbook" "filter") with false.
    cbn iota. apply bind_then_exit.
  - intros H Hlen2. pose proof (arg_is_true_length _ _ _ H) as Hlen.
    apply Nat.ltb_lt in Hlen, Hlen2. unfold handleCommandLine.
    rewrite Hlen, Hlen2, H.
    apply arg_is_true in H. unfold arg_is. rewrite H.
    cbn [andb]. change (strEquals "evalbook" "bench") with false.
    change (strEquals "evalbook" "filter") with false.
    change (strEquals "evalbook" "nnbook") with false.
    cbn iota. apply bind_then_exit.
Qed.

End OnePipeline.

Lemma one_pipeline_witness :
  arg_is ["Ethereal"; "filter"; "book.txt"] 1 "filter" = true
  /\ handleCommandLine true [] (fun _ => 0) ["Ethereal"; "filter"; "book.txt"]
       sample_files sample_start
     = Done (Exited EXIT_SUCCESS, sample_filter_final, sample_filter_events).
Proof.
  split; [reflexivity|].
  rewrite (proj1 (proj2 (@handleCommandLine_runs_one_pipeline sample_engine
                           sample_macros true [] (fun _ => 0)
                           ["Ethereal"; "filter"; "book.txt"] sample_files
                           sample_start)) eq_refl).
  change (@filterBook sample_engine
            (nth_error ["Ethereal"; "filter"; "book.txt"] 2)
            sample_files sample_start) with sample_filter_run.
  rewrite sample_filter_run_done. reflexivity.
Defined.

(** ** The searches of the benchmark *)

Lemma fens_of_app l1 l2 : fens_of (l1 ++ l2) = (fens_of l1 ++ fens_of l2)%list.
Proof.
  induction l1 as [|e l1 IH]; [reflexivity|].
  destruct e; cbn [app fens_of]; now rewrite IH.
Qed.

Lemma searches_of_app l1 l2 :
  searches_of (l1 ++ l2) = (searches_of l1 ++ searches_of l2)%list.
Proof.
  induction l1 as [|e l1 IH]; [reflexivity|].
  destruct e; cbn [app searches_of]; now rewrite IH.
Qed.

Lemma fens_of_printfs fmt evs :
  Forall (fun e => exists args, e = EvPrintf fmt args) evs -> fens_of evs = [].
Proof.
  induction 1 as [|e evs [args ->] _ IH]; [reflexivity | exact IH].
Qed.

Lemma searches_of_printfs fmt evs :
  Forall (fun e => exists args, e = EvPrintf fmt args) evs -> searches_of evs = [].
Proof.
  induction 1 as [|e evs [args ->] _ IH]; [reflexivity | exact IH].
Qed.

Lemma array_set_inside {A} name (a : list A) i v :
  (i < List.length a)%nat -> array_set name a i v = Done (list_update a i v).
Proof.
  intros H. unfold array_set. apply Nat.ltb_lt in H. now rewrite H.
Qed.

Lemma array_set_outside {A} name (a : list A) i v :
  (List.length a <= i)%nat ->
  array_set name a i v = Fault (OutOfBounds name (Z.of_nat i)).
Proof.
  intros H. unfold array_set. apply Nat.ltb_ge in H. now rewrite H.
Qed.

Section BenchSearchFacts.
Context {EH : EngineHandle} {PM : PieceMacros}.

Lemma go_depth_set_start d limits now :
  go_depth d limits -> go_depth d (set_start limits now).
Proof. intros H. exact H. Qed.

(** The search loop parses and searches the positions before the
    sentinel, each once and in order, with the limits it was given. *)
Lemma bench_search_trace rest i depth limits st fs g st' g' evs d :
  bench_search rest i depth limits st fs g = Done (st', g', evs) ->
  go_depth d limits ->
  fens_of evs = positions rest
  /\ Forall (go_depth d) (searches_of evs)
  /\ List.length (searches_of evs) = List.length (positions rest).
Proof.
  revert i limits st g evs;
    induction rest as [|fen rest IH]; intros i limits st g evs;
    cbn [bench_search positions].
  - intros H. unfold past_the_array, lift in H. discriminate.
  - destruct (strEquals fen "").
    + intros H _. apply ret_done in H. destruct H as (_ & _ & ->).
      repeat split. constructor.
    + intros H Hd.
      bind_inv H as now g1 e1 Hnow. bind_inv H as [] g2 e2 Hparse.
      bind_inv H as moves g3 e3 Hmoves.
      bind_inv H as bm g4 e4 Hbm. bind_inv H as pm g5 e5 Hpm.
      bind_inv H as score g6 e6 Hscore. bind_inv H as sc g7 e7 Hsc.
      bind_inv H as now' g8 e8 Hnow'. bind_inv H as tm g9 e9 Htm.
      bind_inv H as n g10 e10 Hn. bind_inv H as nd g11 e11 Hnd.
      bind_inv H as [] g12 e12 Hclear.
      apply call_done in Hnow, Hmoves, Hnow'.
      apply call__done in Hparse, Hclear.
      apply info_value_at_done in Hscore. apply peek_done in Hn.
      apply store_done in Hbm, Hpm, Hsc, Htm, Hnd.
      destruct Hnow as [_ ->], Hmoves as [_ ->], Hnow' as [_ ->].
      destruct Hparse as [_ ->], Hclear as [_ ->].
      destruct Hscore as (_ & _ & ->), Hn as (_ & _ & ->).
      destruct Hbm as (_ & _ & _ & ->), Hpm as (_ & _ & _ & ->).
      destruct Hsc as (_ & _ & _ & ->), Htm as (_ & _ & _ & ->).
      destruct Hnd as (_ & _ & _ & ->).
      apply IH in H; [|now apply go_depth_set_start].
      destruct H as (Hfens & Hall & Hlen).
      cbn [app fens_of searches_of List.length].
      rewrite Hfens, Hlen. repeat split.
      constructor; [now apply go_depth_set_start | exact Hall].
Qed.

(** X6.  [bench <depth> <threads> <hash>]: the table is sized with [argv[4]],
    the clock read, and the pool made of [argv[3]] threads; then every
    position of the suite before the first empty string is parsed and
    searched, once and in order, each search a "go depth" search of depth
    [argv[2]]. *)
Theorem bench_arguments_and_positions bench_csv argv fs g u g' evs :
  runBenchmark bench_csv argv fs g = Done (u, g', evs) ->
  (exists rest,
      evs = ([EvInitTT (int_arg_value argv 4 16); EvGetRealTime;
              EvCreateThreadPool (int_arg_value argv 3 1)] ++ rest)%list)
  /\ fens_of evs = positions (bench_csv ++ [""])
  /\ Forall (go_depth (int_arg_value argv 2 13)) (searches_of evs)
  /\ List.length (searches_of evs)
     = List.length (positions (bench_csv ++ [""])).
Proof.
  unfold runBenchmark. intros H.
  bind_inv H as depth g1 e1 Hdepth. bind_inv H as nthreads g2 e2 Hnt.
  bind_inv H as megabytes g3 e3 Hmb.
  bind_inv H as [] g4 e4 Hinit. bind_inv H as time0 g5 e5 Htime0.
  bind_inv H as [] g6 e6 Hpool. bind_inv H as st g7 e7 Hsearch.
  bind_inv H as [] g8 e8 Hrule1. bind_inv H as [] g9 e9 Hreport.
  bind_inv H as [] g10 e10 Hrule2. bind_inv H as now g11 e11 Hnow.
  bind_inv H as total g12 e12 Htotal. bind_inv H as nps g13 e13 Hnps.
  bind_inv H as [] g14 e14 Hprint.
  pose proof (int_arg_done_value _ _ _ _ _ Hdepth) as Vd.
  pose proof (int_arg_done_value _ _ _ _ _ Hnt) as Vn.
  pose proof (int_arg_done_value _ _ _ _ _ Hmb) as Vm.
  apply int_arg_done in Hdepth, Hnt, Hmb.
  destruct Hdepth as [-> ->], Hnt as [-> ->], Hmb as [-> ->].
  apply call__done in Hinit, Hpool. destruct Hinit as [-> ->], Hpool as [-> ->].
  apply call_done in Htime0, Hnow. destruct Htime0 as [_ ->], Hnow as [_ ->].
  apply printf_done in Hrule1, Hrule2, Hprint. apply emit_done in H.
  destruct Hrule1 as [-> ->], Hrule2 as [-> ->], Hprint as [-> ->], H as [-> ->].
  apply bench_search_trace with (d := depth) in Hsearch; [|repeat split].
  destruct Hsearch as (Hfens & Hall & Hlen).
  apply bench_report_done in Hreport. destruct Hreport as (_ & _ & Hlines & _).
  apply bench_total_done in Htotal. destruct Htotal as (_ & -> & _).
  apply lift_done in Hnps. destruct Hnps as (_ & _ & ->).
  subst depth nthreads megabytes. split.
  { eexists. cbn [app]. reflexivity. }
  rewrite !fens_of_app, !searches_of_app, Hfens.
  rewrite (fens_of_printfs Hlines), (searches_of_printfs Hlines).
  cbn [app fens_of searches_of]. rewrite !app_nil_r.
  repeat split; assumption.
Qed.

(** The arrays hold 256 positions and no test guards them: beyond that
    the search loop stores to [bestMoves[256]]. *)
Lemma bench_search_overflow rest i depth limits st fs g :
  stats_sized st -> (i <= 256)%nat ->
  (256 < i + List.length (positions rest))%nat ->
  0 <= depth < MAX_PLY ->
  bench_search rest i depth limits st fs g
  = Fault (OutOfBounds "bestMoves" 256).
Proof.
  revert i limits st g;
    induction rest as [|fen rest IH]; intros i limits st g Hs Hi Hlen Hdepth;
    cbn [bench_search positions] in *.
  - cbn [List.length] in Hlen. lia.
  - destruct (strEquals fen ""); [cbn [List.length] in Hlen; lia|].
    cbn [List.length] in Hlen.
    destruct Hs as (S1 & S2 & S3 & S4 & S5).
    unfold bind at 1. unfold call at 1.
    destruct (getRealTime g) as [now g1].
    unfold bind at 1. unfold call_ at 1. unfold call at 1.
    unfold bind at 1. unfold call at 1.
    destruct (getBestMove (set_start limits now) (boardFromFEN fen g1))
      as [moves g3].
    destruct (Nat.eq_dec i 256) as [->|Hne].
    + unfold bind at 1. unfold store at 1.
      rewrite array_set_outside by lia. reflexivity.
    + assert (Hlt : (i < 256)%nat) by lia.
      unfold bind at 1. unfold store at 1.
      rewrite array_set_inside by lia. unfold lift at 1.
      unfold bind at 1. unfold store at 1.
      rewrite array_set_inside by lia. unfold lift at 1.
      unfold bind at 1. rewrite info_value_at_inside by assumption.
      unfold bind at 1. unfold store at 1.
      rewrite array_set_inside by lia. unfold lift at 1.
      unfold bind at 1. unfold call at 1.
      destruct (getRealTime g3) as [now' g8].
      unfold bind at 1. unfold store at 1.
      rewrite array_set_inside by lia. unfold lift at 1.
      unfold bind at 1. unfold peek at 1.
      unfold bind at 1. unfold store at 1.
      rewrite array_set_inside by lia. unfold lift at 1.
      unfold bind at 1. unfold call_ at 1. unfold call at 1.
      rewrite IH; [reflexivity | | lia | lia | assumption].
      unfold stats_sized. cbn [scores times nodes bestMoves ponderMoves].
      rewrite !list_update_length. auto.
Qed.

(** With a depth that is no index of [values], the search of the first
    position reads outside that array. *)
Lemma bench_search_bad_depth rest i depth limits st fs g :
  stats_sized st -> (i < 256)%nat ->
  (0 < List.length (positions rest))%nat ->
  ~ 0 <= depth < MAX_PLY ->
  bench_search rest i depth limits st fs g
  = Fault (OutOfBounds "values" depth).
Proof.
  intros Hs Hi Hlen Hdepth. destruct rest as [|fen rest];
    cbn [bench_search positions] in *; [cbn [List.length] in Hlen; lia|].
  destruct (strEquals fen ""); [cbn [List.length] in Hlen; lia|].
  destruct Hs as (S1 & S2 & S3 & S4 & S5).
  unfold bind at 1. unfold call at 1.
  destruct (getRealTime g) as [now g1].
  unfold bind at 1. unfold call_ at 1. unfold call at 1.
  unfold bind at 1. unfold call at 1.
  destruct (getBestMove (set_start limits now) (boardFromFEN fen g1))
    as [moves g3].
  unfold bind at 1. unfold store at 1.
  rewrite array_set_inside by lia. unfold lift at 1.
  unfold bind at 1. unfold store at 1.
  rewrite array_set_inside by lia. unfold lift at 1.
  unfold bind at 1. rewrite info_value_at_outside by assumption. reflexivity.
Qed.

(** X7.  A suite of more than 256 positions does not fit the arrays: with
    arguments that denote [int]s and a depth that is an index of
    [values], the run stores to [bestMoves[256]], in the search of the
    257th position.  (With any other depth it has read [values] outside
    its bounds before, in the search of the first position.) *)
Theorem bench_suite_beyond_256_overflows bench_csv argv fs g :
  (256 < List.length (positions (bench_csv ++ [""])))%nat ->
  args_in_range argv ->
  let depth := int_arg_value argv 2 13 in
  runBenchmark bench_csv argv fs g
  = Fault (if (0 <=? depth) && (depth <? MAX_PLY)
           then OutOfBounds "bestMoves" 256
           else OutOfBounds "values" depth).
Proof.
  intros Hlen Hargs. cbv zeta. unfold runBenchmark.
  unfold bind at 1. rewrite int_arg_total by assumption.
  unfold bind at 1. rewrite int_arg_total by assumption.
  unfold bind at 1. rewrite int_arg_total by assumption.
  unfold bind at 1. unfold call_ at 1. unfold call at 1.
  unfold bind at 1. unfold call at 1.
  destruct (getRealTime (initTT (int_arg_value argv 4 16) g)) as [t0 g1].
  unfold bind at 1. unfold call_ at 1. unfold call at 1.
  unfold bind at 1.
  destruct (Z.leb_spec 0 (int_arg_value argv 2 13)) as [H0|H0];
    [destruct (Z.ltb_spec (int_arg_value argv 2 13) MAX_PLY) as [H1|H1]|];
    cbn [andb].
  - rewrite bench_search_overflow;
      [reflexivity | apply fresh_stats_sized | lia | exact Hlen | lia].
  - rewrite bench_search_bad_depth;
      [reflexivity | apply fresh_stats_sized | lia | lia | lia].
  - rewrite bench_search_bad_depth;
      [reflexivity | apply fresh_stats_sized | lia | lia | lia].
Qed.

End BenchSearchFacts.

Lemma args_in_range_bench_1 : args_in_range ["Ethereal"; "bench"; "1"].
Proof. apply args_in_range_forall; repeat constructor; discriminate. Qed.

Lemma bench_arguments_witness :
  sample_bench_run = Done (tt, sample_bench_final, sample_bench_events)
  /\ fens_of sample_bench_events = sample_suite
  /\ map depthLimit (searches_of sample_bench_events) = [4; 4].
Proof.
  split; [exact sample_bench_run_done|].
  pose proof (@bench_arguments_and_positions sample_engine
                sample_suite ["Ethereal"; "bench"; "4"] sample_files
                sample_start tt sample_bench_final sample_bench_events
                sample_bench_run_done) as (_ & Hfens & _).
  split; [exact Hfens | reflexivity].
Defined.

Lemma bench_beyond_256_witness :
  (256 < List.length (positions (repeat start_fen 257 ++ [""])))%nat
  /\ args_in_range ["Ethereal"; "bench"; "1"]
  /\ runBenchmark (repeat start_fen 257) ["Ethereal"; "bench"; "1"]
       sample_files sample_start
     = Fault (OutOfBounds "bestMoves" 256).
Proof.
  assert (Hlen : (256 < List.length (positions (repeat start_fen 257 ++ [""])))%nat)
    by (vm_compute; repeat constructor).
  split; [exact Hlen|]. split; [exact args_in_range_bench_1|].
  exact (@bench_suite_beyond_256_overflows sample_engine
           (repeat start_fen 257) ["Ethereal"; "bench"; "1"] sample_files
           sample_start Hlen args_in_range_bench_1).
Defined.

(** ** What the benchmark and the book evaluation print *)

Lemma sprintf_bench_line index score best ponder nodes nps :
  sprintf bench_line_format
    [PInt index; PInt score; PStr best; PStr ponder; PInt nodes; PInt nps]
  = bench_line_text index score best ponder nodes nps.
Proof. reflexivity. Qed.

Lemma sprintf_overall nodes nps :
  sprintf overall_format [PInt nodes; PInt nps] = overall_text nodes nps.
Proof. reflexivity. Qed.

Lemma sprintf_rule_open : sprintf (nl ++ rule ++ nl) [] = nl ++ rule ++ nl.
Proof. reflexivity. Qed.

Lemma sprintf_rule_close : sprintf (rule ++ nl) [] = rule ++ nl.
Proof. reflexivity. Qed.

Lemma sprintf_fen line : sprintf "FEN: %s" [PStr line] = "FEN: " ++ line.
Proof.
  change (sprintf "FEN: %s" [PStr line]) with ("FEN: " ++ (line ++ "")).
  now rewrite append_nil_r.
Qed.

Lemma sprintf_time ms :
  sprintf ("Time %dms" ++ nl) [PInt ms] = "Time " ++ decimal ms ++ "ms" ++ nl.
Proof. reflexivity. Qed.

Section ReportFacts.
Context {EH : EngineHandle} {PM : PieceMacros}.

Lemma bench_report_lines rest i st fs g u g' evs :
  bench_report rest i st fs g = Done (u, g', evs) ->
  Forall2 (fun k e => is_bench_line (Z.of_nat k + 1) e)
          (seq i (List.length (positions rest))) evs.
Proof.
  revert i g evs; induction rest as [|fen rest IH]; intros i g evs;
    cbn [bench_report positions].
  - intros H. unfold past_the_array, lift in H. discriminate.
  - destruct (strEquals fen "").
    + intros H. apply ret_done in H. destruct H as (_ & _ & ->). constructor.
    + intros H.
      bind_inv H as best g1 e1 Hbest. bind_inv H as ponder g2 e2 Hponder.
      bind_inv H as score g3 e3 Hscore. bind_inv H as n g4 e4 Hn.
      bind_inv H as t g5 e5 Ht. bind_inv H as nps g6 e6 Hnps.
      bind_inv H as [] g7 e7 Hprint.
      apply load_done in Hbest, Hponder, Hscore, Hn, Ht.
      destruct Hbest as (_ & _ & ->), Hponder as (_ & _ & ->).
      destruct Hscore as (_ & _ & ->), Hn as (_ & _ & ->), Ht as (_ & _ & ->).
      apply lift_done in Hnps. destruct Hnps as (_ & _ & ->).
      apply printf_done in Hprint. destruct Hprint as (_ & ->).
      apply IH in H. cbn [List.length seq app]. constructor; [|exact H].
      exists score, (moveToString best), (moveToString ponder), (to_int32 n), nps.
      split; [reflexivity|].
      cbn [stdout_of]. rewrite sprintf_bench_line. apply append_nil_r.
Qed.

(** X8.  The report of the benchmark: an empty line and a rule of 81 "=", one
    line per position numbered from 1 in the order of the suite, a rule,
    and the line of totals; nothing else is printed. *)
Theorem bench_report_layout bench_csv argv fs g u g' evs :
  runBenchmark bench_csv argv fs g = Done (u, g', evs) ->
  exists report total nps,
    stdout_of evs
    = (nl ++ rule ++ nl) ++ stdout_of report ++ (rule ++ nl)
      ++ overall_text total nps
    /\ Forall2 (fun k e => is_bench_line (Z.of_nat k + 1) e)
               (seq 0 (List.length (positions (bench_csv ++ [""])))) report
    /\ String.length rule = 81%nat.
Proof.
  unfold runBenchmark. intros H.
  bind_inv H as depth g1 e1 Hdepth. bind_inv H as nthreads g2 e2 Hnt.
  bind_inv H as megabytes g3 e3 Hmb.
  bind_inv H as [] g4 e4 Hinit. bind_inv H as time0 g5 e5 Htime0.
  bind_inv H as [] g6 e6 Hpool. bind_inv H as st g7 e7 Hsearch.
  bind_inv H as [] g8 e8 Hrule1. bind_inv H as [] g9 e9 Hreport.
  bind_inv H as [] g10 e10 Hrule2. bind_inv H as now g11 e11 Hnow.
  bind_inv H as total g12 e12 Htotal. bind_inv H as nps g13 e13 Hnps.
  bind_inv H as [] g14 e14 Hprint.
  apply int_arg_done in Hdepth, Hnt, Hmb.
  destruct Hdepth as [-> ->], Hnt as [-> ->], Hmb as [-> ->].
  apply call__done in Hinit, Hpool. destruct Hinit as [-> ->], Hpool as [-> ->].
  apply call_done in Htime0, Hnow. destruct Htime0 as [_ ->], Hnow as [_ ->].
  apply printf_done in Hrule1, Hrule2, Hprint. apply emit_done in H.
  destruct Hrule1 as [-> ->], Hrule2 as [-> ->], Hprint as [-> ->], H as [-> ->].
  apply bench_search_done in Hsearch;
    [|apply fresh_stats_sized | apply fresh_stats_filled
     | apply fresh_stats_ranged].
  destruct Hsearch as (_ & _ & _ & _ & Hquiet).
  apply bench_report_lines in Hreport.
  apply bench_total_done in Htotal. destruct Htotal as (_ & -> & _).
  apply lift_done in Hnps. destruct Hnps as (_ & _ & ->).
  exists e9, (to_int32 total), nps. split; [|split; [exact Hreport | reflexivity]].
  rewrite !stdout_of_app, (stdout_of_no_printf _ Hquiet).
  cbn [app stdout_of].
  rewrite sprintf_rule_open, sprintf_rule_close, sprintf_overall.
  rewrite !append_nil_r. cbn [append]. reflexivity.
Qed.

Lemma evalbook_line_trace d limits line fs g u g' evs :
  evalbook_line limits line fs g = Done (u, g', evs) ->
  go_depth d limits ->
  fens_of evs = [line]
  /\ stdout_of evs = "FEN: " ++ line
  /\ exists now, searches_of evs = [set_start limits now].
Proof.
  unfold evalbook_line. intros H Hd.
  bind_inv H as now g1 e1 Hnow. bind_inv H as [] g2 e2 Hparse.
  bind_inv H as moves g3 e3 Hmoves. bind_inv H as [] g4 e4 Hreset.
  bind_inv H as [] g5 e5 Hclear.
  apply call_done in Hnow, Hmoves. apply call__done in Hparse, Hreset, Hclear.
  apply printf_done in H.
  destruct Hnow as [_ ->], Hmoves as [_ ->], Hparse as [_ ->].
  destruct Hreset as [_ ->], Hclear as [_ ->], H as [_ ->].
  cbn [app fens_of stdout_of searches_of]. rewrite sprintf_fen, append_nil_r.
  repeat split. exists now. reflexivity.
Qed.

Lemma for_lines_evalbook_trace d limits lines k fs g u g' evs :
  for_lines lines k (fun _ line => evalbook_line limits line) fs g
  = Done (u, g', evs) ->
  go_depth d limits ->
  fens_of evs = lines
  /\ stdout_of evs
     = fold_right String.append "" (map (String.append "FEN: ") lines)
  /\ Forall (go_depth d) (searches_of evs)
  /\ List.length (searches_of evs) = List.length lines.
Proof.
  revert k g evs; induction lines as [|line rest IH]; intros k g evs;
    cbn [for_lines].
  - intros H _. apply ret_done in H. destruct H as (_ & _ & ->).
    repeat split. constructor.
  - intros H Hd. bind_inv H as [] g1 e1 Hline.
    apply evalbook_line_trace with (d := d) in Hline; [|exact Hd].
    destruct Hline as (Hf & Hs & now & Hl).
    apply IH in H; [|exact Hd]. destruct H as (Hf' & Hs' & Hall & Hlen).
    rewrite fens_of_app, stdout_of_app, searches_of_app, Hf, Hs, Hl, Hf', Hs'.
    cbn [app map fold_right List.length]. rewrite Hlen. repeat split.
    constructor; [now apply go_depth_set_start | exact Hall].
Qed.

Lemma for_lines_evalbook_calls limits lines k fs g u g' evs :
  for_lines lines k (fun _ line => evalbook_line limits line) fs g
  = Done (u, g', evs) ->
  evs = fst (evalbook_calls lines limits g)
  /\ g' = snd (evalbook_calls lines limits g).
Proof.
  revert k g evs; induction lines as [|line rest IH]; intros k g evs;
    cbn [for_lines evalbook_calls].
  - intros H. apply ret_done in H. destruct H as (_ & -> & ->). now split.
  - intros H. bind_inv H as [] g1 e1 Hline. apply IH in H.
    unfold evalbook_line in Hline.
    bind_inv Hline as now g2 e2 Hnow. bind_inv Hline as [] g3 e3 Hparse.
    bind_inv Hline as moves g4 e4 Hmoves. bind_inv Hline as [] g5 e5 Hreset.
    bind_inv Hline as [] g6 e6 Hclear.
    apply call_done in Hnow, Hmoves.
    apply call__done in Hparse, Hreset, Hclear. apply printf_done in Hline.
    destruct Hnow as [Hnow ->], Hmoves as [Hmoves ->], Hparse as [-> ->].
    destruct Hreset as [-> ->], Hclear as [-> ->], Hline as [-> ->].
    rewrite Hnow. unfold set_start. rewrite Hmoves. cbn [snd].
    destruct (evalbook_calls rest limits (clearTT (resetThreadPool g4)))
      as [evs' g'']. cbn [fst snd] in *.
    destruct H as [-> ->]. now split.
Qed.

(** X9.  [evalbook <book> <depth> <threads> <hash>]: the clock is read, the
    pool made of [argv[4]] threads and the table sized with [argv[5]];
    then for every line of the book, in order, the clock is read, the
    line parsed, the position searched with a "go depth" search of depth
    [argv[3]] that starts at that reading, the pool reset, the table
    cleared and "FEN: " and the line printed; then the clock is read
    once more and the time since the first reading printed: the
    difference of the two [double]s, truncated to whole milliseconds. *)
Theorem evalbook_arguments_and_output argv fs g u g' evs :
  runEvalBook argv fs g = Done (u, g', evs) ->
  exists name content ms,
    nth_error argv 2 = Some name /\ fs name = Some content
    /\ let limits := {| multiPV := 1; limitedByDepth := 1;
                        depthLimit := int_arg_value argv 3 12;
                        start := S754_zero false |} in
       let g0 := initTT (int_arg_value argv 5 2)
                   (createThreadPool (int_arg_value argv 4 1)
                      (snd (getRealTime g))) in
       let loop := fst (evalbook_calls (fgets_lines content) limits g0) in
       let late := snd (evalbook_calls (fgets_lines content) limits g0) in
       evs = ([EvGetRealTime; EvCreateThreadPool (int_arg_value argv 4 1);
               EvInitTT (int_arg_value argv 5 2)]
              ++ loop
              ++ [EvGetRealTime; EvPrintf ("Time %dms" ++ nl) [PInt ms]])%list
       /\ g' = snd (getRealTime late)
       /\ fens_of evs = fgets_lines content
       /\ Forall (go_depth (int_arg_value argv 3 12)) (searches_of evs)
       /\ List.length (searches_of evs) = List.length (fgets_lines content)
       /\ stdout_of evs
          = fold_right String.append ""
              (map (String.append "FEN: ") (fgets_lines content))
            ++ "Time " ++ decimal ms ++ "ms" ++ nl
       /\ match SFsub 53 1024 (fst (getRealTime late)) (fst (getRealTime g))
          with
          | S754_zero _ => ms = 0
          | S754_finite s m e =>
              ms = (if s then -1 else 1)
                   * (if 0 <=? e then Z.pos m * 2 ^ e
                      else Z.pos m / 2 ^ (- e))
              /\ INT_MIN <= ms <= INT_MAX
          | _ => False
          end.
Proof.
  unfold runEvalBook. intros H.
  bind_inv H as start0 g1 e1 Hstart. bind_inv H as book g2 e2 Hopen.
  bind_inv H as depth g3 e3 Hdepth. bind_inv H as nthreads g4 e4 Hnt.
  bind_inv H as megabytes g5 e5 Hmb. bind_inv H as [] g6 e6 Hpool.
  bind_inv H as [] g7 e7 Hinit. bind_inv H as [] g8 e8 Hloop.
  bind_inv H as now g9 e9 Hnow. bind_inv H as ms g10 e10 Hms.
  pose proof (int_arg_done_value _ _ _ _ _ Hdepth) as Vd.
  pose proof (int_arg_done_value _ _ _ _ _ Hnt) as Vn.
  pose proof (int_arg_done_value _ _ _ _ _ Hmb) as Vm.
  apply call_done in Hstart, Hnow. destruct Hstart as [Ht0 ->], Hnow as [Ht1 ->].
  apply fopen_read_done in Hopen. destruct Hopen as (name & Hname & -> & -> & ->).
  apply int_arg_done in Hdepth, Hnt, Hmb.
  destruct Hdepth as [-> ->], Hnt as [-> ->], Hmb as [-> ->].
  apply call__done in Hpool, Hinit. destruct Hpool as [-> ->], Hinit as [-> ->].
  apply lift_done in Hms. destruct Hms as (Hms & -> & ->).
  apply printf_done in H. destruct H as [-> ->].
  apply while_fgets_done in Hloop. destruct Hloop as (content & Hc & Hloop).
  pose proof (for_lines_evalbook_calls _ _ _ _ _ Hloop) as [Hevs Hlate].
  apply for_lines_evalbook_trace with (d := depth) in Hloop; [|repeat split].
  destruct Hloop as (Hf & Hs & Hall & Hlen).
  subst depth nthreads megabytes.
  exists name, content, ms. cbv zeta. rewrite Ht0. cbn [fst snd].
  rewrite <- Hevs, <- Hlate, Ht1. cbn [fst snd].
  split; [exact Hname|]. split; [now symmetry|].
  split; [cbn [app]; reflexivity|]. split; [reflexivity|].
  rewrite !fens_of_app, !searches_of_app, !stdout_of_app, Hf, Hs.
  cbn [app fens_of searches_of stdout_of]. rewrite sprintf_time.
  rewrite !app_nil_r, !append_nil_r.
  repeat split; try assumption.
  exact (int_of_double_done _ Hms).
Qed.

End ReportFacts.

Lemma bench_report_witness :
  sample_bench_run = Done (tt, sample_bench_final, sample_bench_events)
  /\ exists report total nps,
       stdout_of sample_bench_events
       = (nl ++ rule ++ nl) ++ stdout_of report ++ (rule ++ nl)
         ++ overall_text total nps
       /\ List.length report = 2%nat.
Proof.
  split; [exact sample_bench_run_done|].
  destruct (@bench_report_layout sample_engine
              sample_suite ["Ethereal"; "bench"; "4"] sample_files
              sample_start tt sample_bench_final sample_bench_events
              sample_bench_run_done)
    as (report & total & nps & Hout & Hlines & _).
  exists report, total, nps. split; [exact Hout|].
  apply Forall2_length in Hlines. symmetry. exact Hlines.
Defined.

Lemma evalbook_output_witness :
  sample_evalbook_run
  = Done (tt, sample_evalbook_final, sample_evalbook_events)
  /\ fens_of sample_evalbook_events = fgets_lines sample_book
  /\ map depthLimit (searches_of sample_evalbook_events) = [3; 3; 3; 3; 3].
Proof.
  split; [exact sample_evalbook_run_done|].
  destruct (@evalbook_arguments_and_output sample_engine
              ["Ethereal"; "evalbook"; "book.txt"; "3"] sample_files
              sample_start tt sample_evalbook_final sample_evalbook_events
              sample_evalbook_run_done)
    as (name & content & ms & Hname & Hfs & H).
  cbv zeta in H. destruct H as (_ & _ & Hfens & _).
  injection Hname as <-.
  assert (Hc : Some content = Some sample_book) by (rewrite <- Hfs; reflexivity).
  injection Hc as ->. split; [exact Hfens | reflexivity].
Defined.

(** ** From the search loop to the report, through the arrays *)

Section BenchRowFacts.
Context {EH : EngineHandle} {PM : PieceMacros}.

(** The search loop stores at index [i + j] what the [j]-th position
    gave, and leaves what is below [i] as it was. *)
Lemma bench_search_rows rest i depth limits st fs g st' g' evs :
  bench_search rest i depth limits st fs g = Done (st', g', evs) ->
  holds_rows st' i (fst (bench_rows (positions rest) depth limits g))
  /\ g' = snd (bench_rows (positions rest) depth limits g)
  /\ same_below st st' i.
Proof.
  revert i limits st g evs;
    induction rest as [|fen rest IH]; intros i limits st g evs;
    cbn [bench_search positions].
  - intros H. unfold past_the_array, lift in H. discriminate.
  - destruct (strEquals fen "").
    + intros H. apply ret_done in H. destruct H as (-> & -> & _).
      cbn [bench_rows fst snd]. split; [|split; [reflexivity|]].
      * intros [|j] row; discriminate.
      * intros k _. repeat split.
    + intros H.
      bind_inv H as now g1 e1 Hnow. bind_inv H as [] g2 e2 Hparse.
      bind_inv H as moves g3 e3 Hmoves.
      bind_inv H as bm g4 e4 Hbm. bind_inv H as pm g5 e5 Hpm.
      bind_inv H as score g6 e6 Hscore. bind_inv H as sc g7 e7 Hsc.
      bind_inv H as now' g8 e8 Hnow'. bind_inv H as tm g9 e9 Htm.
      bind_inv H as n g10 e10 Hn. bind_inv H as nd g11 e11 Hnd.
      bind_inv H as [] g12 e12 Hclear.
      apply call_done in Hnow, Hmoves, Hnow'.
      apply call__done in Hparse, Hclear.
      apply info_value_at_done in Hscore. apply peek_done in Hn.
      apply store_done in Hbm, Hpm, Hsc, Htm, Hnd.
      destruct Hnow as [Hnow _], Hmoves as [Hmoves _], Hnow' as [Hnow' _].
      destruct Hparse as [-> _], Hclear as [-> _].
      destruct Hscore as (-> & -> & _), Hn as (-> & -> & _).
      destruct Hbm as (Lbm & -> & -> & _), Hpm as (Lpm & -> & -> & _).
      destruct Hsc as (Lsc & -> & -> & _), Htm as (Ltm & -> & -> & _).
      destruct Hnd as (Lnd & -> & -> & _).
      apply IH in H. destruct H as (Hrows & Hg & Hsame).
      cbn [bench_rows]. rewrite Hnow, Hmoves, Hnow'.
      cbn [start set_start] in *.
      destruct (bench_rows (positions rest) depth (set_start limits now)
                           (clearTT g8)) as [rows gfin] eqn:Erows.
      cbn [fst snd] in *.
      destruct (Hsame i (Nat.lt_succ_diag_r i)) as (F1 & F2 & F3 & F4 & F5).
      cbn [scores times nodes bestMoves ponderMoves] in F1, F2, F3, F4, F5.
      rewrite nth_error_list_update_eq in F1 by assumption.
      rewrite nth_error_list_update_eq in F2 by assumption.
      rewrite nth_error_list_update_eq in F3 by assumption.
      rewrite nth_error_list_update_eq in F4 by assumption.
      rewrite nth_error_list_update_eq in F5 by assumption.
      split; [|split; [exact Hg|]].
      * intros [|j] row Hrow.
        -- injection Hrow as <-. rewrite Nat.add_0_r.
           cbn [row_score row_time row_nodes row_best row_ponder]. auto.
        -- rewrite Nat.add_succ_r. apply (Hrows j row Hrow).
      * intros k Hk. destruct (Hsame k) as (G1 & G2 & G3 & G4 & G5); [lia|].
        cbn [scores times nodes bestMoves ponderMoves] in G1, G2, G3, G4, G5.
        rewrite nth_error_list_update_neq in G1 by lia.
        rewrite nth_error_list_update_neq in G2 by lia.
        rewrite nth_error_list_update_neq in G3 by lia.
        rewrite nth_error_list_update_neq in G4 by lia.
        rewrite nth_error_list_update_neq in G5 by lia.
        auto.
Qed.

(** The report loop prints, for the position at index [i + j], what the
    arrays hold there. *)
Lemma bench_report_rows rest i st rows fs g u g' evs :
  bench_report rest i st fs g = Done (u, g', evs) ->
  holds_rows st i rows ->
  List.length rows = List.length (positions rest) ->
  Forall2 (fun kr e =>
             exists nps,
               int_of_double (nps_value (row_nodes (snd kr)) (row_time (snd kr)))
               = Done nps
               /\ e = bench_line_of (fst kr) (snd kr) nps)
          (combine (seq i (List.length rows)) rows) evs.
Proof.
  revert i rows g evs; induction rest as [|fen rest IH]; intros i rows g evs;
    cbn [bench_report positions].
  - intros H. unfold past_the_array, lift in H. discriminate.
  - destruct (strEquals fen "").
    + intros H _ Hlen. apply ret_done in H. destruct H as (_ & _ & ->).
      destruct rows; [constructor | discriminate].
    + intros H Hrows Hlen. destruct rows as [|row rows]; [discriminate|].
      cbn [List.length] in Hlen. injection Hlen as Hlen.
      bind_inv H as best g1 e1 Hbest. bind_inv H as ponder g2 e2 Hponder.
      bind_inv H as score g3 e3 Hscore. bind_inv H as n g4 e4 Hn.
      bind_inv H as t g5 e5 Ht. bind_inv H as nps g6 e6 Hnps.
      bind_inv H as [] g7 e7 Hprint.
      apply load_done in Hbest, Hponder, Hscore, Hn, Ht.
      destruct (Hrows 0%nat row eq_refl) as (R1 & R2 & R3 & R4 & R5).
      rewrite Nat.add_0_r in R1, R2, R3, R4, R5.
      destruct Hbest as (Hbest & -> & ->), Hponder as (Hponder & -> & ->).
      destruct Hscore as (Hscore & -> & ->), Hn as (Hn & -> & ->).
      destruct Ht as (Ht & -> & ->).
      assert (best = row_best row) by congruence.
      assert (ponder = row_ponder row) by congruence.
      assert (score = row_score row) by congruence.
      assert (n = row_nodes row) by congruence.
      assert (t = row_time row) by congruence. subst best ponder score n t.
      apply lift_done in Hnps. destruct Hnps as (Hnps & -> & ->).
      apply printf_done in Hprint. destruct Hprint as (-> & ->).
      apply IH with (rows := rows) in H; [| |exact Hlen].
      * cbn [List.length seq combine app]. constructor; [|exact H].
        exists nps. split; [exact Hnps | reflexivity].
      * intros j r Hr. specialize (Hrows (S j) r Hr).
        rewrite Nat.add_succ_r in Hrows. exact Hrows.
Qed.

Lemma bench_rows_length fens depth limits g :
  List.length (fst (bench_rows fens depth limits g)) = List.length fens.
Proof.
  revert limits g; induction fens as [|fen rest IH]; intros limits g;
    [reflexivity|].
  cbn [bench_rows]. destruct (getRealTime g) as [now g1].
  destruct (getBestMove _ _) as [moves g2]. destruct (getRealTime g2) as [now' g3].
  specialize (IH (set_start limits now) (clearTT g3)).
  destruct (bench_rows rest depth (set_start limits now) (clearTT g3))
    as [rows gfin].
  cbn [fst List.length] in *. now rewrite IH.
Qed.

(** X10.  What the search loop stores for a position is what the report loop
    prints for it.  The line numbered [k + 1] shows the score, the best
    move, the move to ponder and the node count that the search of
    position [k] of the suite left, and the rate computed from that node
    count and the time that search took. *)
Theorem bench_lines_report_their_search bench_csv argv fs g u g' evs :
  runBenchmark bench_csv argv fs g = Done (u, g', evs) ->
  let fens := positions (bench_csv ++ [""]) in
  let depth := int_arg_value argv 2 13 in
  let limits := {| multiPV := 1; limitedByDepth := 1; depthLimit := depth;
                   start := S754_zero false |} in
  let g0 := createThreadPool (int_arg_value argv 3 1)
              (snd (getRealTime (initTT (int_arg_value argv 4 16) g))) in
  let rows := fst (bench_rows fens depth limits g0) in
  List.length rows = List.length fens
  /\ Forall2 (fun kr e =>
                exists nps,
                  int_of_double
                    (nps_value (row_nodes (snd kr)) (row_time (snd kr)))
                  = Done nps
                  /\ e = bench_line_of (fst kr) (snd kr) nps)
             (combine (seq 0 (List.length rows)) rows)
             (filter (is_line_of bench_line_format) evs).
Proof.
  unfold runBenchmark. intros H. cbv zeta.
  bind_inv H as depth g1 e1 Hdepth. bind_inv H as nthreads g2 e2 Hnt.
  bind_inv H as megabytes g3 e3 Hmb.
  bind_inv H as [] g4 e4 Hinit. bind_inv H as time0 g5 e5 Htime0.
  bind_inv H as [] g6 e6 Hpool. bind_inv H as st g7 e7 Hsearch.
  bind_inv H as [] g8 e8 Hrule1. bind_inv H as [] g9 e9 Hreport.
  bind_inv H as [] g10 e10 Hrule2. bind_inv H as now g11 e11 Hnow.
  bind_inv H as total g12 e12 Htotal. bind_inv H as nps g13 e13 Hnps.
  bind_inv H as [] g14 e14 Hprint.
  pose proof (int_arg_done_value _ _ _ _ _ Hdepth) as Vd.
  pose proof (int_arg_done_value _ _ _ _ _ Hnt) as Vn.
  pose proof (int_arg_done_value _ _ _ _ _ Hmb) as Vm.
  apply int_arg_done in Hdepth, Hnt, Hmb.
  destruct Hdepth as [-> ->], Hnt as [-> ->], Hmb as [-> ->].
  apply call__done in Hinit, Hpool. destruct Hinit as [-> ->], Hpool as [-> ->].
  apply call_done in Htime0, Hnow. destruct Htime0 as [Ht0 ->], Hnow as [_ ->].
  apply printf_done in Hrule1, Hrule2, Hprint. apply emit_done in H.
  destruct Hrule1 as [-> ->], Hrule2 as [-> ->], Hprint as [-> ->], H as [-> ->].
  subst depth nthreads megabytes. rewrite Ht0. cbn [snd].
  pose proof Hsearch as Hquiet.
  apply bench_search_done in Hquiet;
    [|apply fresh_stats_sized | apply fresh_stats_filled
     | apply fresh_stats_ranged].
  destruct Hquiet as (_ & _ & _ & _ & Hquiet).
  apply bench_search_rows in Hsearch. destruct Hsearch as (Hrows & _ & _).
  pose proof Hreport as Hlines. apply bench_report_done in Hlines.
  destruct Hlines as (_ & _ & Hlines & _).
  apply bench_report_rows with (1 := Hreport) in Hrows;
    [|apply bench_rows_length].
  apply bench_total_done in Htotal. destruct Htotal as (_ & -> & _).
  apply lift_done in Hnps. destruct Hnps as (_ & _ & ->).
  split; [apply bench_rows_length|].
  rewrite !filter_app.
  rewrite (filter_line_of_no_printf bench_line_format _ Hquiet).
  rewrite (filter_line_of_same Hlines).
  cbn [app filter is_line_of]. 
  change (String.eqb (nl ++ rule ++ nl) bench_line_format) with false.
  change (String.eqb (rule ++ nl) bench_line_format) with false.
  change (String.eqb overall_format bench_line_format) with false.
  cbn iota. rewrite app_nil_r. exact Hrows.
Qed.

End BenchRowFacts.

Lemma bench_lines_witness :
  sample_bench_run = Done (tt, sample_bench_final, sample_bench_events)
  /\ List.length (filter (is_line_of bench_line_format) sample_bench_events)
     = 2%nat.
Proof.
  split; [exact sample_bench_run_done|].
  pose proof (@bench_lines_report_their_search sample_engine
                sample_suite ["Ethereal"; "bench"; "4"] sample_files
                sample_start tt sample_bench_final sample_bench_events
                sample_bench_run_done) as H.
  cbv zeta in H. destruct H as (Hlen & Hrows).
  apply Forall2_length in Hrows. rewrite <- Hrows.
  rewrite length_combine, length_seq, Hlen. reflexivity.
Defined.

(** ** Suites on which the benchmark comes to an end *)

Section BenchTotal.
Context {EH : EngineHandle} {PM : PieceMacros}.

Lemma load_inside {A} name (a : list (option A)) i v fs g :
  nth_error a i = Some (Some v) -> load name a i fs g = Done (v, g, []).
Proof. intros H. unfold load, lift, array_get. now rewrite H. Qed.

Lemma bench_search_total rest i depth limits st fs g :
  In "" rest -> stats_sized st ->
  (i + List.length (positions rest) <= 256)%nat ->
  0 <= depth < MAX_PLY ->
  exists st' g' evs, bench_search rest i depth limits st fs g = Done (st', g', evs).
Proof.
  intros Hin Hs Hle Hdepth.
  destruct (bench_search rest i depth limits st fs g) as [[[st' g'] evs]|f] eqn:E;
    [eauto|].
  exfalso. eapply bench_search_fault; eauto.
Qed.

Lemma bench_report_total rest i st rows fs g :
  In "" rest ->
  holds_rows st i rows ->
  List.length rows = List.length (positions rest) ->
  Forall (fun row => exists nps,
            int_of_double (nps_value (row_nodes row) (row_time row)) = Done nps)
         rows ->
  exists evs, bench_report rest i st fs g = Done (tt, g, evs).
Proof.
  revert i rows; induction rest as [|fen rest IH]; intros i rows Hin Hrows Hlen Hnps;
    cbn [bench_report positions] in *.
  - destruct Hin.
  - destruct (strEquals fen "") eqn:Hfen.
    + unfold ret. eauto.
    + destruct Hin as [->|Hin]; [discriminate|].
      destruct rows as [|row rows]; [discriminate|].
      cbn [List.length] in Hlen. injection Hlen as Hlen.
      inversion Hnps as [|? ? [nps Hrate] Hnps']; subst.
      destruct (Hrows 0%nat row eq_refl) as (R1 & R2 & R3 & R4 & R5).
      rewrite Nat.add_0_r in R1, R2, R3, R4, R5.
      destruct (IH (S i) rows Hin) as [evs Hrest]; [|exact Hlen|exact Hnps'|].
      { intros j r Hr. specialize (Hrows (S j) r Hr).
        rewrite Nat.add_succ_r in Hrows. exact Hrows. }
      eexists.
      eapply bind_done_intro; [apply load_inside; exact R4|].
      eapply bind_done_intro; [apply load_inside; exact R5|].
      eapply bind_done_intro; [apply load_inside; exact R1|].
      eapply bind_done_intro; [apply load_inside; exact R3|].
      eapply bind_done_intro; [apply load_inside; exact R2|].
      eapply bind_done_intro; [unfold lift; rewrite Hrate; reflexivity|].
      eapply bind_done_intro; [reflexivity|].
      exact Hrest.
Qed.

Lemma node_counts_rows st i rows :
  holds_rows st i rows ->
  node_counts st i (List.length rows) = map row_nodes rows.
Proof.
  revert i; induction rows as [|row rows IH]; intros i Hrows; [reflexivity|].
  cbn [List.length map]. rewrite node_counts_step.
  destruct (Hrows 0%nat row eq_refl) as (_ & _ & R3 & _).
  rewrite Nat.add_0_r in R3.
  rewrite (nth_error_nth _ _ _ R3). f_equal. apply IH.
  intros j r Hr. specialize (Hrows (S j) r Hr).
  rewrite Nat.add_succ_r in Hrows. exact Hrows.
Qed.

Lemma bench_total_total rest i st rows total fs g :
  In "" rest ->
  holds_rows st i rows ->
  List.length rows = List.length (positions rest) ->
  bench_total rest i st total fs g
  = Done (fold_left (fun acc c => to_uint64 (acc + c)) (map row_nodes rows) total,
          g, []).
Proof.
  revert i rows total; induction rest as [|fen rest IH];
    intros i rows total Hin Hrows Hlen; cbn [bench_total positions] in *.
  - destruct Hin.
  - destruct (strEquals fen "") eqn:Hfen.
    + destruct rows; [reflexivity | discriminate].
    + destruct Hin as [->|Hin]; [discriminate|].
      destruct rows as [|row rows]; [discriminate|].
      cbn [List.length] in Hlen. injection Hlen as Hlen.
      destruct (Hrows 0%nat row eq_refl) as (_ & _ & R3 & _).
      rewrite Nat.add_0_r in R3.
      unfold bind. rewrite (load_inside "nodes" _ _ fs g R3).
      rewrite (IH (S i) rows); [reflexivity | exact Hin | | exact Hlen].
      intros j r Hr. specialize (Hrows (S j) r Hr).
      rewrite Nat.add_succ_r in Hrows. exact Hrows.
Qed.

(** X11.  The benchmark comes to an end and prints its report whenever
    the arguments denote [int]s, the depth is an index of
    [threads->info->values] (at least 0 and below [MAX_PLY]), the suite
    has at most 256 positions, and the rates fit an [int]: the rate of
    every position, which is [1000.0f * nodes / (time + 1)] of what its
    search gave, and the rate of the whole run. *)
Theorem runBenchmark_completes bench_csv argv fs g :
  args_in_range argv ->
  0 <= int_arg_value argv 2 13 < MAX_PLY ->
  (List.length (positions (bench_csv ++ [""])) <= 256)%nat ->
  let fens := positions (bench_csv ++ [""]) in
  let depth := int_arg_value argv 2 13 in
  let limits := {| multiPV := 1; limitedByDepth := 1; depthLimit := depth;
                   start := S754_zero false |} in
  let g1 := initTT (int_arg_value argv 4 16) g in
  let g0 := createThreadPool (int_arg_value argv 3 1) (snd (getRealTime g1)) in
  let rows := fst (bench_rows fens depth limits g0) in
  let late := snd (bench_rows fens depth limits g0) in
  let elapsed := dsub (fst (getRealTime late)) (fst (getRealTime g1)) in
  let total := to_uint64 (sum_list (map row_nodes rows)) in
  Forall (fun row => exists nps,
            int_of_double (nps_value (row_nodes row) (row_time row)) = Done nps)
         rows ->
  (exists nps, int_of_double (nps_value total elapsed) = Done nps) ->
  exists g' evs, runBenchmark bench_csv argv fs g = Done (tt, g', evs).
Proof.
  intros Hargs Hdepth Hle. cbv zeta. intros Hrates [nps Hrate].
  pose proof (in_sentinel_app bench_csv) as Hsent.
  unfold runBenchmark.
  destruct (getRealTime (initTT (int_arg_value argv 4 16) g)) as [t0 g5] eqn:Et0.
  cbn [fst snd] in *.
  destruct (@bench_search_total (bench_csv ++ [""])%list 0 (int_arg_value argv 2 13)
              {| multiPV := 1; limitedByDepth := 1;
                 depthLimit := int_arg_value argv 2 13;
                 start := S754_zero false |}
              fresh_stats fs (createThreadPool (int_arg_value argv 3 1) g5)
              Hsent fresh_stats_sized Hle Hdepth)
    as (st & g7 & e7 & Hsearch).
  pose proof Hsearch as Hrows. apply bench_search_rows in Hrows.
  destruct Hrows as (Hrows & Hg7 & _).
  pose proof (bench_rows_length (positions (bench_csv ++ [""]))
                (int_arg_value argv 2 13)
                {| multiPV := 1; limitedByDepth := 1;
                   depthLimit := int_arg_value argv 2 13;
                   start := S754_zero false |}
                (createThreadPool (int_arg_value argv 3 1) g5)) as Hlen.
  destruct (@bench_report_total (bench_csv ++ [""])%list 0%nat st _ fs g7
              Hsent Hrows Hlen Hrates) as [e9 Hreport].
  pose proof (@bench_total_total (bench_csv ++ [""])%list 0%nat st _ 0 fs
                (snd (getRealTime g7)) Hsent Hrows Hlen) as Htotal.
  rewrite fold_total_zero in Htotal.
  rewrite <- Hg7 in Hrate.
  destruct (getRealTime g7) as [t1 g11] eqn:Et1. cbn [fst snd] in *.
  do 2 eexists.
  eapply bind_done_intro; [apply int_arg_total; exact Hargs|].
  eapply bind_done_intro; [apply int_arg_total; exact Hargs|].
  eapply bind_done_intro; [apply int_arg_total; exact Hargs|].
  eapply bind_done_intro; [reflexivity|].
  eapply bind_done_intro; [unfold call; rewrite Et0; reflexivity|].
  eapply bind_done_intro; [reflexivity|].
  eapply bind_done_intro; [exact Hsearch|].
  eapply bind_done_intro; [reflexivity|].
  eapply bind_done_intro; [exact Hreport|].
  eapply bind_done_intro; [reflexivity|].
  eapply bind_done_intro; [unfold call; rewrite Et1; reflexivity|].
  eapply bind_done_intro; [exact Htotal|].
  eapply bind_done_intro; [unfold lift; rewrite Hrate; reflexivity|].
  eapply bind_done_intro; [reflexivity|].
  reflexivity.
Qed.

End BenchTotal.

Lemma runBenchmark_completes_witness :
  args_in_range ["Ethereal"; "bench"; "4"]
  /\ 0 <= int_arg_value ["Ethereal"; "bench"; "4"] 2 13 < 128
  /\ (List.length (positions (sample_suite ++ [""])) <= 256)%nat
  /\ exists g' evs,
       runBenchmark sample_suite ["Ethereal"; "bench"; "4"] sample_files
         sample_start
       = Done (tt, g', evs).
Proof.
  assert (Hle : (List.length (positions (sample_suite ++ [""])) <= 256)%nat)
    by (vm_compute; repeat constructor).
  assert (Hdepth : 0 <= int_arg_value ["Ethereal"; "bench"; "4"] 2 13 < 128)
    by (split; [vm_compute; congruence | reflexivity]).
  split; [exact args_in_range_bench_4|]. split; [exact Hdepth|].
  split; [exact Hle|].
  apply (@runBenchmark_completes sample_engine sample_suite
           ["Ethereal"; "bench"; "4"] sample_files sample_start
           args_in_range_bench_4 Hdepth Hle).
  - match goal with
    | |- Forall _ ?l => change l with sample_bench_rows
    end.
    repeat constructor; eexists; vm_compute; reflexivity.
  - eexists. vm_compute. reflexivity.
Defined.

(** ** The aggregate line of the benchmark *)

Section OverallLine.
Context {EH : EngineHandle} {PM : PieceMacros}.

(** A run that ends, in terms of the calls of its search loop. *)
Lemma runBenchmark_done_rows bench_csv argv fs g u g' evs :
  runBenchmark bench_csv argv fs g = Done (u, g', evs) ->
  let fens := positions (bench_csv ++ [""]) in
  let depth := int_arg_value argv 2 13 in
  let limits := {| multiPV := 1; limitedByDepth := 1; depthLimit := depth;
                   start := S754_zero false |} in
  let g1 := initTT (int_arg_value argv 4 16) g in
  let g0 := createThreadPool (int_arg_value argv 3 1) (snd (getRealTime g1)) in
  let rows := fst (bench_rows fens depth limits g0) in
  let late := snd (bench_rows fens depth limits g0) in
  let total := to_uint64 (sum_list (map row_nodes rows)) in
  exists search report nps,
    evs = ([EvInitTT (int_arg_value argv 4 16); EvGetRealTime;
            EvCreateThreadPool (int_arg_value argv 3 1)]
           ++ search ++ [EvPrintf (nl ++ rule ++ nl) []] ++ report
           ++ [EvPrintf (rule ++ nl) []; EvGetRealTime;
               EvPrintf overall_format [PInt (to_int32 total); PInt nps];
               EvFree])%list
    /\ g' = snd (getRealTime late)
    /\ filter is_printf search = []
    /\ Forall (fun e => exists args, e = EvPrintf bench_line_format args) report
    /\ map bench_line_nodes report
       = map (fun row => Some (to_int32 (row_nodes row))) rows
    /\ Forall (fun row => 0 <= row_nodes row < 2 ^ 64) rows
    /\ int_of_double
         (nps_value total (dsub (fst (getRealTime late)) (fst (getRealTime g1))))
       = Done nps.
Proof.
  unfold runBenchmark. intros H.
  bind_inv H as depth g1 e1 Hdepth. bind_inv H as nthreads g2 e2 Hnt.
  bind_inv H as megabytes g3 e3 Hmb.
  bind_inv H as [] g4 e4 Hinit. bind_inv H as time0 g5 e5 Htime0.
  bind_inv H as [] g6 e6 Hpool. bind_inv H as st g7 e7 Hsearch.
  bind_inv H as [] g8 e8 Hrule1. bind_inv H as [] g9 e9 Hreport.
  bind_inv H as [] g10 e10 Hrule2. bind_inv H as now g11 e11 Hnow.
  bind_inv H as total g12 e12 Htotal. bind_inv H as nps g13 e13 Hnps.
  bind_inv H as [] g14 e14 Hprint.
  pose proof (int_arg_done_value _ _ _ _ _ Hdepth) as Vd.
  pose proof (int_arg_done_value _ _ _ _ _ Hnt) as Vn.
  pose proof (int_arg_done_value _ _ _ _ _ Hmb) as Vm.
  apply int_arg_done in Hdepth, Hnt, Hmb.
  destruct Hdepth as [-> ->], Hnt as [-> ->], Hmb as [-> ->].
  apply call__done in Hinit, Hpool. destruct Hinit as [-> ->], Hpool as [-> ->].
  apply call_done in Htime0, Hnow. destruct Htime0 as [Ht0 ->], Hnow as [Ht1 ->].
  apply printf_done in Hrule1, Hrule2, Hprint. apply emit_done in H.
  destruct Hrule1 as [-> ->], Hrule2 as [-> ->], Hprint as [-> ->], H as [-> ->].
  subst depth nthreads megabytes. cbv zeta. rewrite Ht0. cbn [fst snd].
  pose proof Hsearch as Hrows. apply bench_search_rows in Hrows.
  destruct Hrows as (Hrows & Hg7 & _).
  pose proof (bench_rows_length (positions (bench_csv ++ [""]))
                (int_arg_value argv 2 13)
                {| multiPV := 1; limitedByDepth := 1;
                   depthLimit := int_arg_value argv 2 13;
                   start := S754_zero false |}
                (createThreadPool (int_arg_value argv 3 1) g5)) as Hlen.
  pose proof (node_counts_rows Hrows) as Hcounts. rewrite Hlen in Hcounts.
  apply bench_search_done in Hsearch;
    [|apply fresh_stats_sized | apply fresh_stats_filled
     | apply fresh_stats_ranged].
  destruct Hsearch as (Hsized & Hfilled & Hranged & Hph & Hout).
  apply node_counts_ranged
    with (i := 0%nat) (n := List.length (positions (bench_csv ++ [""])))
    in Hranged.
  rewrite Hcounts in Hranged.
  apply bench_report_done in Hreport.
  destruct Hreport as (-> & Hrph & Hrall & Hrnodes).
  apply bench_total_done in Htotal. destruct Htotal as (-> & -> & ->).
  apply lift_done in Hnps. destruct Hnps as (Hnps & -> & ->).
  rewrite fold_total_zero in Hnps |- *.
  rewrite Hcounts in Hnps, Hrnodes |- *. rewrite map_map in Hrnodes.
  rewrite <- Hg7. rewrite Ht1. cbn [fst snd] in *.
  exists e7, e9, nps.
  repeat split; auto.
  apply Forall_map in Hranged. exact Hranged.
Qed.

(** C7, as amended.  A run of [runBenchmark] ends with its one aggregate
    line.  The total it shows is the sum of the node counts that the
    searches of the positions gave (as a 64-bit sum, printed as an
    [int]).  The rate it shows is the value of the C expression
    [(int)(1000.0f * totalNodes / (elapsed + 1))]: the product of 1000
    and the total rounded to a [float], divided as a [double] by the
    time from the first reading of the clock to the one after the last
    search plus 1, and truncated toward zero; it need not be the
    integer quotient.  With an elapsed time of zero the divisor is 1.
    On a suite that holds only the sentinel the run ends, and the line
    shows 0 nodes and a rate of 0, whenever [elapsed + 1] is a number
    other than zero. *)
Theorem bench_overall_line :
  (forall bench_csv argv fs g u g' evs,
      runBenchmark bench_csv argv fs g = Done (u, g', evs) ->
      let fens := positions (bench_csv ++ [""]) in
      let depth := int_arg_value argv 2 13 in
      let limits := {| multiPV := 1; limitedByDepth := 1; depthLimit := depth;
                       start := S754_zero false |} in
      let g1 := initTT (int_arg_value argv 4 16) g in
      let g0 := createThreadPool (int_arg_value argv 3 1)
                  (snd (getRealTime g1)) in
      let rows := fst (bench_rows fens depth limits g0) in
      let late := snd (bench_rows fens depth limits g0) in
      let total := to_uint64 (sum_list (map row_nodes rows)) in
      let elapsed :=
        SFsub 53 1024 (fst (getRealTime late)) (fst (getRealTime g1)) in
      let rate :=
        SFdiv 53 1024
          (SFmul 24 128 (binary_normalize 24 128 1000 0 false)
                        (binary_normalize 24 128 total 0 false))
          (SFadd 53 1024 elapsed (binary_normalize 53 1024 1 0 false)) in
      exists before nps,
        evs = (before
               ++ [EvPrintf overall_format [PInt (to_int32 total); PInt nps];
                   EvFree])%list
        /\ filter (is_line_of overall_format) before = []
        /\ map bench_line_nodes (filter (is_line_of bench_line_format) before)
           = map (fun row => Some (to_int32 (row_nodes row))) rows
        /\ List.length rows = List.length fens
        /\ Forall (fun row => 0 <= row_nodes row < 2 ^ 64) rows
        /\ match rate with
           | S754_zero _ => nps = 0
           | S754_finite s m e =>
               nps = (if s then -1 else 1)
                     * (if 0 <=? e then Z.pos m * 2 ^ e
                        else Z.pos m / 2 ^ (- e))
               /\ INT_MIN <= nps <= INT_MAX
           | _ => False
           end
        /\ (sum_list (map row_nodes rows) <= INT_MAX ->
            to_int32 total = sum_list (map row_nodes rows))
        /\ (fens = [] -> to_int32 total = 0 /\ nps = 0))
  /\ (forall argv fs g,
        args_in_range argv ->
        let nthreads := int_arg_value argv 3 1 in
        let megabytes := int_arg_value argv 4 16 in
        let g1 := initTT megabytes g in
        let time0 := fst (getRealTime g1) in
        let g2 := createThreadPool nthreads (snd (getRealTime g1)) in
        let time1 := fst (getRealTime g2) in
        nonzero_number
          (SFadd 53 1024 (SFsub 53 1024 time1 time0)
             (binary_normalize 53 1024 1 0 false)) = true ->
        runBenchmark [] argv fs g
        = Done (tt, snd (getRealTime g2),
                [EvInitTT megabytes; EvGetRealTime;
                 EvCreateThreadPool nthreads;
                 EvPrintf (nl ++ rule ++ nl) []; EvPrintf (rule ++ nl) [];
                 EvGetRealTime;
                 EvPrintf overall_format [PInt 0; PInt 0]; EvFree]))
  /\ (forall s,
        SFadd 53 1024 (S754_zero s) (binary_normalize 53 1024 1 0 false)
        = binary_normalize 53 1024 1 0 false
        /\ nonzero_number (binary_normalize 53 1024 1 0 false) = true).
Proof.
  split; [|split; [exact runBenchmark_empty_suite | exact elapsed_zero_plus_one]].
  intros csv argv fs g u g' evs H. apply runBenchmark_done_rows in H.
  cbv zeta in H |- *.
  destruct H as (search & report & nps & -> & _ & Hnop & Hrall & Hrnodes
                 & Hrange & Hnps).
  exists ([EvInitTT (int_arg_value argv 4 16); EvGetRealTime;
           EvCreateThreadPool (int_arg_value argv 3 1)] ++ search
          ++ [EvPrintf (nl ++ rule ++ nl) []] ++ report
          ++ [EvPrintf (rule ++ nl) []; EvGetRealTime])%list, nps.
  split; [now rewrite <- !app_assoc|].
  split.
  { rewrite !filter_app, (filter_line_of_no_printf _ _ Hnop).
    rewrite (filter_line_of_other _ Hrall) by reflexivity. reflexivity. }
  split.
  { rewrite !filter_app, (filter_line_of_no_printf _ _ Hnop).
    rewrite (filter_line_of_same Hrall). cbn [filter is_line_of app].
    change (String.eqb (nl ++ rule ++ nl) bench_line_format) with false.
    change (String.eqb (rule ++ nl) bench_line_format) with false.
    cbn [app]. rewrite app_nil_r. exact Hrnodes. }
  split; [apply bench_rows_length|].
  split; [exact Hrange|].
  split; [exact (int_of_double_done _ Hnps)|].
  split.
  { intros Hsum.
    apply (proj2 (Forall_map row_nodes (fun c => 0 <= c < 2 ^ 64) _)) in Hrange.
    pose proof (sum_list_nonneg Hrange) as H0.
    unfold to_uint64. rewrite (Z.mod_small (sum_list _)).
    - now apply to_int32_small.
    - unfold INT_MAX in Hsum. lia. }
  intros Hempty. rewrite Hempty in Hnps |- *.
  cbn [bench_rows fst map] in Hnps |- *.
  change (to_uint64 (sum_list [])) with 0 in *.
  split; [reflexivity|]. now apply nps_of_zero_nodes in Hnps.
Qed.

End OverallLine.

(** C7, as stated, fails.  Three positions of 385000 nodes each, searched in 27 ms: the line
    shows a rate of 41250002, and [1000 * 1155000 / (27 + 1)] is
    41250000. *)
Lemma bench_rate_is_no_quotient :
  exists g' evs,
    runBenchmark rounding_suite ["Ethereal"; "bench"; "77"] sample_files
      sample_start
    = Done (tt, g', evs)
    /\ filter (is_line_of overall_format) evs
       = [EvPrintf overall_format [PInt 1155000; PInt 41250002]]
    /\ map bench_line_nodes (filter (is_line_of bench_line_format) evs)
       = [Some 385000; Some 385000; Some 385000]
    /\ SFsub 53 1024 (fst (getRealTime g'))
         (fst (getRealTime (initTT 16 sample_start)))
       = binary_normalize 53 1024 27 0 false
    /\ 1000 * 1155000 / (27 + 1) = 41250000.
Proof.
  eexists. eexists. split; [vm_compute; reflexivity|].
  split; [vm_compute; reflexivity|]. split; [vm_compute; reflexivity|].
  split; vm_compute; reflexivity.
Qed.

Lemma bench_overall_witness :
  sample_bench_run = Done (tt, sample_bench_final, sample_bench_events)
  /\ args_in_range ["Ethereal"; "bench"]
  /\ (exists g',
        runBenchmark [] ["Ethereal"; "bench"] sample_files sample_start
        = Done (tt, g',
                [EvInitTT 16; EvGetRealTime; EvCreateThreadPool 1;
                 EvPrintf (nl ++ rule ++ nl) []; EvPrintf (rule ++ nl) [];
                 EvGetRealTime;
                 EvPrintf overall_format [PInt 0; PInt 0]; EvFree]))
  /\ exists before,
       sample_bench_events
       = (before ++ [EvPrintf overall_format [PInt 40000; PInt 2105263];
                     EvFree])%list.
Proof.
  assert (Hargs : args_in_range ["Ethereal"; "bench"]).
  { intros [|[|[|k]]] a; simpl; intros [= <-]; vm_compute; split; discriminate. }
  split; [exact sample_bench_run_done|]. split; [exact Hargs|]. split.
  - eexists.
    exact (proj1 (proj2 (@bench_overall_line sample_engine))
             ["Ethereal"; "bench"] sample_files sample_start Hargs eq_refl).
  - destruct (proj1 (@bench_overall_line sample_engine)
                sample_suite ["Ethereal"; "bench"; "4"] sample_files
                sample_start tt sample_bench_final sample_bench_events
                sample_bench_run_done)
      as (before & nps & H).
    cbv zeta in H. destruct H as (Hevs & _ & _ & _ & _ & Hrate & _).
    match type of Hrate with
    | match ?r with S754_zero _ => _ | _ => _ end =>
        let r' := eval vm_compute in r in
        replace r with r' in Hrate by (vm_compute; reflexivity)
    end.
    cbv beta iota in Hrate. destruct Hrate as [-> _].
    exists before. rewrite Hevs. apply f_equal. vm_compute. reflexivity.
Defined.

(** ** The thread pool across a run *)

Lemma pool_events_app l1 l2 :
  pool_events (l1 ++ l2) = (pool_events l1 ++ pool_events l2)%list.
Proof. apply filter_app. Qed.

Lemma pool_events_printfs fmt evs :
  Forall (fun e => exists args, e = EvPrintf fmt args) evs -> pool_events evs = [].
Proof.
  induction 1 as [|e evs [args ->] _ IH]; [reflexivity | exact IH].
Qed.

Section PoolFacts.
Context {EH : EngineHandle} {PM : PieceMacros}.

Lemma bench_search_pool rest i depth limits st fs g st' g' evs :
  bench_search rest i depth limits st fs g = Done (st', g', evs) ->
  pool_events evs = [].
Proof.
  revert i limits st g evs;
    induction rest as [|fen rest IH]; intros i limits st g evs;
    cbn [bench_search].
  - intros H. unfold past_the_array, lift in H. discriminate.
  - destruct (strEquals fen "").
    + intros H. apply ret_done in H. now destruct H as (_ & _ & ->).
    + intros H.
      bind_inv H as now g1 e1 Hnow. bind_inv H as [] g2 e2 Hparse.
      bind_inv H as moves g3 e3 Hmoves.
      bind_inv H as bm g4 e4 Hbm. bind_inv H as pm g5 e5 Hpm.
      bind_inv H as score g6 e6 Hscore. bind_inv H as sc g7 e7 Hsc.
      bind_inv H as now' g8 e8 Hnow'. bind_inv H as tm g9 e9 Htm.
      bind_inv H as n g10 e10 Hn. bind_inv H as nd g11 e11 Hnd.
      bind_inv H as [] g12 e12 Hclear.
      apply call_done in Hnow, Hmoves, Hnow'.
      apply call__done in Hparse, Hclear.
      apply info_value_at_done in Hscore. apply peek_done in Hn.
      apply store_done in Hbm, Hpm, Hsc, Htm, Hnd.
      destruct Hnow as [_ ->], Hmoves as [_ ->], Hnow' as [_ ->].
      destruct Hparse as [_ ->], Hclear as [_ ->].
      destruct Hscore as (_ & _ & ->), Hn as (_ & _ & ->).
      destruct Hbm as (_ & _ & _ & ->), Hpm as (_ & _ & _ & ->).
      destruct Hsc as (_ & _ & _ & ->), Htm as (_ & _ & _ & ->).
      destruct Hnd as (_ & _ & _ & ->).
      apply IH in H. rewrite !pool_events_app, H. reflexivity.
Qed.

Lemma for_lines_evalbook_pool limits lines k fs g u g' evs :
  for_lines lines k (fun _ line => evalbook_line limits line) fs g
  = Done (u, g', evs) ->
  pool_events evs = [].
Proof.
  revert k g evs; induction lines as [|line rest IH]; intros k g evs;
    cbn [for_lines].
  - intros H. apply ret_done in H. now destruct H as (_ & _ & ->).
  - intros H. bind_inv H as [] g1 e1 Hline. apply IH in H.
    unfold evalbook_line in Hline.
    bind_inv Hline as now g2 e2 Hnow. bind_inv Hline as [] g3 e3 Hparse.
    bind_inv Hline as moves g4 e4 Hmoves. bind_inv Hline as [] g5 e5 Hreset.
    bind_inv Hline as [] g6 e6 Hclear.
    apply call_done in Hnow, Hmoves.
    apply call__done in Hparse, Hreset, Hclear. apply printf_done in Hline.
    destruct Hnow as [_ ->], Hmoves as [_ ->], Hparse as [_ ->].
    destruct Hreset as [_ ->], Hclear as [_ ->], Hline as [_ ->].
    rewrite !pool_events_app, H. reflexivity.
Qed.

Lemma for_lines_nnbook_pool junk fout lines k fs g u g' evs :
  for_lines lines k (nnbook_line junk fout) fs g = Done (u, g', evs) ->
  pool_events evs = [].
Proof.
  revert k g evs; induction lines as [|line rest IH]; intros k g evs;
    cbn [for_lines].
  - intros H. apply ret_done in H. now destruct H as (_ & _ & ->).
  - intros H. bind_inv H as [] g1 e1 Hline.
    apply nnbook_line_done in Hline. destruct Hline as (r & _ & _ & ->).
    apply IH in H. rewrite pool_events_app, H. reflexivity.
Qed.

Lemma pool_events_filter_trace lines g : pool_events (filter_trace lines g) = [].
Proof.
  revert g; induction lines as [|line rest IH]; intros g; [reflexivity|].
  cbn [filter_trace]. destruct (judge line g) as [v g1].
  rewrite pool_events_app, IH. destruct v; reflexivity.
Qed.

(** X12.  Every pipeline makes one thread pool and makes it once: of
    [argv[3]] threads (1 when left out) in the benchmark, of [argv[4]]
    threads (1 when left out) in the evaluation of a book, of one
    thread in the filter and in the encoder.  The benchmark, the filter
    and the encoder free it as the last thing they do; the evaluation
    of a book never frees it. *)
Theorem thread_pool_made_once :
  (forall bench_csv argv fs g u g' evs,
      runBenchmark bench_csv argv fs g = Done (u, g', evs) ->
      pool_events evs = [EvCreateThreadPool (int_arg_value argv 3 1); EvFree]
      /\ exists before, evs = (before ++ [EvFree])%list)
  /\ (forall fname fs g u g' evs,
        filterBook fname fs g = Done (u, g', evs) ->
        pool_events evs = [EvCreateThreadPool 1; EvFree]
        /\ exists before, evs = (before ++ [EvFree])%list)
  /\ (forall junk fname fs g u g' evs,
        buildNNBook junk fname fs g = Done (u, g', evs) ->
        pool_events evs = [EvCreateThreadPool 1; EvFree]
        /\ exists before, evs = (before ++ [EvFree])%list)
  /\ (forall argv fs g u g' evs,
        runEvalBook argv fs g = Done (u, g', evs) ->
        pool_events evs = [EvCreateThreadPool (int_arg_value argv 4 1)]).
Proof.
  split; [|split; [|split]].
  - intros bench_csv argv fs g u g' evs H. unfold runBenchmark in H.
    bind_inv H as depth g1 e1 Hdepth. bind_inv H as nthreads g2 e2 Hnt.
    bind_inv H as megabytes g3 e3 Hmb.
    bind_inv H as [] g4 e4 Hinit. bind_inv H as time0 g5 e5 Htime0.
    bind_inv H as [] g6 e6 Hpool. bind_inv H as st g7 e7 Hsearch.
    bind_inv H as [] g8 e8 Hrule1. bind_inv H as [] g9 e9 Hreport.
    bind_inv H as [] g10 e10 Hrule2. bind_inv H as now g11 e11 Hnow.
    bind_inv H as total g12 e12 Htotal. bind_inv H as nps g13 e13 Hnps.
    bind_inv H as [] g14 e14 Hprint.
    pose proof (int_arg_done_value _ _ _ _ _ Hnt) as Vn.
    apply int_arg_done in Hdepth, Hnt, Hmb.
    destruct Hdepth as [-> ->], Hnt as [-> ->], Hmb as [-> ->].
    apply call__done in Hinit, Hpool.
    destruct Hinit as [-> ->], Hpool as [-> ->].
    apply call_done in Htime0, Hnow. destruct Htime0 as [_ ->], Hnow as [_ ->].
    apply printf_done in Hrule1, Hrule2, Hprint. apply emit_done in H.
    destruct Hrule1 as [-> ->], Hrule2 as [-> ->], Hprint as [-> ->], H as [-> ->].
    apply bench_search_pool in Hsearch.
    apply bench_report_done in Hreport. destruct Hreport as (_ & _ & Hlines & _).
    apply bench_total_done in Htotal. destruct Htotal as (_ & -> & _).
    apply lift_done in Hnps. destruct Hnps as (_ & _ & ->).
    subst nthreads. split.
    + rewrite !pool_events_app, Hsearch, (pool_events_printfs Hlines).
      reflexivity.
    + eexists. rewrite !app_assoc. reflexivity.
  - intros fname fs g u g' evs H. unfold filterBook in H.
    bind_inv H as fin g1 e1 Hopen. bind_inv H as [] g2 e2 Hpool.
    bind_inv H as [] g3 e3 Hloop.
    apply fopen_read_done in Hopen. destruct Hopen as (name & -> & -> & -> & ->).
    apply call__done in Hpool. destruct Hpool as [-> ->].
    apply emit_done in H. destruct H as [-> ->].
    apply while_fgets_done in Hloop. destruct Hloop as (content & Hc & Hloop).
    rewrite for_lines_filter in Hloop. apply Done_inj in Hloop.
    injection Hloop as _ <-. split.
    + rewrite !pool_events_app, pool_events_filter_trace. reflexivity.
    + eexists. rewrite !app_assoc. reflexivity.
  - intros junk fname fs g u g' evs H. apply buildNNBook_done in H.
    destruct H as (name & content & loop & _ & _ & _ & Hloop & ->).
    apply for_lines_nnbook_pool in Hloop. split.
    + change (EvCreateThreadPool 1 :: loop ++ [EvFree])%list
        with ([EvCreateThreadPool 1] ++ loop ++ [EvFree])%list.
      rewrite !pool_events_app, Hloop. reflexivity.
    + exists (EvCreateThreadPool 1 :: loop). reflexivity.
  - intros argv fs g u g' evs H. unfold runEvalBook in H.
    bind_inv H as start0 g1 e1 Hstart. bind_inv H as book g2 e2 Hopen.
    bind_inv H as depth g3 e3 Hdepth. bind_inv H as nthreads g4 e4 Hnt.
    bind_inv H as megabytes g5 e5 Hmb. bind_inv H as [] g6 e6 Hpool.
    bind_inv H as [] g7 e7 Hinit. bind_inv H as [] g8 e8 Hloop.
    bind_inv H as now g9 e9 Hnow. bind_inv H as ms g10 e10 Hms.
    pose proof (int_arg_done_value _ _ _ _ _ Hnt) as Vn.
    apply call_done in Hstart, Hnow. destruct Hstart as [_ ->], Hnow as [_ ->].
    apply fopen_read_done in Hopen.
    destruct Hopen as (name & Hname & -> & -> & ->).
    apply int_arg_done in Hdepth, Hnt, Hmb.
    destruct Hdepth as [-> ->], Hnt as [-> ->], Hmb as [-> ->].
    apply call__done in Hpool, Hinit.
    destruct Hpool as [-> ->], Hinit as [-> ->].
    apply lift_done in Hms. destruct Hms as (_ & -> & ->).
    apply printf_done in H. destruct H as [_ ->].
    apply while_fgets_done in Hloop. destruct Hloop as (content & Hc & Hloop).
    apply for_lines_evalbook_pool in Hloop. subst nthreads.
    rewrite !pool_events_app, Hloop. reflexivity.
Qed.

End PoolFacts.

Lemma thread_pool_witness :
  sample_bench_run = Done (tt, sample_bench_final, sample_bench_events)
  /\ pool_events sample_bench_events = [EvCreateThreadPool 1; EvFree]
  /\ sample_evalbook_run
     = Done (tt, sample_evalbook_final, sample_evalbook_events)
  /\ pool_events sample_evalbook_events = [EvCreateThreadPool 1].
Proof.
  split; [exact sample_bench_run_done|]. split.
  - exact (proj1 (proj1 (@thread_pool_made_once sample_engine sample_macros)
                    sample_suite ["Ethereal"; "bench"; "4"] sample_files
                    sample_start tt sample_bench_final sample_bench_events
                    sample_bench_run_done)).
  - split; [exact sample_evalbook_run_done|].
    exact (proj2 (proj2 (proj2 (@thread_pool_made_once sample_engine
                                  sample_macros)))
             ["Ethereal"; "evalbook"; "book.txt"; "3"] sample_files
             sample_start tt sample_evalbook_final sample_evalbook_events
             sample_evalbook_run_done).
Defined.

(** ** The lines of a book *)

Lemma string_length_append s t :
  String.length (s ++ t) = (String.length s + String.length t)%nat.
Proof. induction s as [|c s IH]; simpl; [reflexivity | now rewrite IH]. Qed.





Section BookLineFacts.
Context {EH : EngineHandle} {PM : PieceMacros}.



Lemma kept_lines_length lines g :
  (String.length (fold_right String.append "" (kept_lines lines g))
   <= String.length (fold_right String.append "" lines))%nat.
Proof.
  revert g; induction lines as [|line rest IH]; intros g; [simpl; lia|].
  cbn [kept_lines]. destruct (judge line g) as [v g1].
  specialize (IH g1). cbn [fold_right].
  destruct v; cbn [fold_right]; rewrite !string_length_append; lia.
Qed.



(** X14.  [filterBook] comes to an end on every book that can be opened,
    whatever its lines hold, and prints no more than it has read. *)
Theorem filterBook_completes name content (fs : FileSystem) g :
  fs name = Some content ->
  exists g' evs,
    filterBook (Some name) fs g = Done (tt, g', evs)
    /\ (String.length (stdout_of evs) <= String.length content)%nat.
Proof.
  intros Hfs.
  exists (state_after_lines (fgets_lines content) (createThreadPool 1 g)).
  exists (EvCreateThreadPool 1
            :: filter_trace (fgets_lines content) (createThreadPool 1 g)
            ++ [EvFree])%list.
  split.
  - unfold filterBook, bind, fopen_read. rewrite Hfs.
    unfold call_ at 1. unfold call at 1. unfold while_fgets.
    rewrite for_lines_filter. reflexivity.
  - cbn [stdout_of]. rewrite stdout_of_app, stdout_of_filter_trace.
    cbn [stdout_of]. rewrite append_nil_r.
    rewrite <- (fgets_lines_concat content) at 2. apply kept_lines_length.
Qed.

End BookLineFacts.


Lemma filterBook_completes_witness :
  sample_files "book.txt" = Some sample_book
  /\ exists g' evs,
       filterBook (Some "book.txt") sample_files sample_start
       = Done (tt, g', evs)
       /\ (String.length (stdout_of evs) <= String.length sample_book)%nat.
Proof.
  split; [reflexivity|].
  exact (@filterBook_completes sample_engine "book.txt" sample_book
           sample_files sample_start eq_refl).
Defined.

(** ** When [buildNNBook] writes a record, and when it cannot *)

Lemma strstr_first pre suf needle :
  prefix needle suf = true ->
  (forall pre' suf', pre ++ suf = pre' ++ suf' ->
     (String.length pre' < String.length pre)%nat ->
     prefix needle suf' = false) ->
  strstr (pre ++ suf) needle = Some suf.
Proof.
  intros Hp. induction pre as [|c pre IH]; intros Hfirst.
  - rewrite strstr_eq. cbn [append]. now rewrite Hp.
  - rewrite strstr_eq.
    rewrite (Hfirst "" (String c pre ++ suf) eq_refl) by (simpl; lia).
    cbn [append]. apply IH. intros pre' suf' Heq Hlen.
    apply (Hfirst (String c pre') suf'); [simpl; now rewrite Heq | simpl; lia].
Qed.

Lemma land_uint64 a b : is_uint64 a -> is_uint64 (Z.land a b).
Proof.
  intros Ha. apply uint64_bits in Ha. destruct Ha as [Ha Hah].
  apply uint64_bits. split.
  - apply Z.land_nonneg. now left.
  - intros n Hn. rewrite Z.land_spec, (Hah n Hn). reflexivity.
Qed.

Lemma getlsb_nonzero bb :
  is_uint64 bb -> bb <> 0 -> exists sq, getlsb bb = Done sq.
Proof.
  intros Hu Hnz. unfold getlsb.
  pose proof (uint64_nonzero_has_square Hu Hnz) as Hne.
  destruct (squares_of bb) as [|sq rest]; [contradiction|]. now exists sq.
Qed.

Lemma getlsb_zero : getlsb 0 = Fault (Undefined "getlsb of an empty bitboard").
Proof. reflexivity. Qed.

Lemma getlsb_done_nonzero bb sq : getlsb bb = Done sq -> bb <> 0.
Proof. intros H ->. rewrite getlsb_zero in H. discriminate. Qed.

Lemma filter_seq_head_lowest (p : Z -> bool) a n x rest :
  filter p (map Z.of_nat (seq a n)) = x :: rest ->
  forall s, Z.of_nat a <= s < x -> p s = false.
Proof.
  revert a; induction n as [|n IH]; intros a; cbn [seq map filter].
  - discriminate.
  - destruct (p (Z.of_nat a)) eqn:E.
    + intros [= <- _] s Hs. lia.
    + intros H s Hs. destruct (Z.eq_dec s (Z.of_nat a)) as [->|Hne]; [exact E|].
      apply (IH (S a) H). lia.
Qed.

Lemma squares_of_head_lowest bb sq rest :
  squares_of bb = sq :: rest ->
  forall s, 0 <= s < sq -> Z.testbit bb s = false.
Proof.
  unfold squares_of, bit_indices. intros E s Hs.
  exact (@filter_seq_head_lowest (Z.testbit bb) 0%nat 64%nat sq rest E s Hs).
Qed.

Lemma getlsb_lowest bb sq : getlsb bb = Done sq -> lowest_square bb sq.
Proof.
  unfold getlsb. intros H. apply from_option_done in H.
  destruct (squares_of bb) as [|x rest] eqn:E; [discriminate|].
  injection H as ->.
  assert (Hin : In sq (squares_of bb)) by (rewrite E; now left).
  apply squares_of_spec in Hin. destruct Hin as [Hr Hb].
  split; [exact Hr|]. split; [exact Hb|].
  exact (@squares_of_head_lowest bb sq rest E).
Qed.

Lemma to_uint8_to_int8 z : to_uint8 (to_int8 z) = z mod 256.
Proof.
  unfold to_uint8, to_int8. rewrite Zminus_mod_idemp_l. f_equal. lia.
Qed.

Section RecordFacts.
Context {PM : PieceMacros}.

Lemma eval_of_annotated line : (exists v, eval_of line = Done v) <-> annotated line.
Proof.
  split.
  - intros [v H]. apply eval_of_done in H.
    destruct H as (pre & rest & Hl & Hfirst & Hr & _). exists pre, rest. auto.
  - intros (pre & rest & -> & Hfirst & Hr). unfold eval_of.
    rewrite strstr_first; [|apply prefix_spec; now exists rest | exact Hfirst].
    cbn [from_option obind].
    change (advance (String.length "] ") ("] " ++ rest)) with rest.
    unfold atoi.
    destruct (Z.leb_spec INT_MIN (parse_int rest)); [|lia].
    destruct (Z.leb_spec (parse_int rest) INT_MAX); [|lia].
    cbn [andb obind]. eauto.
Qed.

Lemma eval_of_unannotated line :
  ~ occurs_in "] " line -> eval_of line = Fault (NullPointer "tail").
Proof.
  intros H. apply found_false_iff in H. unfold found in H. unfold eval_of.
  destruct (strstr line "] "); [discriminate | reflexivity].
Qed.

(** The header fields that the board gives. *)
Lemma record_of_line_header b junk line r :
  record_of_line b junk line = Done r ->
  exists wk bk,
    getlsb (Z.land (colours b WHITE) (pieces b KING)) = Done wk
    /\ getlsb (Z.land (colours b BLACK) (pieces b KING)) = Done bk
    /\ rec_turn r = to_uint8 (to_int8 (turn b))
    /\ rec_wksq r = to_uint8 wk /\ rec_bksq r = to_uint8 bk.
Proof.
  unfold record_of_line. intros H.
  obind_inv H as ev Hev. obind_inv H as wk Hwk. obind_inv H as bk Hbk.
  obind_inv H as types Hfill. obind_inv H as packed Hpack.
  obind_inv H as body Hbody.
  apply Done_inj in H. subst r.
  cbn [rec_turn rec_wksq rec_bksq]. exists wk, bk. auto.
Qed.

(** The loop over the occupancy has no bound of its own: with more
    pieces than [types] has room for, it stores past the end. *)
Lemma fill_types_overflow fuel b i pcs types :
  (i <= List.length types)%nat ->
  (List.length types < i + List.length (squares_of pcs))%nat ->
  (List.length types - i < fuel)%nat ->
  fill_types fuel b i pcs types
  = Fault (OutOfBounds "types" (Z.of_nat (List.length types))).
Proof.
  revert i pcs types; induction fuel as [|fuel IH]; intros i pcs types Hi Hlen Hf;
    [lia|].
  cbn [fill_types]. destruct (Z.eqb_spec pcs 0) as [->|Hnz].
  { rewrite squares_of_zero in Hlen. cbn [List.length] in Hlen. lia. }
  destruct (squares_of pcs) as [|sq rest] eqn:Hsq;
    [cbn [List.length] in Hlen; lia|].
  unfold poplsb, getlsb. rewrite Hsq. cbn [hd_error from_option obind].
  pose proof (squares_of_clearbit _ Hsq) as Hrest.
  cbn [List.length] in Hlen.
  destruct (Nat.eq_dec i (List.length types)) as [->|Hne].
  - rewrite array_set_outside by lia. reflexivity.
  - rewrite array_set_inside by lia. cbn [obind].
    rewrite IH; rewrite ?list_update_length, ?Hrest; [reflexivity | lia | lia | lia].
Qed.

(** X15.  How a line fails.  Without a "] " the pointer [tail] is NULL; on a
    board without a white or a black king [getlsb] is asked for the
    lowest bit of 0; and with more than 32 pieces the loop over the
    occupancy stores to [types[32]]. *)
Theorem nnbook_line_failures b junk line :
  (~ occurs_in "] " line ->
   record_of_line b junk line = Fault (NullPointer "tail"))
  /\ (annotated line ->
      Z.land (colours b WHITE) (pieces b KING) = 0
      \/ (board_sized b /\ Z.land (colours b BLACK) (pieces b KING) = 0) ->
      record_of_line b junk line
      = Fault (Undefined "getlsb of an empty bitboard"))
  /\ (annotated line -> board_sized b ->
      Z.land (colours b WHITE) (pieces b KING) <> 0 ->
      Z.land (colours b BLACK) (pieces b KING) <> 0 ->
      32 < popcount (Z.lor (colours b WHITE) (colours b BLACK)) ->
      record_of_line b junk line = Fault (OutOfBounds "types" 32)).
Proof.
  split; [|split].
  - intros H. unfold record_of_line. now rewrite eval_of_unannotated.
  - intros Ha Hk. apply eval_of_annotated in Ha. destruct Ha as [v Hv].
    unfold record_of_line. rewrite Hv. cbn [obind].
    destruct Hk as [-> | ([Hw _] & ->)].
    + rewrite getlsb_zero. reflexivity.
    + destruct (Z.eq_dec (Z.land (colours b WHITE) (pieces b KING)) 0) as [->|Hnz].
      * rewrite getlsb_zero. reflexivity.
      * destruct (getlsb_nonzero (land_uint64 (pieces b KING) Hw) Hnz) as [wk ->].
        cbn [obind]. rewrite getlsb_zero. reflexivity.
  - intros Ha [Hw Hb] Hwk Hbk Hmany.
    apply eval_of_annotated in Ha. destruct Ha as [v Hv].
    unfold record_of_line. rewrite Hv. cbn [obind].
    destruct (getlsb_nonzero (land_uint64 (pieces b KING) Hw) Hwk) as [wk ->].
    destruct (getlsb_nonzero (land_uint64 (pieces b KING) Hb) Hbk) as [bk ->].
    cbn [obind]. rewrite fill_types_overflow; rewrite ?repeat_length.
    + reflexivity.
    + lia.
    + rewrite popcount_eq in Hmany. revert Hmany.
      generalize (squares_of (Z.lor (colours b WHITE) (colours b BLACK))).
      intros sqs Hsqs. lia.
    + lia.
Qed.

(** X17.  The fields of the header that come from the board: the side to
    move as a byte, and for each side the lowest square that holds its
    king. *)
Theorem nnbook_header_of_board b junk line r :
  record_of_line b junk line = Done r ->
  rec_turn r = turn b mod 256
  /\ lowest_square (Z.land (colours b WHITE) (pieces b KING)) (rec_wksq r)
  /\ lowest_square (Z.land (colours b BLACK) (pieces b KING)) (rec_bksq r).
Proof.
  intros H. apply record_of_line_header in H.
  destruct H as (wk & bk & Hwk & Hbk & -> & -> & ->).
  apply getlsb_lowest in Hwk, Hbk.
  rewrite to_uint8_to_int8. split; [reflexivity|].
  assert (Hs : forall bb sq, lowest_square bb sq -> to_uint8 sq = sq).
  { intros bb sq (Hr & _). unfold to_uint8. apply Z.mod_small. lia. }
  rewrite (Hs _ _ Hwk), (Hs _ _ Hbk). split; assumption.
Qed.

(** X18.  On a line without any of the three markers no test stores to
    [result]: the byte written is what the variable held. *)
Theorem nnbook_unmarked_result b junk line r :
  (forall m, ~ carries line m) ->
  record_of_line b junk line = Done r ->
  rec_result r = junk.
Proof.
  intros Hno H. apply record_of_line_done in H. cbv zeta in H.
  destruct H as (_ & _ & _ & -> & _). now apply result_of_unmarked.
Qed.

End RecordFacts.

(** ** The bytes of a record *)

Lemma le_bytes_length n z : List.length (le_bytes n z) = n.
Proof.
  revert z; induction n as [|n IH]; intros z; cbn [le_bytes List.length];
    [reflexivity | now rewrite IH].
Qed.

Lemma le_bytes_range n z : Forall (fun byte => 0 <= byte < 256) (le_bytes n z).
Proof.
  revert z; induction n as [|n IH]; intros z; cbn [le_bytes]; constructor.
  - apply Z.mod_pos_bound. lia.
  - apply IH.
Qed.

Lemma to_uint8_range z : 0 <= to_uint8 z < 256.
Proof. unfold to_uint8. apply Z.mod_pos_bound. lia. Qed.

Lemma to_int16_range z : -32768 <= to_int16 z <= 32767.
Proof.
  unfold to_int16. pose proof (Z.mod_pos_bound (z + 32768) 65536). lia.
Qed.

Lemma Forall_firstn_of {A} (P : A -> Prop) k l :
  Forall P l -> Forall P (firstn k l).
Proof.
  revert k; induction l as [|a l IH]; intros [|k] H; cbn [firstn];
    try constructor; inversion H; subst; auto.
Qed.

Lemma app_inj_length {A} (a b c d : list A) :
  List.length a = List.length b -> (a ++ c = b ++ d)%list -> a = b /\ c = d.
Proof.
  revert b; induction a as [|x a IH]; intros [|y b] Hlen H;
    cbn [List.length app] in *; try discriminate; [auto|].
  injection H as -> H. injection Hlen as Hlen.
  destruct (IH b Hlen H) as [-> ->]. auto.
Qed.

Lemma le_bytes_inj n x y :
  0 <= x < 256 ^ Z.of_nat n -> 0 <= y < 256 ^ Z.of_nat n ->
  le_bytes n x = le_bytes n y -> x = y.
Proof.
  intros Hx Hy H. apply (f_equal le_value) in H.
  rewrite !le_value_le_bytes in H. rewrite !Z.mod_small in H; assumption.
Qed.

Lemma le_bytes_int16_inj x y :
  -32768 <= x <= 32767 -> -32768 <= y <= 32767 ->
  le_bytes 2 x = le_bytes 2 y -> x = y.
Proof.
  intros Hx Hy H. apply (f_equal le_value) in H.
  rewrite !le_value_le_bytes in H.
  change (256 ^ Z.of_nat 2) with 65536 in H.
  pose proof (Z.div_mod x 65536). pose proof (Z.div_mod y 65536).
  pose proof (Z.mod_pos_bound x 65536). pose proof (Z.mod_pos_bound y 65536).
  lia.
Qed.

Lemma result_of_range {PM : PieceMacros} junk line :
  0 <= junk < 256 -> 0 <= result_of junk line < 256.
Proof.
  intros H. unfold result_of.
  destruct (found line "[1.0]"), (found line "[0.5]"), (found line "[0.0]"); lia.
Qed.

Section RecordBytes.
Context {PM : PieceMacros}.

(** The fields of a record, in the ranges of their C types. *)
Lemma record_of_line_shape b junk line r :
  record_of_line b junk line = Done r ->
  -32768 <= rec_eval r <= 32767
  /\ rec_result r = result_of junk line
  /\ 0 <= rec_turn r < 256 /\ 0 <= rec_wksq r < 256 /\ 0 <= rec_bksq r < 256
  /\ 1 <= rec_count r <= 32
  /\ List.length (rec_packed r) = Z.to_nat ((rec_count r + 1) / 2)
  /\ Forall (fun byte => 0 <= byte < 256) (rec_packed r)
  /\ (board_sized b -> is_uint64 (rec_occupancy r)).
Proof.
  intros H.
  pose proof (record_of_line_header _ _ _ H) as (wk & bk & Hwk & _ & Ht & Hw & Hb).
  apply record_of_line_done in H. cbv zeta in H.
  destruct H as (Hocc & Hcount & Hev & Hres & Hn & Hpacked).
  apply eval_of_done in Hev. destruct Hev as (_ & rest & _ & _ & _ & Hev).
  apply getlsb_lowest in Hwk. destruct Hwk as (Hr & Hbit & _).
  assert (Hin : In wk (squares_of (Z.lor (colours b WHITE) (colours b BLACK)))).
  { apply squares_of_spec. split; [exact Hr|].
    rewrite Z.land_spec in Hbit. apply andb_true_iff in Hbit.
    rewrite Z.lor_spec, (proj1 Hbit). reflexivity. }
  rewrite popcount_eq in Hcount.
  split; [rewrite Hev; apply to_int16_range|].
  split; [exact Hres|].
  split; [rewrite Ht; apply to_uint8_range|].
  split; [rewrite Hw; apply to_uint8_range|].
  split; [rewrite Hb; apply to_uint8_range|].
  split; [|split; [|split]].
  - rewrite Hcount. revert Hn Hin.
    generalize (squares_of (Z.lor (colours b WHITE) (colours b BLACK))).
    intros [|sq sqs] Hn Hin; [destruct Hin|]. cbn [List.length] in *. lia.
  - rewrite Hpacked, Hcount. rewrite length_firstn, length_map, length_seq.
    revert Hn. generalize (List.length
      (squares_of (Z.lor (colours b WHITE) (colours b BLACK)))).
    intros n Hn.
    assert (Hhalf : Z.to_nat ((Z.of_nat n + 1) / 2) = ((n + 1) / 2)%nat).
    { rewrite <- (Nat2Z.id ((n + 1) / 2)).
      f_equal. rewrite Nat2Z.inj_div, Nat2Z.inj_add. reflexivity. }
    rewrite Hhalf.
    assert (((n + 1) / 2 <= 16)%nat).
    { change 16%nat with ((32 + 1) / 2)%nat. apply Nat.Div0.div_le_mono. lia. }
    lia.
  - rewrite Hpacked. apply Forall_firstn_of. apply Forall_map.
    apply Forall_forall. intros j _. unfold packed_byte. apply to_uint8_range.
  - intros [Hwu Hbu]. rewrite Hocc. now apply lor_uint64.
Qed.

(** X19.  A record is its header of 15 bytes and half a byte for each piece,
    rounded up: 16 to 31 bytes in all, each of them a byte. *)
Theorem nnbook_record_size b junk line r :
  0 <= junk < 256 ->
  record_of_line b junk line = Done r ->
  List.length (record_bytes r) = (15 + Z.to_nat ((rec_count r + 1) / 2))%nat
  /\ (16 <= List.length (record_bytes r) <= 31)%nat
  /\ Forall (fun byte => 0 <= byte < 256) (record_bytes r).
Proof.
  intros Hjunk H. apply record_of_line_shape in H.
  destruct H as (_ & Hres & Ht & Hw & Hb & Hc & Hlen & Hbody & _).
  unfold record_bytes.
  rewrite !length_app, !le_bytes_length, Hlen. cbn [List.length].
  assert (1 <= (rec_count r + 1) / 2 <= 16).
  { split.
    - apply Z.div_le_lower_bound; lia.
    - apply Z.lt_succ_r. apply Z.div_lt_upper_bound; lia. }
  split; [lia|]. split; [lia|].
  repeat (apply Forall_app; split); try apply le_bytes_range; [|exact Hbody].
  repeat constructor; try lia.
  all: rewrite Hres; apply (result_of_range line Hjunk).
Qed.

(** X20.  A record tells where it ends: when the bytes of two records, each
    followed by anything, are the same, the records are the same and so
    is what follows them.  So the file splits into its records in one
    way only. *)
Theorem nnbook_records_decodable b1 b2 junk1 junk2 line1 line2 r1 r2 s1 s2 :
  board_sized b1 -> board_sized b2 ->
  record_of_line b1 junk1 line1 = Done r1 ->
  record_of_line b2 junk2 line2 = Done r2 ->
  (record_bytes r1 ++ s1 = record_bytes r2 ++ s2)%list ->
  r1 = r2 /\ s1 = s2.
Proof.
  intros Hb1 Hb2 H1 H2 Heq.
  apply record_of_line_shape in H1, H2.
  destruct H1 as (He1 & _ & _ & _ & _ & _ & Hl1 & _ & Ho1).
  destruct H2 as (He2 & _ & _ & _ & _ & _ & Hl2 & _ & Ho2).
  specialize (Ho1 Hb1). specialize (Ho2 Hb2).
  destruct r1 as [o1 e1 res1 t1 w1 k1 c1 p1], r2 as [o2 e2 res2 t2 w2 k2 c2 p2].
  unfold record_bytes in Heq.
  cbn [rec_occupancy rec_eval rec_result rec_turn rec_wksq rec_bksq rec_count
       rec_packed] in *.
  rewrite <- !app_assoc in Heq.
  apply app_inj_length in Heq; [|now rewrite !le_bytes_length].
  destruct Heq as [Ho Heq].
  apply app_inj_length in Heq; [|now rewrite !le_bytes_length].
  destruct Heq as [He Heq].
  cbn [app] in Heq. injection Heq as -> -> -> -> -> Heq.
  apply app_inj_length in Heq; [|congruence].
  destruct Heq as [-> ->].
  apply le_bytes_inj in Ho; [|exact Ho1 | exact Ho2].
  apply le_bytes_int16_inj in He; [|exact He1 | exact He2].
  subst. auto.
Qed.

End RecordBytes.

(** ** Books on which [buildNNBook] comes to an end *)

Section NNBookTotal.
Context {EH : EngineHandle} {PM : PieceMacros}.

Lemma record_of_line_encodable b junk line :
  board_sized b -> annotated line -> encodable b ->
  exists r, record_of_line b junk line = Done r.
Proof.
  intros [Hw Hb] Ha (Hwk & Hbk & Hn). apply record_of_line_total; auto.
  - intros E. apply Hwk.
    destruct (Z.eq_dec (Z.land (colours b WHITE) (pieces b KING)) 0)
      as [|Hnz]; [assumption|].
    now apply (uint64_nonzero_has_square (land_uint64 (pieces b KING) Hw)) in Hnz.
  - intros E. apply Hbk.
    destruct (Z.eq_dec (Z.land (colours b BLACK) (pieces b KING)) 0)
      as [|Hnz]; [assumption|].
    now apply (uint64_nonzero_has_square (land_uint64 (pieces b KING) Hb)) in Hnz.
  - now apply eval_of_annotated.
Qed.

Lemma nnbook_line_of_record junk k line fs g r :
  record_of_line (board_of (boardFromFEN line g)) (junk k) line = Done r ->
  nnbook_line junk (Some tt) k line fs g
  = Done (tt, boardFromFEN line g, [EvBoardFromFEN line; EvWriteRecord r]).
Proof.
  intros Hr.
  assert (Hb : before_fwrite (board_of (boardFromFEN line g)) line = Done tt).
  { pose proof Hr as H. unfold record_of_line in H.
    obind_inv H as ev Hev. obind_inv H as wk Hwk. obind_inv H as bk Hbk.
    unfold before_fwrite. rewrite Hev. cbn [obind]. rewrite Hwk. cbn [obind].
    rewrite Hbk. reflexivity. }
  unfold nnbook_line, bind, call_, call, peek, lift. rewrite Hb.
  cbn [from_option]. rewrite Hr. reflexivity.
Qed.


(** X16.  The work on one line stays within defined behaviour, and then
    appends one record to the output, exactly when the output file was
    opened, the line has a "] " followed by an [int], and the board has
    both kings and at most 32 pieces.  In every other case an operation of
    the loop body is undefined: [fwrite] on a NULL stream, [tail + 2] on a
    NULL [tail], [atoi] of a number that is no [int], [getlsb] of 0, or a
    store to [types[32]]; the calls of [fwrite] themselves are under no
    test. *)
Theorem nnbook_line_defined_iff junk fout k line fs g :
  board_sized (board_of (boardFromFEN line g)) ->
  (forall u g' evs,
      nnbook_line junk fout k line fs g = Done (u, g', evs) ->
      fout = Some tt /\ annotated line
      /\ encodable (board_of (boardFromFEN line g)))
  /\ (fout = Some tt -> annotated line ->
      encodable (board_of (boardFromFEN line g)) ->
      exists r,
        nnbook_line junk fout k line fs g
        = Done (tt, boardFromFEN line g,
                [EvBoardFromFEN line; EvWriteRecord r])).
Proof.
  intros Hs. split.
  - intros u g' evs H. split; [exact (nnbook_line_stream _ _ _ _ _ _ H)|].
    apply nnbook_line_done in H. destruct H as (r & H & _).
    pose proof (record_of_line_header _ _ _ H) as (wk & bk & Hwk & Hbk & _).
    apply record_of_line_done in H. cbv zeta in H.
    destruct H as (_ & _ & Hev & _ & Hn & _).
    split; [apply eval_of_annotated; eauto|].
    split; [eapply getlsb_done_nonzero; eauto|].
    split; [eapply getlsb_done_nonzero; eauto|].
    rewrite popcount_eq. revert Hn.
    generalize (squares_of (Z.lor (colours (board_of (boardFromFEN line g)) WHITE)
                                  (colours (board_of (boardFromFEN line g)) BLACK))).
    intros sqs Hsqs. lia.
  - intros -> Ha He.
    destruct (record_of_line_encodable (junk k) Hs Ha He) as [r Hr].
    exists r. now apply nnbook_line_of_record.
Qed.


End NNBookTotal.

(** *** The encoder on sample lines *)

Lemma three_piece_record_done :
  record_of_line three_piece_board 7 three_piece_line = Done three_piece_record.
Proof. vm_compute. reflexivity. Qed.

Lemma three_piece_board_sized : board_sized three_piece_board.
Proof. split; vm_compute; split; congruence. Qed.

Lemma three_piece_encodable : encodable three_piece_board.
Proof. repeat split; vm_compute; congruence. Qed.

Lemma three_piece_annotated : annotated three_piece_line.
Proof. apply eval_of_annotated. eexists. vm_compute. reflexivity. Qed.

Lemma unmarked_line_carries_none m : ~ carries unmarked_line m.
Proof.
  unfold carries. apply found_false_iff. destruct m; vm_compute; reflexivity.
Qed.


Lemma nnbook_line_failures_witness :
  record_of_line three_piece_board 7 bare_line = Fault (NullPointer "tail")
  /\ record_of_line (sample_board_of crowded_line) 7 crowded_line
     = Fault (OutOfBounds "types" 32).
Proof.
  pose proof (@nnbook_line_failures sample_macros three_piece_board 7 bare_line)
    as (Hbare & _).
  pose proof (@nnbook_line_failures sample_macros
                (sample_board_of crowded_line) 7 crowded_line)
    as (_ & _ & Hcrowded).
  split.
  - apply Hbare. apply found_false_iff. vm_compute. reflexivity.
  - apply Hcrowded.
    + apply eval_of_annotated. eexists. vm_compute. reflexivity.
    + split; vm_compute; split; congruence.
    + vm_compute. congruence.
    + vm_compute. congruence.
    + vm_compute. reflexivity.
Defined.

Lemma nnbook_line_defined_witness :
  board_sized (sample_board_of three_piece_line)
  /\ exists r,
       nnbook_line (fun _ => 7) (Some tt) 0 three_piece_line sample_files
         sample_start
       = Done (tt, boardFromFEN three_piece_line sample_start,
               [EvBoardFromFEN three_piece_line; EvWriteRecord r]).
Proof.
  assert (Hs : board_sized (sample_board_of three_piece_line))
    by (split; vm_compute; split; congruence).
  assert (He : encodable (sample_board_of three_piece_line))
    by (repeat split; vm_compute; congruence).
  split; [exact Hs|].
  exact (proj2 (@nnbook_line_defined_iff sample_engine sample_macros
                  (fun _ => 7) (Some tt) 0%nat three_piece_line sample_files
                  sample_start Hs)
               eq_refl three_piece_annotated He).
Defined.

Lemma nnbook_header_witness :
  record_of_line three_piece_board 7 three_piece_line = Done three_piece_record
  /\ rec_wksq three_piece_record = 4 /\ rec_bksq three_piece_record = 60
  /\ lowest_square (Z.land (colours three_piece_board WHITE)
                           (pieces three_piece_board KING)) 4.
Proof.
  split; [exact three_piece_record_done|]. split; [reflexivity|].
  split; [reflexivity|].
  exact (proj1 (proj2 (@nnbook_header_of_board sample_macros three_piece_board 7
                         three_piece_line three_piece_record
                         three_piece_record_done))).
Defined.

Lemma nnbook_unmarked_witness :
  (forall m, ~ carries unmarked_line m)
  /\ exists r, record_of_line three_piece_board 7 unmarked_line = Done r
               /\ rec_result r = 7.
Proof.
  split; [exact unmarked_line_carries_none|].
  assert (H : exists r, record_of_line three_piece_board 7 unmarked_line = Done r)
    by (eexists; vm_compute; reflexivity).
  destruct H as [r H]. exists r. split; [exact H|].
  exact (@nnbook_unmarked_result sample_macros three_piece_board 7 unmarked_line r
           unmarked_line_carries_none H).
Defined.

Lemma nnbook_record_size_witness :
  0 <= 7 < 256
  /\ record_of_line three_piece_board 7 three_piece_line = Done three_piece_record
  /\ List.length (record_bytes three_piece_record) = 17%nat.
Proof.
  assert (Hj : 0 <= 7 < 256) by lia.
  split; [exact Hj|]. split; [exact three_piece_record_done|].
  exact (proj1 (@nnbook_record_size sample_macros three_piece_board 7
                  three_piece_line three_piece_record Hj
                  three_piece_record_done)).
Defined.

Lemma nnbook_records_decodable_witness :
  board_sized three_piece_board
  /\ record_of_line three_piece_board 7 three_piece_line = Done three_piece_record
  /\ (record_bytes three_piece_record ++ [1; 2] 
      = record_bytes three_piece_record ++ [1; 2])%list
  /\ three_piece_record = three_piece_record.
Proof.
  split; [exact three_piece_board_sized|].
  split; [exact three_piece_record_done|]. split; [reflexivity|].
  exact (proj1 (@nnbook_records_decodable sample_macros
                  three_piece_board three_piece_board 7 7
                  three_piece_line three_piece_line
                  three_piece_record three_piece_record [1; 2] [1; 2]
                  three_piece_board_sized three_piece_board_sized
                  three_piece_record_done three_piece_record_done eq_refl)).
Defined.

